(** * hook-lab: token usage reconciliation and cost attribution

    A shallow embedding of [analyze-session.py] and [analyze-hooks.py]:
    the line reader, the two [parse_session] scans (delta accumulation
    and store-the-maximum), the haiku classifier, the categorisation
    loop and the two [calculate_cost] functions.

    Conventions of the embedding.
    - A Python [int] is a [Z]; a [bool] used as a number is 0 or 1.
    - A Python [str] is a [string] whose characters are code points
      below 256; JSON floats are not part of the value type.
    - A Python [dict] is an association list in insertion order.
    - A raised exception is the [Raise] branch of [result]. *)

From Stdlib Require Import ZArith List String Ascii Bool Lia QArith Floats.
Import ListNotations.

Local Open Scope string_scope.
Local Open Scope Z_scope.

Set Implicit Arguments.
Set Warnings "-register-all,-inexact-float".

(** ** Exceptions *)

Inductive exn : Type :=
| AttributeError
| TypeError
| KeyError
| OverflowError
| JSONDecodeError
| ValueError
| RecursionError.

Inductive result (A : Type) : Type :=
| Ok (a : A)
| Raise (e : exn).

Arguments Ok {A} a.
Arguments Raise {A} e.

Definition bind {A B : Type} (r : result A) (k : A -> result B) : result B :=
  match r with
  | Ok a => k a
  | Raise e => Raise e
  end.

Declare Scope py_scope.
Delimit Scope py_scope with py.
Notation "x <- c ;; k" := (bind c (fun x => k))
  (at level 61, c at next level, right associativity) : py_scope.
Notation "c ;;; k" := (bind c (fun _ => k))
  (at level 61, right associativity) : py_scope.
Local Open Scope py_scope.

(** A [for] loop whose body may raise: the state is threaded from one
    iteration to the next and the first exception ends the loop. *)
Fixpoint for_each {A S : Type} (body : S -> A -> result S) (st : S) (xs : list A)
  : result S :=
  match xs with
  | [] => Ok st
  | x :: rest => st' <- body st x ;; for_each body st' rest
  end.

(** ** JSON values, as [json.loads] builds them *)

(** An object lists each of its keys once, in the order of the text. *)
Inductive json : Type :=
| JNull
| JBool (b : bool)
| JInt (n : Z)
| JStr (s : string)
| JList (items : list json)
| JDict (fields : list (string * json)).

(** [bool(x)]. *)
Definition truthy (x : json) : bool :=
  match x with
  | JNull => false
  | JBool b => b
  | JInt n => negb (n =? 0)
  | JStr s => negb (s =? "")%string
  | JList items => match items with [] => false | _ => true end
  | JDict fields => match fields with [] => false | _ => true end
  end.

Fixpoint lookup (k : string) (fields : list (string * json)) : option json :=
  match fields with
  | [] => None
  | (k', v) :: rest => if (k' =? k)%string then Some v else lookup k rest
  end.

(** [d.get(k, default)] on a value known to be a dict. *)
Definition get (fields : list (string * json)) (k : string) (default : json) : json :=
  match lookup k fields with
  | Some v => v
  | None => default
  end.

(** [x.get(k, default)]: only a dict has the method. *)
Definition py_get (x : json) (k : string) (default : json) : result json :=
  match x with
  | JDict fields => Ok (get fields k default)
  | _ => Raise AttributeError
  end.

(** An operand of [>], [-] or [max] against an int: ints and bools
    compare, every other JSON value raises [TypeError]. *)
Definition as_int (x : json) : result Z :=
  match x with
  | JInt n => Ok n
  | JBool b => Ok (Z.b2z b)
  | _ => Raise TypeError
  end.

(** [x == 'literal']. *)
Definition str_eq (x : json) (lit : string) : bool :=
  match x with
  | JStr s => (s =? lit)%string
  | _ => false
  end.

(** ** Dictionary keys *)

(** The hashable JSON values; [True] and [1] are the same key. *)
Inductive key : Type :=
| KNone
| KInt (n : Z)
| KStr (s : string).

Definition key_eqb (a b : key) : bool :=
  match a, b with
  | KNone, KNone => true
  | KInt m, KInt n => m =? n
  | KStr s, KStr t => (s =? t)%string
  | _, _ => false
  end.

(** [hash(x)]: lists and dicts are unhashable. *)
Definition hash_key (x : json) : result key :=
  match x with
  | JNull => Ok KNone
  | JBool b => Ok (KInt (Z.b2z b))
  | JInt n => Ok (KInt n)
  | JStr s => Ok (KStr s)
  | JList _ => Raise TypeError
  | JDict _ => Raise TypeError
  end.

Definition key_truthy (k : key) : bool :=
  match k with
  | KNone => false
  | KInt n => negb (n =? 0)
  | KStr s => negb (s =? "")%string
  end.

Section Dict.
Variable V : Type.

(** [d.get(k)]. *)
Fixpoint dict_get (k : key) (d : list (key * V)) : option V :=
  match d with
  | [] => None
  | (k', v) :: rest => if key_eqb k' k then Some v else dict_get k rest
  end.

(** [d[k] = v]: an existing key keeps its position, a new key goes
    last. *)
Fixpoint dict_set (k : key) (v : V) (d : list (key * V)) : list (key * V) :=
  match d with
  | [] => [(k, v)]
  | (k', v') :: rest =>
      if key_eqb k' k then (k', v) :: rest else (k', v') :: dict_set k v rest
  end.

Definition dict_mem (k : key) (d : list (key * V)) : bool :=
  match dict_get k d with Some _ => true | None => false end.
End Dict.

(** ** Strings *)

(** [str.lower()] on one code point below 256: A-Z and the Latin-1
    capitals U+00C0..U+00DE (without U+00D7) move up by 32. *)
Definition lower_char (c : ascii) : ascii :=
  let n := N_of_ascii c in
  if ((65 <=? n) && (n <=? 90)
      || (192 <=? n) && (n <=? 214)
      || (216 <=? n) && (n <=? 222))%N
  then ascii_of_N (n + 32)
  else c.

Fixpoint lower (s : string) : string :=
  match s with
  | EmptyString => EmptyString
  | String c rest => String (lower_char c) (lower rest)
  end.

(** [sub in s]. *)
Fixpoint contains (sub s : string) : bool :=
  String.prefix sub s
  || match s with
     | EmptyString => false
     | String _ rest => contains sub rest
     end.

(** [s[:n]]. *)
Definition slice_to (n : nat) (s : string) : string := substring 0 n s.

(** ** Usage counters *)

(** The four counters of a usage snapshot. *)
Inductive counter : Type :=
| InputTokens
| OutputTokens
| CacheCreation
| CacheRead.

(** The key of a counter in the [usage] object of a record. *)
Definition usage_key (c : counter) : string :=
  match c with
  | InputTokens => "input_tokens"
  | OutputTokens => "output_tokens"
  | CacheCreation => "cache_creation_input_tokens"
  | CacheRead => "cache_read_input_tokens"
  end.

Record usage_row : Type := {
  input_tokens : Z;
  output_tokens : Z;
  cache_creation : Z;
  cache_read : Z;
}.

Definition zero_row : usage_row :=
  {| input_tokens := 0; output_tokens := 0; cache_creation := 0; cache_read := 0 |}.

Definition row_get (r : usage_row) (c : counter) : Z :=
  match c with
  | InputTokens => input_tokens r
  | OutputTokens => output_tokens r
  | CacheCreation => cache_creation r
  | CacheRead => cache_read r
  end.

Definition row_set (c : counter) (v : Z) (r : usage_row) : usage_row :=
  match c with
  | InputTokens =>
      {| input_tokens := v; output_tokens := output_tokens r;
         cache_creation := cache_creation r; cache_read := cache_read r |}
  | OutputTokens =>
      {| input_tokens := input_tokens r; output_tokens := v;
         cache_creation := cache_creation r; cache_read := cache_read r |}
  | CacheCreation =>
      {| input_tokens := input_tokens r; output_tokens := output_tokens r;
         cache_creation := v; cache_read := cache_read r |}
  | CacheRead =>
      {| input_tokens := input_tokens r; output_tokens := output_tokens r;
         cache_creation := cache_creation r; cache_read := v |}
  end.

(** [usage.get(key, 0)] read as a number. *)
Definition usage_value (usage : json) (c : counter) : result Z :=
  v <- py_get usage (usage_key c) (JInt 0) ;; as_int v.

(** ** Float arithmetic *)

(** The float operations [calculate_cost] uses. The code is written once
    over this interface and read over two number systems: IEEE binary64,
    which is what runs, and the exact rationals, in which the pricing
    formula is stated. *)
Class PyFloat (F : Type) : Type := {
  (** the conversion of an int operand; [OverflowError] out of range *)
  float_of_int : Z -> result F;
  (** the value of a decimal literal of the source *)
  float_lit : Q -> F;
  fadd : F -> F -> F;
  fmul : F -> F -> F;
  fdiv : F -> F -> F;
}.

Section Mixed.
Context {F : Type} `{PyFloat F}.

(** [n * x] for an int [n] and a float [x]. *)
Definition mul_int_float (n : Z) (x : F) : result F :=
  f <- float_of_int n ;; Ok (fmul f x).

(** [x / n] for a float [x] and a non-zero int [n]. *)
Definition div_float_int (x : F) (n : Z) : result F :=
  f <- float_of_int n ;; Ok (fdiv x f).

(** [n + x] for an int [n] and a float [x]. *)
Definition add_int_float (n : Z) (x : F) : result F :=
  f <- float_of_int n ;; Ok (fadd f x).
End Mixed.

(** Exact rational arithmetic. *)
#[export] Instance exact : PyFloat Q := {|
  float_of_int := fun n => Ok (inject_Z n);
  float_lit := fun q => q;
  fadd := Qplus;
  fmul := Qmult;
  fdiv := Qdiv;
|}.

(** The binary64 number nearest to an integer (infinite when the
    integer is too large). *)
Definition Z2float (n : Z) : float := SF2Prim (binary_normalize prec emax n 0 false).

(** IEEE binary64, the arithmetic of a Python [float]. An int converts
    to the nearest float, ties to even; the conversion raises when that
    float would be out of range, which is from 2^1024 - 2^970 on. A
    literal of the source is the quotient of its numerator and
    denominator, both of which are exact and whose quotient IEEE
    division rounds correctly. *)
#[export] Instance binary64 : PyFloat float := {|
  float_of_int := fun n =>
    if Z.abs n <? 2 ^ 1024 - 2 ^ 970 then Ok (Z2float n)
    else Raise OverflowError;
  float_lit := fun q => PrimFloat.div (Z2float (Qnum q)) (Z2float (Zpos (Qden q)));
  fadd := PrimFloat.add;
  fmul := PrimFloat.mul;
  fdiv := PrimFloat.div;
|}.

(** ** Log reader *)

Section Reader.
(** [json.loads], with [None] for [JSONDecodeError]. *)
Variable json_loads : string -> option json.

(** The [try: entries.append(json.loads(line)) except: continue] loop. *)
Fixpoint read_entries (lines : list string) : list json :=
  match lines with
  | [] => []
  | line :: rest =>
      match json_loads line with
      | Some entry => entry :: read_entries rest
      | None => read_entries rest
      end
  end.
End Reader.

(** ** analyze-session.py *)

Module Session.

(** The dict returned by [parse_session], without the path-derived
    [session_id] and [file_path] and the always-empty [messages]. *)
Record session : Type := {
  entry_count : Z;
  totals : usage_row;
  thinking_tokens : Z;
  by_request : list (key * usage_row);
  user_prompts : list string;
  api_calls : Z;
  tool_uses : list json;
  thinking_blocks : Z;
}.

Definition empty_result (n : Z) : session :=
  {| entry_count := n; totals := zero_row; thinking_tokens := 0;
     by_request := []; user_prompts := []; api_calls := 0;
     tool_uses := []; thinking_blocks := 0 |}.

Definition set_usage (t : usage_row) (b : list (key * usage_row)) (r : session)
  : session :=
  {| entry_count := entry_count r; totals := t;
     thinking_tokens := thinking_tokens r; by_request := b;
     user_prompts := user_prompts r; api_calls := api_calls r;
     tool_uses := tool_uses r; thinking_blocks := thinking_blocks r |}.

Definition add_user_prompt (p : string) (r : session) : session :=
  {| entry_count := entry_count r; totals := totals r;
     thinking_tokens := thinking_tokens r; by_request := by_request r;
     user_prompts := user_prompts r ++ [p]; api_calls := api_calls r;
     tool_uses := tool_uses r; thinking_blocks := thinking_blocks r |}.

Definition add_api_call (r : session) : session :=
  {| entry_count := entry_count r; totals := totals r;
     thinking_tokens := thinking_tokens r; by_request := by_request r;
     user_prompts := user_prompts r; api_calls := api_calls r + 1;
     tool_uses := tool_uses r; thinking_blocks := thinking_blocks r |}.

Definition add_tool_use (name : json) (r : session) : session :=
  {| entry_count := entry_count r; totals := totals r;
     thinking_tokens := thinking_tokens r; by_request := by_request r;
     user_prompts := user_prompts r; api_calls := api_calls r;
     tool_uses := tool_uses r ++ [name]; thinking_blocks := thinking_blocks r |}.

Definition add_thinking_block (r : session) : session :=
  {| entry_count := entry_count r; totals := totals r;
     thinking_tokens := thinking_tokens r; by_request := by_request r;
     user_prompts := user_prompts r; api_calls := api_calls r;
     tool_uses := tool_uses r; thinking_blocks := thinking_blocks r + 1 |}.

(** ['uuid' in entry]. *)
Definition has_uuid (entry : json) : result bool :=
  match entry with
  | JDict fields =>
      Ok (match lookup "uuid" fields with Some _ => true | None => false end)
  | JStr s => Ok (contains "uuid" s)
  | JList items => Ok (existsb (fun x => str_eq x "uuid") items)
  | _ => Raise TypeError
  end.

(** [entry['uuid']]. *)
Definition index_uuid (entry : json) : result json :=
  match entry with
  | JDict fields =>
      match lookup "uuid" fields with
      | Some v => Ok v
      | None => Raise KeyError
      end
  | _ => Raise TypeError
  end.

(** The loop that fills [uuid_map]. *)
Definition build_uuid_map (entries : list json) : result (list (key * json)) :=
  for_each
    (fun uuid_map entry =>
       present <- has_uuid entry ;;
       if present : bool then
         uuid <- index_uuid entry ;;
         k <- hash_key uuid ;;
         Ok (dict_set k entry uuid_map)
       else Ok uuid_map)
    [] entries.

(** The [if entry_type == 'user'] block; [entry] is a dict here. *)
Definition track_user (entry : json) (r : session) : result session :=
  msg <- py_get entry "message" (JDict []) ;;
  match msg with
  | JDict fields =>
      match get fields "content" (JStr "") with
      | JStr content =>
          if negb (content =? "")%string
          then Ok (add_user_prompt (slice_to 100 content) r)
          else Ok r
      | _ => Ok r
      end
  | _ => Ok r
  end.

(** One iteration of [for key in [...]]: the totals grow by the
    amount by which the snapshot exceeds the stored value. *)
Definition fold_counter (usage : json) (acc : usage_row * usage_row) (c : counter)
  : result (usage_row * usage_row) :=
  let (tot, req_data) := acc in
  val <- usage_value usage c ;;
  if val >? row_get req_data c
  then Ok (row_set c (row_get tot c + (val - row_get req_data c)) tot,
           row_set c val req_data)
  else Ok (tot, req_data).

Definition usage_keys : list counter :=
  [InputTokens; OutputTokens; CacheCreation; CacheRead].

(** The [if usage:] block. [by_request] is a defaultdict: reading a
    missing id stores a row of zeros, which the loop then updates in
    place. *)
Definition row_of (k : key) (b : list (key * usage_row)) : usage_row :=
  match dict_get k b with
  | Some row => row
  | None => zero_row
  end.

Definition fold_usage (request_id usage : json) (r : session) : result session :=
  k <- hash_key request_id ;;
  let req_data := row_of k (by_request r) in
  acc <- for_each (fold_counter usage) (totals r, req_data) usage_keys ;;
  Ok (set_usage (fst acc) (dict_set k (snd acc) (by_request r)) r).

(** The [for item in content] loop. *)
Definition track_item (r : session) (item : json) : session :=
  match item with
  | JDict fields =>
      let content_type := get fields "type" JNull in
      if str_eq content_type "thinking" then add_thinking_block r
      else if str_eq content_type "tool_use"
           then add_tool_use (get fields "name" (JStr "unknown")) r
           else r
  | _ => r
  end.

Definition track_content (content : json) (r : session) : session :=
  match content with
  | JList items => fold_left track_item items r
  | _ => r
  end.

(** The loop state: the local set [seen_request_ids] and [result]. *)
Definition scan_state : Type := (list key * session)%type.

(** [if request_id and request_id not in seen_request_ids]. *)
Definition count_api_call (request_id : json) (st : scan_state) : result scan_state :=
  let (seen, r) := st in
  if truthy request_id then
    k <- hash_key request_id ;;
    if existsb (key_eqb k) seen then Ok (seen, r)
    else Ok ((seen ++ [k])%list, add_api_call r)
  else Ok (seen, r).

(** The [if entry_type == 'assistant'] block. *)
Definition track_assistant (entry : json) (st : scan_state) : result scan_state :=
  msg <- py_get entry "message" (JDict []) ;;
  request_id <- py_get entry "requestId" (JStr "") ;;
  st1 <- count_api_call request_id st ;;
  usage <- py_get msg "usage" (JDict []) ;;
  r2 <- (if truthy usage then fold_usage request_id usage (snd st1)
         else Ok (snd st1)) ;;
  content <- py_get msg "content" (JList []) ;;
  Ok (fst st1, track_content content r2).

(** The body of [for entry in entries]. *)
Definition scan_entry (st : scan_state) (entry : json) : result scan_state :=
  entry_type <- py_get entry "type" JNull ;;
  st1 <- (if str_eq entry_type "user"
          then r <- track_user entry (snd st) ;; Ok (fst st, r)
          else Ok st) ;;
  if str_eq entry_type "assistant" then track_assistant entry st1 else Ok st1.

Definition scan (st : scan_state) (entries : list json) : result scan_state :=
  for_each scan_entry st entries.

Definition parse_entries (entries : list json) : result session :=
  build_uuid_map entries ;;;
  st <- scan ([], empty_result (Z.of_nat (List.length entries))) entries ;;
  Ok (snd st).

Definition parse_session (json_loads : string -> option json) (lines : list string)
  : result session :=
  parse_entries (read_entries json_loads lines).

(** The dict returned by [calculate_cost]. *)
Record cost_breakdown (F : Type) : Type := {
  input_cost : F;
  output_cost : F;
  cache_read_cost : F;
  cache_create_cost : F;
  total_cost : F;
}.

Section Cost.
Context {F : Type} `{PyFloat F}.

(** [rate / 1_000_000]. *)
Definition per_token (rate : Q) : result F := div_float_int (float_lit rate) 1000000.

Definition calculate_cost (t : usage_row) : result (cost_breakdown F) :=
  input_rate <- per_token 15.0 ;;
  output_rate <- per_token 75.0 ;;
  cache_read_rate <- per_token 1.50 ;;
  cache_create_rate <- per_token 18.75 ;;
  ic <- mul_int_float (input_tokens t) input_rate ;;
  oc <- mul_int_float (output_tokens t) output_rate ;;
  crc <- mul_int_float (cache_read t) cache_read_rate ;;
  ccc <- mul_int_float (cache_creation t) cache_create_rate ;;
  Ok {| input_cost := ic;
        output_cost := oc;
        cache_read_cost := crc;
        cache_create_cost := ccc;
        total_cost := fadd (fadd (fadd ic oc) crc) ccc |}.
End Cost.

End Session.

(** ** analyze-hooks.py *)

(** The heuristic of the categorisation loop: ['haiku' in model.lower()]. *)
Definition is_hook (model : string) : bool := contains "haiku" (lower model).

Module Hooks.

(** A value of [seen_request_ids]: the model of the first snapshot and
    the largest value seen of each counter. *)
Record call : Type := {
  model : json;
  tokens : usage_row;
}.

(** [result['main_agent']]. *)
Record main_agent_t : Type := {
  api_calls : Z;
  main_tokens : usage_row;
  models : list (key * Z);
}.

(** [result['hooks']['prompt']]; the [command] and [agent] entries of
    [result['hooks']] are never written and stay zero. *)
Record prompt_t : Type := {
  count : Z;
  prompt_input_tokens : Z;
  prompt_output_tokens : Z;
}.

(** A user prompt preview with the record's timestamp. *)
Record prompt_preview : Type := {
  content : string;
  timestamp : json;
}.

(** The dict returned by [parse_session], without [session_id],
    [file_path] and the always-empty [additional_context]. *)
Record analysis : Type := {
  entry_count : Z;
  main_agent : main_agent_t;
  hooks_prompt : prompt_t;
  api_calls_by_model : list (key * list call);
  user_prompts : list prompt_preview;
  tool_uses : list json;
}.

(** What the first loop writes: [seen_request_ids] and two lists. *)
Record scan_state : Type := {
  seen_request_ids : list (key * call);
  scan_user_prompts : list prompt_preview;
  scan_tool_uses : list json;
}.

Definition empty_scan : scan_state :=
  {| seen_request_ids := []; scan_user_prompts := []; scan_tool_uses := [] |}.

(** The [if entry_type == 'user'] block; [entry] is a dict here. *)
Definition track_user (entry : json) (st : scan_state) : result scan_state :=
  msg <- py_get entry "message" (JDict []) ;;
  match msg with
  | JDict fields =>
      match get fields "content" (JStr "") with
      | JStr text =>
          if negb (text =? "")%string
          then
            ts <- py_get entry "timestamp" JNull ;;
            Ok {| seen_request_ids := seen_request_ids st;
                  scan_user_prompts :=
                    scan_user_prompts st
                      ++ [{| content := slice_to 200 text; timestamp := ts |}];
                  scan_tool_uses := scan_tool_uses st |}
          else Ok st
      | _ => Ok st
      end
  | _ => Ok st
  end.

(** [seen_request_ids.get(request_id, {'model': model, ...zeros})]. *)
Definition call_of (k : key) (m : json) (seen : list (key * call)) : call :=
  match dict_get k seen with
  | Some c => c
  | None => {| model := m; tokens := zero_row |}
  end.

(** The [if usage and request_id] block: each counter of the stored
    call becomes the maximum of itself and the snapshot's value. *)
Definition fold_usage (request_id m usage : json) (seen : list (key * call))
  : result (list (key * call)) :=
  k <- hash_key request_id ;;
  let current := call_of k m seen in
  i <- usage_value usage InputTokens ;;
  o <- usage_value usage OutputTokens ;;
  cc <- usage_value usage CacheCreation ;;
  cr <- usage_value usage CacheRead ;;
  Ok (dict_set k
        {| model := model current;
           tokens :=
             {| input_tokens := Z.max (input_tokens (tokens current)) i;
                output_tokens := Z.max (output_tokens (tokens current)) o;
                cache_creation := Z.max (cache_creation (tokens current)) cc;
                cache_read := Z.max (cache_read (tokens current)) cr |} |}
        seen).

(** The [for item in content] loop. *)
Definition track_item (uses : list json) (item : json) : list json :=
  match item with
  | JDict fields =>
      if str_eq (get fields "type" JNull) "tool_use"
      then uses ++ [get fields "name" (JStr "unknown")]
      else uses
  | _ => uses
  end.

Definition track_content (content : json) (uses : list json) : list json :=
  match content with
  | JList items => fold_left track_item items uses
  | _ => uses
  end.

(** The [if entry_type == 'assistant'] block. *)
Definition track_assistant (entry : json) (st : scan_state) : result scan_state :=
  msg <- py_get entry "message" (JDict []) ;;
  request_id <- py_get entry "requestId" (JStr "") ;;
  model <- py_get msg "model" (JStr "unknown") ;;
  usage <- py_get msg "usage" (JDict []) ;;
  seen <- (if truthy usage && truthy request_id
           then fold_usage request_id model usage (seen_request_ids st)
           else Ok (seen_request_ids st)) ;;
  content <- py_get msg "content" (JList []) ;;
  Ok {| seen_request_ids := seen;
        scan_user_prompts := scan_user_prompts st;
        scan_tool_uses := track_content content (scan_tool_uses st) |}.

(** The body of [for entry in entries]. *)
Definition scan_entry (st : scan_state) (entry : json) : result scan_state :=
  entry_type <- py_get entry "type" JNull ;;
  st1 <- (if str_eq entry_type "user" then track_user entry st else Ok st) ;;
  if str_eq entry_type "assistant" then track_assistant entry st1 else Ok st1.

Definition scan (st : scan_state) (entries : list json) : result scan_state :=
  for_each scan_entry st entries.

(** What the categorisation loop writes. *)
Record categories : Type := {
  cat_main_agent : main_agent_t;
  cat_prompt : prompt_t;
  cat_by_model : list (key * list call);
}.

Definition empty_categories : categories :=
  {| cat_main_agent := {| api_calls := 0; main_tokens := zero_row; models := [] |};
     cat_prompt := {| count := 0; prompt_input_tokens := 0;
                      prompt_output_tokens := 0 |};
     cat_by_model := [] |}.

(** [model.lower()] on the stored model, which need not be a str. *)
Definition classify (m : json) : result bool :=
  match m with
  | JStr s => Ok (is_hook s)
  | _ => Raise AttributeError
  end.

Definition add_hook_call (data : call) (p : prompt_t) : prompt_t :=
  {| count := count p + 1;
     prompt_input_tokens :=
       prompt_input_tokens p
       + (input_tokens (tokens data) + cache_read (tokens data));
     prompt_output_tokens :=
       prompt_output_tokens p + output_tokens (tokens data) |}.

Definition add_main_call (k : key) (data : call) (m : main_agent_t) : main_agent_t :=
  {| api_calls := api_calls m + 1;
     main_tokens :=
       {| input_tokens :=
            input_tokens (main_tokens m) + input_tokens (tokens data);
          output_tokens :=
            output_tokens (main_tokens m) + output_tokens (tokens data);
          cache_creation :=
            cache_creation (main_tokens m) + cache_creation (tokens data);
          cache_read :=
            cache_read (main_tokens m) + cache_read (tokens data) |};
     models :=
       dict_set k
         (match dict_get k (models m) with Some n => n | None => 0 end + 1)
         (models m) |}.

(** The body of [for req_id, data in seen_request_ids.items()]. *)
Definition categorize_call (acc : categories) (item : key * call) : result categories :=
  let data := snd item in
  hook <- classify (model data) ;;
  k <- hash_key (model data) ;;
  let by_model :=
    dict_set k
      (match dict_get k (cat_by_model acc) with Some l => l | None => [] end
       ++ [data])%list
      (cat_by_model acc) in
  if hook : bool then
    Ok {| cat_main_agent := cat_main_agent acc;
          cat_prompt := add_hook_call data (cat_prompt acc);
          cat_by_model := by_model |}
  else
    Ok {| cat_main_agent := add_main_call k data (cat_main_agent acc);
          cat_prompt := cat_prompt acc;
          cat_by_model := by_model |}.

Definition categorize (seen : list (key * call)) : result categories :=
  for_each categorize_call empty_categories seen.

Definition parse_entries (entries : list json) : result analysis :=
  st <- scan empty_scan entries ;;
  cats <- categorize (seen_request_ids st) ;;
  Ok {| entry_count := Z.of_nat (List.length entries);
        main_agent := cat_main_agent cats;
        hooks_prompt := cat_prompt cats;
        api_calls_by_model := cat_by_model cats;
        user_prompts := scan_user_prompts st;
        tool_uses := scan_tool_uses st |}.

Definition parse_session (json_loads : string -> option json) (lines : list string)
  : result analysis :=
  parse_entries (read_entries json_loads lines).

(** A row of the [pricing] table: rates per 1M tokens. *)
Record rates : Type := {
  input : Q;
  output : Q;
  rate_cache_read : Q;
  rate_cache_create : Q;
}.

Definition opus : rates :=
  {| input := 15.0; output := 75.0;
     rate_cache_read := 1.50; rate_cache_create := 18.75 |}.

Definition sonnet : rates :=
  {| input := 3.0; output := 15.0;
     rate_cache_read := 0.30; rate_cache_create := 3.75 |}.

Definition haiku : rates :=
  {| input := 0.25; output := 1.25;
     rate_cache_read := 0.025; rate_cache_create := 0.3125 |}.

Definition pricing : list (string * rates) :=
  [("opus", opus); ("sonnet", sonnet); ("haiku", haiku)].

Fixpoint pricing_lookup (m : string) (table : list (string * rates)) : option rates :=
  match table with
  | [] => None
  | (name, r) :: rest => if (name =? m)%string then Some r else pricing_lookup m rest
  end.

(** [pricing.get(model, pricing['opus'])]. *)
Definition pricing_get (m : string) : rates :=
  match pricing_lookup m pricing with
  | Some r => r
  | None => opus
  end.

(** [tokens.get(k, 0)] on the dict of counts passed to
    [calculate_cost]. *)
Fixpoint tokens_get (k : string) (t : list (string * Z)) : Z :=
  match t with
  | [] => 0
  | (k', n) :: rest => if (k' =? k)%string then n else tokens_get k rest
  end.

Section Cost.
Context {F : Type} `{PyFloat F}.

(** [n * rate / 1_000_000]. *)
Definition term (n : Z) (rate : Q) : result F :=
  x <- mul_int_float n (float_lit rate) ;; div_float_int x 1000000.

Definition calculate_cost (t : list (string * Z)) (m : string) : result F :=
  let p := pricing_get m in
  t1 <- term (tokens_get "input_tokens" t) (input p) ;;
  cost <- add_int_float 0 t1 ;;
  t2 <- term (tokens_get "output_tokens" t) (output p) ;;
  let cost := fadd cost t2 in
  t3 <- term (tokens_get "cache_read" t) (rate_cache_read p) ;;
  let cost := fadd cost t3 in
  t4 <- term (tokens_get "cache_creation" t) (rate_cache_create p) ;;
  let cost := fadd cost t4 in
  Ok cost.
End Cost.

End Hooks.

(** ** The log reader, with every exception of [json.loads] *)

(** [except json.JSONDecodeError]: the one exception that the reader
    catches. *)
Definition caught (e : exn) : bool :=
  match e with
  | JSONDecodeError => true
  | _ => false
  end.

Section Lines.
(** [json.loads] on a line: the value it returns or the exception it
    raises, which is [JSONDecodeError] for text that is not JSON and
    can be another one, such as [RecursionError] for text that is
    nested too deeply. *)
Variable loads : string -> result json.

(** The loop [for line in f] with its [try] and [except]: an exception
    that the clause does not catch ends the loop and the function. *)
Fixpoint read_lines (lines : list string) : result (list json) :=
  match lines with
  | [] => Ok []
  | line :: rest =>
      match loads line with
      | Ok entry => entries <- read_lines rest ;; Ok (entry :: entries)
      | Raise e => if caught e then read_lines rest else Raise e
      end
  end.

(** [json.loads] as [read_entries] takes it: the values of the lines
    on which it returns. *)
Definition decoded (line : string) : option json :=
  match loads line with
  | Ok entry => Some entry
  | Raise _ => None
  end.
End Lines.

(** [parse_session] of [analyze-session.py], from the lines of the
    file. *)
Module SessionFile.
Definition parse_session (loads : string -> result json) (lines : list string)
  : result Session.session :=
  entries <- read_lines loads lines ;; Session.parse_entries entries.
End SessionFile.

(** [parse_session] of [analyze-hooks.py], from the lines of the
    file. *)
Module HooksFile.
Definition parse_session (loads : string -> result json) (lines : list string)
  : result Hooks.analysis :=
  entries <- read_lines loads lines ;; Hooks.parse_entries entries.
End HooksFile.

(** ** Notions used to state the properties *)

(** The sum of a measure over the values of a dict. *)
Definition dict_sum {V : Type} (f : V -> Z) (d : list (key * V)) : Z :=
  fold_right (fun kv acc => f (snd kv) + acc) 0 d.

(** The items of a dict whose key satisfies [p]. *)
Definition keep {V : Type} (p : key -> bool) (d : list (key * V)) : list (key * V) :=
  filter (fun kv => p (fst kv)) d.

(** A dict with [f] applied to every value. *)
Definition dict_map {V W : Type} (f : V -> W) (d : list (key * V)) : list (key * W) :=
  map (fun kv => (fst kv, f (snd kv))) d.

(** The running maximum of a sequence of snapshot values, from the
    zero a fresh call starts with. *)
Definition running_max (vs : list Z) : Z := fold_left Z.max vs 0.

(** The request id and the usage object of an assistant record that
    carries a non-empty usage: a usage snapshot. *)
Definition assistant_usage (entry : json) : option (json * json) :=
  match entry with
  | JDict fields =>
      if str_eq (get fields "type" JNull) "assistant" then
        match get fields "message" (JDict []) with
        | JDict msg =>
            let usage := get msg "usage" (JDict []) in
            if truthy usage
            then Some (get fields "requestId" (JStr ""), usage)
            else None
        | _ => None
        end
      else None
  | _ => None
  end.

(** The value a record reports for counter [c] of call [k], if it is
    a snapshot of that call. *)
Definition snapshot_value (k : key) (c : counter) (entry : json) : option Z :=
  match assistant_usage entry with
  | Some (request_id, usage) =>
      match hash_key request_id, usage_value usage c with
      | Ok k', Ok v => if key_eqb k' k then Some v else None
      | _, _ => None
      end
  | None => None
  end.

(** The values reported for counter [c] of call [k], in file order. *)
Fixpoint snapshots (k : key) (c : counter) (entries : list json) : list Z :=
  match entries with
  | [] => []
  | entry :: rest =>
      match snapshot_value k c entry with
      | Some v => v :: snapshots k c rest
      | None => snapshots k c rest
      end
  end.

(** The reconciled value of counter [c] of call [k] in [by_request]. *)
Definition session_stored (b : list (key * usage_row)) (k : key) (c : counter) : Z :=
  row_get (Session.row_of k b) c.

(** The reconciled value of counter [c] of call [k] in
    [seen_request_ids]; zero for an id that is not stored. *)
Definition hooks_stored (seen : list (key * Hooks.call)) (k : key) (c : counter) : Z :=
  match dict_get k seen with
  | Some data => row_get (Hooks.tokens data) c
  | None => 0
  end.

(** Whether a stored call is one the categorisation loop takes for a
    hook: its model is a string that [is_hook] accepts. *)
Definition is_lightweight (data : Hooks.call) : bool :=
  match Hooks.model data with
  | JStr s => is_hook s
  | _ => false
  end.

(** The reconciled calls classified lightweight, in dict order. *)
Definition lightweight_calls (seen : list (key * Hooks.call)) : list (key * Hooks.call) :=
  filter (fun kv => is_lightweight (snd kv)) seen.

(** The reconciled calls classified primary, in dict order. *)
Definition primary_calls (seen : list (key * Hooks.call)) : list (key * Hooks.call) :=
  filter (fun kv => negb (is_lightweight (snd kv))) seen.

(** Case-insensitive comparison, stated on its own: two characters are
    the same letter when they are equal or when one is an ASCII capital
    and the other the small letter 32 code points above it. *)
Definition ascii_upper (c : ascii) : bool :=
  ((65 <=? N_of_ascii c) && (N_of_ascii c <=? 90))%N.

Definition same_letter (a b : ascii) : bool :=
  (a =? b)%char
  || ascii_upper a && (N_of_ascii a + 32 =? N_of_ascii b)%N
  || ascii_upper b && (N_of_ascii b + 32 =? N_of_ascii a)%N.

(** [s] starts with [pat], letter case ignored. *)
Fixpoint prefix_ci (pat s : string) : bool :=
  match pat, s with
  | EmptyString, _ => true
  | String _ _, EmptyString => false
  | String x pat', String c s' => same_letter c x && prefix_ci pat' s'
  end.

(** [s] contains [pat] at some position, letter case ignored. *)
Fixpoint contains_ci (pat s : string) : bool :=
  prefix_ci pat s
  || match s with
     | EmptyString => false
     | String _ rest => contains_ci pat rest
     end.

(** The pricing table as the specification prints it: currency units
    per 1,000,000 tokens for each tier and each kind of token. *)
Inductive tier : Type :=
| Primary
| Mid
| Lightweight.

Inductive cost_field : Type :=
| InputCost
| OutputCost
| CacheReadCost
| CacheCreateCost.

(** The key under which the code's table holds a tier. *)
Definition tier_name (t : tier) : string :=
  match t with
  | Primary => "opus"
  | Mid => "sonnet"
  | Lightweight => "haiku"
  end.

Definition spec_rate (t : tier) (f : cost_field) : Q :=
  match t, f with
  | Primary, InputCost => 15.00
  | Primary, OutputCost => 75.00
  | Primary, CacheReadCost => 1.50
  | Primary, CacheCreateCost => 18.75
  | Mid, InputCost => 3.00
  | Mid, OutputCost => 15.00
  | Mid, CacheReadCost => 0.30
  | Mid, CacheCreateCost => 3.75
  | Lightweight, InputCost => 0.25
  | Lightweight, OutputCost => 1.25
  | Lightweight, CacheReadCost => 0.025
  | Lightweight, CacheCreateCost => 0.3125
  end.

(** A cost component as the specification defines it:
    tokens x rate / 1,000,000, in exact arithmetic. *)
Definition spec_component (n : Z) (rate : Q) : Q :=
  (inject_Z n * rate / 1000000)%Q.

(** The ints that convert to a float. *)
Definition float_range (n : Z) : Prop := Z.abs n < 2 ^ 1024 - 2 ^ 970.

(** The component tokens x rate / 1,000,000 evaluated in binary64,
    product first. *)
Definition binary64_component (n : Z) (rate : Q) : float :=
  PrimFloat.div (PrimFloat.mul (Z2float n) (float_lit (F := float) rate))
    (Z2float 1000000).

(** The same component with the rate divided first, as the session
    analyzer evaluates it. *)
Definition binary64_per_token_component (n : Z) (rate : Q) : float :=
  PrimFloat.mul (Z2float n)
    (PrimFloat.div (float_lit (F := float) rate) (Z2float 1000000)).

(** The text of a user record whose message is an object with a
    non-empty plain string as content. *)
Definition user_text (entry : json) : option string :=
  match entry with
  | JDict fields =>
      if str_eq (get fields "type" JNull) "user" then
        match get fields "message" (JDict []) with
        | JDict msg =>
            match get msg "content" (JStr "") with
            | JStr text => if negb (text =? "")%string then Some text else None
            | _ => None
            end
        | _ => None
        end
      else None
  | _ => None
  end.

(** The texts of the user records of a log, in file order. *)
Fixpoint user_texts (entries : list json) : list string :=
  match entries with
  | [] => []
  | entry :: rest =>
      match user_text entry with
      | Some text => text :: user_texts rest
      | None => user_texts rest
      end
  end.

(** The timestamp of a record: the value under [timestamp], [None]
    for a record without one. *)
Definition record_timestamp (entry : json) : json :=
  match entry with
  | JDict fields => get fields "timestamp" JNull
  | _ => JNull
  end.

(** The texts of the user records of a log with the timestamps of
    their records, in file order. *)
Fixpoint stamped_texts (entries : list json) : list (string * json) :=
  match entries with
  | [] => []
  | entry :: rest =>
      match user_text entry with
      | Some text => (text, record_timestamp entry) :: stamped_texts rest
      | None => stamped_texts rest
      end
  end.

(** A JSON value that is an object: a record. *)
Definition is_dict (x : json) : bool :=
  match x with
  | JDict _ => true
  | _ => false
  end.

(** A JSON value that is [null], a boolean or a number. *)
Definition is_scalar (x : json) : bool :=
  match x with
  | JNull | JBool _ | JInt _ => true
  | _ => false
  end.

(** A string that has [uuid] in it, or a list that has the string
    [uuid] among its elements: the values other than objects for which
    ['uuid' in entry] holds. *)
Definition mentions_uuid (x : json) : bool :=
  match x with
  | JStr s => contains "uuid" s
  | JList items => existsb (fun item => str_eq item "uuid") items
  | _ => false
  end.

(** A log in the input format of the specification: every record is
    an object; its [uuid], if any, is a string; an assistant record has
    a string (maybe empty) or no [requestId], and a [message] object,
    if any, with a string or no [model] and a [usage] object, if any,
    whose counters are ints where present. *)
Definition is_str (x : json) : bool :=
  match x with
  | JStr _ => true
  | _ => false
  end.

Definition is_int (x : json) : bool :=
  match x with
  | JInt _ => true
  | _ => false
  end.

Definition well_formed_usage (usage : json) : bool :=
  match usage with
  | JDict fields =>
      forallb (fun c => is_int (get fields (usage_key c) (JInt 0)))
        Session.usage_keys
  | _ => false
  end.

Definition well_formed_entry (entry : json) : bool :=
  match entry with
  | JDict fields =>
      is_str (get fields "uuid" (JStr ""))
      && (if str_eq (get fields "type" JNull) "assistant" then
            is_str (get fields "requestId" (JStr ""))
            && match get fields "message" (JDict []) with
               | JDict msg =>
                   is_str (get msg "model" (JStr "unknown"))
                   && well_formed_usage (get msg "usage" (JDict []))
               | _ => false
               end
          else true)
  | _ => false
  end.

Definition well_formed (entries : list json) : bool :=
  forallb well_formed_entry entries.

(** Every stored call has a string as its model. *)
Definition models_are_strings (seen : list (key * Hooks.call)) : bool :=
  forallb (fun kv => is_str (Hooks.model (snd kv))) seen.

(** ** Sample records *)

(** An assistant record with a request id, a model and a usage object. *)
Definition usage_record (request_id : json) (m : string) (usage : list (string * json))
  : json :=
  JDict [("type", JStr "assistant");
         ("requestId", request_id);
         ("message", JDict [("model", JStr m); ("usage", JDict usage)])].

(** A user record whose message content is a plain string. *)
Definition user_record (text : string) : json :=
  JDict [("type", JStr "user"); ("message", JDict [("content", JStr text)])].

(** One call streamed as four snapshots with [input_tokens] 5, 5, 12, 8. *)
Definition streamed_log : list json :=
  map (fun n => usage_record (JStr "req_1") "claude-3-opus-20240229"
                  [("input_tokens", JInt n)])
      [5; 5; 12; 8].

(** Two snapshots without a request id, each reporting 5 input tokens. *)
Definition anonymous_log : list json :=
  [usage_record (JStr "") "claude-3-opus-20240229" [("input_tokens", JInt 5)];
   usage_record (JStr "") "claude-3-opus-20240229" [("input_tokens", JInt 5)]].

(** One identified call reporting 7 input tokens and one snapshot
    without a request id reporting 5. *)
Definition mixed_log : list json :=
  [usage_record (JStr "req_1") "claude-3-opus-20240229" [("input_tokens", JInt 7)];
   usage_record (JStr "") "claude-3-opus-20240229" [("input_tokens", JInt 5)]].

(** One haiku call with a different value in each counter. *)
Definition haiku_log : list json :=
  [usage_record (JStr "req_h") "claude-3-5-haiku-20241022"
     [("input_tokens", JInt 10); ("output_tokens", JInt 1);
      ("cache_creation_input_tokens", JInt 7);
      ("cache_read_input_tokens", JInt 3)]].

(** One million input tokens and one million output tokens. *)
Definition million_tokens : list (string * Z) :=
  [("input_tokens", 1000000); ("output_tokens", 1000000);
   ("cache_read", 0); ("cache_creation", 0)].

Definition million_totals : usage_row :=
  {| input_tokens := 1000000; output_tokens := 1000000;
     cache_creation := 0; cache_read := 0 |}.

(** Four lines, the second of which is not JSON. *)
Definition sample_file : list string := ["{}"; "not json"; "{}"; "{}"].

(** Four lines, the second of which is JSON but not a record. *)
Definition number_file : list string := ["{}"; "42"; "{}"; "{}"].

(** A string of [n] copies of one character. *)
Fixpoint replicate (n : nat) (c : ascii) : string :=
  match n with
  | O => EmptyString
  | S n' => String c (replicate n' c)
  end.

(** A user prompt of 150 characters. *)
Definition long_prompt : string := replicate 150 "x".

(** A line of 100000 opening brackets, nested deeper than
    [json.loads] goes. *)
Definition deep_line : string := replicate (100 * 1000) "[".

(** [json.loads] on the sample lines: an empty object and a number
    parse, the line of brackets exhausts the recursion limit, and the
    rest is not JSON. *)
Definition sample_loads (line : string) : result json :=
  if (line =? "{}")%string then Ok (JDict [])
  else if (line =? "42")%string then Ok (JInt 42)
       else if (line =? deep_line)%string then Raise RecursionError
            else Raise JSONDecodeError.

(** A user record with a timestamp. *)
Definition timed_user_record (text stamp : string) : json :=
  JDict [("type", JStr "user");
         ("timestamp", JStr stamp);
         ("message", JDict [("content", JStr text)])].

(** ** Reports and comparisons *)

From Stdlib Require Import Permutation Sorted Lqa.

(** Float subtraction, which only the comparison report uses. *)
Class PyFloatSub (F : Type) : Type := {
  fsub : F -> F -> F;
}.

#[export] Instance exact_sub : PyFloatSub Q := {| fsub := Qminus |}.

#[export] Instance binary64_sub : PyFloatSub float := {| fsub := PrimFloat.sub |}.

(** [sorted(items, key=...)]: Python's sort is stable, so its result is
    the one arrangement in key order that keeps the input order of
    items with equal keys. [before x y] says that the key of [x] is at
    most the key of [y]. *)
Section Sorted.
Variable A : Type.
Variable before : A -> A -> bool.

Fixpoint insert_sorted (x : A) (l : list A) : list A :=
  match l with
  | [] => [x]
  | y :: rest =>
      if before x y then x :: y :: rest else y :: insert_sorted x rest
  end.

Definition sorted (l : list A) : list A := fold_right insert_sorted [] l.
End Sorted.

(** [s.replace(old, new)] for one-character [old] and [new]. *)
Fixpoint replace_char (old new : ascii) (s : string) : string :=
  match s with
  | EmptyString => EmptyString
  | String c rest =>
      String (if (c =? old)%char then new else c) (replace_char old new rest)
  end.

(** *** analyze-hooks.py: the numbers of the two reports *)

Module HooksReport.

(** The dict [print_session_analysis] passes for the main agent. *)
Definition main_tokens_dict (m : Hooks.main_agent_t) : list (string * Z) :=
  [("input_tokens", input_tokens (Hooks.main_tokens m));
   ("output_tokens", output_tokens (Hooks.main_tokens m));
   ("cache_creation", cache_creation (Hooks.main_tokens m));
   ("cache_read", cache_read (Hooks.main_tokens m))].

(** [data['main_agent']] as [compare_sessions] passes it whole; its
    [models] entry is a dict that [calculate_cost] never reads. *)
Definition main_agent_dict (m : Hooks.main_agent_t) : list (string * Z) :=
  [("api_calls", Hooks.api_calls m);
   ("input_tokens", input_tokens (Hooks.main_tokens m));
   ("output_tokens", output_tokens (Hooks.main_tokens m));
   ("cache_creation", cache_creation (Hooks.main_tokens m));
   ("cache_read", cache_read (Hooks.main_tokens m))].

(** The dict passed for the prompt hooks: two counts only. *)
Definition prompt_tokens_dict (p : Hooks.prompt_t) : list (string * Z) :=
  [("input_tokens", Hooks.prompt_input_tokens p);
   ("output_tokens", Hooks.prompt_output_tokens p)].

(** The dict passed for the agent hooks: [parse_session] never writes
    [result['hooks']['agent']], whose counts stay zero. *)
Definition agent_tokens_dict : list (string * Z) :=
  [("input_tokens", 0); ("output_tokens", 0)].

(** The costs [print_session_analysis] prints. *)
Record session_costs (F : Type) : Type := {
  main_cost : F;
  prompt_cost : F;
  agent_cost : F;
  total_cost : F;
  hooks_cost : F;
}.

(** One line of the section "API Calls by Model". *)
Record model_line : Type := {
  line_model : key;
  line_calls : Z;
  line_input : Z;
  line_output : Z;
}.

Definition sum_of (f : Hooks.call -> Z) (calls : list Hooks.call) : Z :=
  fold_right (fun c acc => f c + acc) 0 calls.

Definition print_model_line (item : key * list Hooks.call) : model_line :=
  {| line_model := fst item;
     line_calls := Z.of_nat (List.length (snd item));
     line_input :=
       sum_of (fun c => input_tokens (Hooks.tokens c) + cache_read (Hooks.tokens c))
         (snd item);
     line_output := sum_of (fun c => output_tokens (Hooks.tokens c)) (snd item) |}.

Definition model_lines (data : Hooks.analysis) : list model_line :=
  map print_model_line (Hooks.api_calls_by_model data).

(** [text = p['content'][:60].replace('\n', ' ')] for the first five
    prompts. *)
Definition shown_prompts (data : Hooks.analysis) : list string :=
  map (fun p => replace_char "010" " " (slice_to 60 (Hooks.content p)))
    (firstn 5 (Hooks.user_prompts data)).

(** How a difference is printed: [+n] in green, [n] in red or a dim 0. *)
Inductive diff_sign : Type :=
| Increase
| Decrease
| Unchanged.

Definition sign_of (diff : Z) : diff_sign :=
  if diff >? 0 then Increase
  else if diff <? 0 then Decrease
       else Unchanged.

(** One line of the comparison table. *)
Record diff_row : Type := {
  label : string;
  base_val : Z;
  test_val : Z;
  diff : Z;
  sign : diff_sign;
}.

(** The list [comparisons] of [compare_sessions]. *)
Definition comparisons (baseline test : Hooks.analysis) : list (string * Z * Z) :=
  [("User prompts",
    Z.of_nat (List.length (Hooks.user_prompts baseline)),
    Z.of_nat (List.length (Hooks.user_prompts test)));
   ("API calls (main)",
    Hooks.api_calls (Hooks.main_agent baseline),
    Hooks.api_calls (Hooks.main_agent test));
   ("Input tokens",
    input_tokens (Hooks.main_tokens (Hooks.main_agent baseline)),
    input_tokens (Hooks.main_tokens (Hooks.main_agent test)));
   ("Output tokens",
    output_tokens (Hooks.main_tokens (Hooks.main_agent baseline)),
    output_tokens (Hooks.main_tokens (Hooks.main_agent test)));
   ("Cache creation",
    cache_creation (Hooks.main_tokens (Hooks.main_agent baseline)),
    cache_creation (Hooks.main_tokens (Hooks.main_agent test)));
   ("Cache read",
    cache_read (Hooks.main_tokens (Hooks.main_agent baseline)),
    cache_read (Hooks.main_tokens (Hooks.main_agent test)));
   ("Prompt hooks",
    Hooks.count (Hooks.hooks_prompt baseline),
    Hooks.count (Hooks.hooks_prompt test));
   ("Hook input tokens",
    Hooks.prompt_input_tokens (Hooks.hooks_prompt baseline),
    Hooks.prompt_input_tokens (Hooks.hooks_prompt test));
   ("Hook output tokens",
    Hooks.prompt_output_tokens (Hooks.hooks_prompt baseline),
    Hooks.prompt_output_tokens (Hooks.hooks_prompt test))].

(** The body of [for label, base_val, test_val in comparisons]. *)
Definition diff_line (c : string * Z * Z) : diff_row :=
  let '(l, b, t) := c in
  {| label := l; base_val := b; test_val := t;
     diff := t - b; sign := sign_of (t - b) |}.

Definition diff_rows (baseline test : Hooks.analysis) : list diff_row :=
  map diff_line (comparisons baseline test).

(** The section "Cost Analysis" of [compare_sessions]. *)
Record cost_analysis (F : Type) : Type := {
  base_cost : F;
  test_cost : F;
  hook_cost : F;
  overhead : F;
}.

Section Costs.
Context {F : Type} `{PyFloat F} `{PyFloatSub F}.

Definition print_session_analysis (data : Hooks.analysis) : result (session_costs F) :=
  m <- Hooks.calculate_cost (main_tokens_dict (Hooks.main_agent data)) "opus" ;;
  p <- Hooks.calculate_cost (prompt_tokens_dict (Hooks.hooks_prompt data)) "haiku" ;;
  a <- Hooks.calculate_cost agent_tokens_dict "haiku" ;;
  Ok {| main_cost := m;
        prompt_cost := p;
        agent_cost := a;
        total_cost := fadd (fadd m p) a;
        hooks_cost := fadd p a |}.

Definition compare_sessions (baseline test : Hooks.analysis)
  : result (cost_analysis F) :=
  b <- Hooks.calculate_cost (main_agent_dict (Hooks.main_agent baseline)) "opus" ;;
  t <- Hooks.calculate_cost (main_agent_dict (Hooks.main_agent test)) "opus" ;;
  h <- Hooks.calculate_cost (prompt_tokens_dict (Hooks.hooks_prompt test)) "haiku" ;;
  Ok {| base_cost := b;
        test_cost := t;
        hook_cost := h;
        overhead := fadd (fsub t b) h |}.
End Costs.

End HooksReport.

(** *** analyze-session.py: the numbers of the report *)

Module SessionReport.

(** [prompt[:60] + '...' if len(prompt) > 60 else prompt]. *)
Definition truncated (prompt : string) : string :=
  if (60 <? String.length prompt)%nat then slice_to 60 prompt ++ "..."
  else prompt.

(** The prompts the report shows: the first five, truncated. *)
Definition shown_prompts (data : Session.session) : list string :=
  map truncated (firstn 5 (Session.user_prompts data)).

(** The loop [tool_counts[tool] += 1] over [data['tool_uses']]; a tool
    name that is a list or an object cannot be a key. *)
Definition count_tool (counts : list (key * Z)) (tool : json) : result (list (key * Z)) :=
  k <- hash_key tool ;;
  Ok (dict_set k
        (match dict_get k counts with Some n => n | None => 0 end + 1)
        counts).

Definition tool_counts (tool_uses : list json) : result (list (key * Z)) :=
  for_each count_tool [] tool_uses.

(** [sorted(tool_counts.items(), key=lambda x: -x[1])[:10]]. *)
Definition top_tools (counts : list (key * Z)) : list (key * Z) :=
  firstn 10 (sorted (fun x y => - snd x <=? - snd y) counts).

End SessionReport.

(** *** Session files *)

(** The files are seen through what the lookups read of them: each
    entry that [glob('*.jsonl')] yields in a directory, in that order,
    with its path and the modification time that [stat] reports for
    it. *)
Module Files.

Record session_file : Type := {
  path : string;
  mtime : Q;
}.

(** A directory: its name and what [glob('*.jsonl')] yields in it. *)
Definition project : Type := (string * list session_file)%type.

(** The projects directory [~/.claude/projects]: its subdirectories
    in the order of [iterdir], the names of its entries that are not
    directories, what [glob('*.jsonl')] yields in the directory itself
    and what it yields in its parent [~/.claude]. A projects directory
    that does not exist is one with nothing in any of the four: no
    path through it exists, and [FileNotFoundError] is what every
    lookup ends in. *)
Record projects_dir : Type := {
  project_dirs : list project;
  other_entries : list string;
  own_files : list session_file;
  parent_files : list session_file;
}.

(** [project_path.replace('/', '-')]. *)
Definition safe_name (project_path : string) : string :=
  replace_char "/" "-" project_path.

(** [claude_dir / safe_name] when it exists, with what is globbed
    there. The name has no slash, so it is one path component: [.] is
    the projects directory itself, [..] is its parent, and any other
    name is an entry of the projects directory or nothing; globbing an
    entry that is not a directory yields nothing. *)
Definition project_dir (fs : projects_dir) (name : string) : option project :=
  if (name =? ".")%string then Some (name, own_files fs)
  else if (name =? "..")%string then Some (name, parent_files fs)
  else match find (fun d => (fst d =? name)%string) (project_dirs fs) with
       | Some d => Some d
       | None =>
           if existsb (String.eqb name) (other_entries fs)
           then Some (name, [])
           else None
       end.

(** [search_dirs] of [find_latest_session]: the one directory of the
    project when a non-empty project path is given, which may not
    exist, and every subdirectory otherwise. *)
Definition search_dirs (fs : projects_dir) (project_path : option string)
  : list project :=
  match project_path with
  | Some p =>
      if (p =? "")%string then project_dirs fs
      else match project_dir fs (safe_name p) with
           | Some d => [d]
           | None => []
           end
  | None => project_dirs fs
  end.

(** One test [if f.stat().st_mtime > latest_mtime]. *)
Definition newer (acc : option session_file * Q) (f : session_file)
  : option session_file * Q :=
  if Qle_bool (mtime f) (snd acc) then acc else (Some f, mtime f).

(** The two nested loops, from [latest = None], [latest_mtime = 0]. *)
Definition scan_latest (dirs : list project) : option session_file * Q :=
  fold_left (fun acc d => fold_left newer (snd d) acc) dirs (None, 0%Q).

(** [find_latest_session]; [None] stands for [FileNotFoundError]. *)
Definition find_latest_session (fs : projects_dir) (project_path : option string)
  : option string :=
  option_map path (fst (scan_latest (search_dirs fs project_path))).

(** [get_hook_lab_sessions] on the files of the hook-lab project
    ([None] when the directory does not exist): newest first. *)
Definition get_hook_lab_sessions (hook_lab_project : option (list session_file))
  : list session_file :=
  match hook_lab_project with
  | None => []
  | Some files => sorted (fun x y => Qle_bool (mtime y) (mtime x)) files
  end.

End Files.

(** *** hooks/context-inject.py *)

Module ContextInject.

(** The text of [additionalContext]: a heading, two line breaks and
    one sentence. *)
Definition additional_context : string :=
  "## Hook Test"
  ++ String "010" (String "010" "This is injected context. X tokens.").

(** The script from what it reads to what it prints. [stdin] is the
    outcome of [json.load(sys.stdin)], [None] for any exception, which
    the bare [except] turns into [{}]; [log_ok] says whether the line
    appended to the log file could be written. The result is the
    object given to [json.dumps], or [None] when the script ends in an
    uncaught exception before printing. *)
Definition run (stdin : option json) (log_ok : bool) : option json :=
  let data := match stdin with Some d => d | None => JDict [] end in
  if log_ok then
    match py_get data "hook_event_name" (JStr "Unknown") with
    | Ok name =>
        Some (JDict
                [("hookSpecificOutput",
                  JDict
                    [("hookEventName", name);
                     ("additionalContext", JStr additional_context)])])
    | Raise _ => None
    end
  else None.

End ContextInject.

(** ** Notions used to state the further properties *)

(** The key of the request id that an assistant record contributes to
    the count of API calls: its [requestId], when that is non-empty. *)
Definition assistant_id (entry : json) : option key :=
  match entry with
  | JDict fields =>
      if str_eq (get fields "type" JNull) "assistant" then
        let request_id := get fields "requestId" (JStr "") in
        if truthy request_id then
          match hash_key request_id with
          | Ok k => Some k
          | Raise _ => None
          end
        else None
      else None
  | _ => None
  end.

Fixpoint assistant_ids (entries : list json) : list key :=
  match entries with
  | [] => []
  | entry :: rest =>
      match assistant_id entry with
      | Some k => k :: assistant_ids rest
      | None => assistant_ids rest
      end
  end.

(** The model a record reports for call [k], if the hook analyzer
    takes the record for a snapshot of that call: an assistant record
    with non-empty usage and a non-empty request id. *)
Definition snapshot_model (k : key) (entry : json) : option json :=
  match entry with
  | JDict fields =>
      if str_eq (get fields "type" JNull) "assistant" then
        match get fields "message" (JDict []) with
        | JDict msg =>
            let request_id := get fields "requestId" (JStr "") in
            if truthy (get msg "usage" (JDict [])) && truthy request_id then
              match hash_key request_id with
              | Ok k' =>
                  if key_eqb k' k
                  then Some (get msg "model" (JStr "unknown"))
                  else None
              | Raise _ => None
              end
            else None
        | _ => None
        end
      else None
  | _ => None
  end.

(** The model of the first snapshot of call [k] in the log. *)
Fixpoint first_model (k : key) (entries : list json) : option json :=
  match entries with
  | [] => None
  | entry :: rest =>
      match snapshot_model k entry with
      | Some m => Some m
      | None => first_model k rest
      end
  end.

(** One call whose first snapshot names an opus model and whose second
    names a haiku model. *)
Definition switching_log : list json :=
  [usage_record (JStr "req_1") "claude-3-opus-20240229" [("input_tokens", JInt 5)];
   usage_record (JStr "req_1") "claude-3-5-haiku-20241022" [("input_tokens", JInt 9)]].

(** The content blocks of an assistant record: the items of
    [message.content] when that is a list. *)
Definition assistant_content (entry : json) : list json :=
  match entry with
  | JDict fields =>
      if str_eq (get fields "type" JNull) "assistant" then
        match get fields "message" (JDict []) with
        | JDict msg =>
            match get msg "content" (JList []) with
            | JList items => items
            | _ => []
            end
        | _ => []
        end
      else []
  | _ => []
  end.

(** The name a content block contributes when it is a tool use. *)
Definition tool_name (item : json) : list json :=
  match item with
  | JDict fields =>
      if str_eq (get fields "type" JNull) "tool_use"
      then [get fields "name" (JStr "unknown")]
      else []
  | _ => []
  end.

Definition is_thinking (item : json) : bool :=
  match item with
  | JDict fields => str_eq (get fields "type" JNull) "thinking"
  | _ => false
  end.

(** The tool names of a log, in file order. *)
Definition tool_names (entries : list json) : list json :=
  flat_map (fun entry => flat_map tool_name (assistant_content entry)) entries.

(** The number of thinking blocks of a log. *)
Definition thinking_count (entries : list json) : Z :=
  Z.of_nat
    (List.length (filter is_thinking (flat_map assistant_content entries))).

(** An assistant record with a thinking block, a named tool use, a
    text block and a tool use without a name, after a user prompt. *)
Definition tool_log : list json :=
  [user_record long_prompt;
   JDict [("type", JStr "assistant");
          ("message",
           JDict [("content",
                   JList [JDict [("type", JStr "thinking")];
                          JDict [("type", JStr "tool_use"); ("name", JStr "Bash")];
                          JDict [("type", JStr "text")];
                          JDict [("type", JStr "tool_use")]])])]].

(** How often a tool name occurs among the tool uses, names compared
    as dictionary keys. *)
Definition occurrences (k : key) (uses : list json) : Z :=
  Z.of_nat
    (List.length
       (filter (fun u => match hash_key u with
                         | Ok k' => key_eqb k' k
                         | Raise _ => false
                         end) uses)).

(** Three session files of one project and a second project. *)
Definition sample_projects : list Files.project :=
  [("-home-corey-hook-lab",
    [{| Files.path := "a.jsonl"; Files.mtime := 10 |};
     {| Files.path := "b.jsonl"; Files.mtime := 30 |};
     {| Files.path := "c.jsonl"; Files.mtime := 20 |}]);
   ("-tmp-other", [{| Files.path := "d.jsonl"; Files.mtime := 40 |}])].

(** A projects directory with these two projects, one plain file, one
    session file of its own and one beside it in the parent. *)
Definition sample_dir : Files.projects_dir :=
  {| Files.project_dirs := sample_projects;
     Files.other_entries := ["notes.txt"];
     Files.own_files := [{| Files.path := "stray.jsonl"; Files.mtime := 5 |}];
     Files.parent_files := [{| Files.path := "history.jsonl"; Files.mtime := 50 |}] |}.

(** The total of one column of the table "API Calls by Model". *)
Definition column_total (f : HooksReport.model_line -> Z)
    (lines : list HooksReport.model_line) : Z :=
  fold_right (fun l acc => f l + acc) 0 lines.

(** A call of the main agent and a call of a prompt hook. *)
Definition two_model_log : list json :=
  [usage_record (JStr "req_a") "claude-3-opus-20240229"
     [("input_tokens", JInt 7); ("output_tokens", JInt 4);
      ("cache_read_input_tokens", JInt 2)];
   usage_record (JStr "req_h") "claude-3-5-haiku-20241022"
     [("input_tokens", JInt 10); ("output_tokens", JInt 1);
      ("cache_read_input_tokens", JInt 3)]].

(** Whether a string has a line break in it. *)
Definition has_newline (s : string) : bool := contains (String "010" EmptyString) s.

(** A stored call none of whose counters is negative. *)
Definition non_negative_call (kv : key * Hooks.call) : Prop :=
  forall c, 0 <= row_get (Hooks.tokens (snd kv)) c.

(** [seen] continues [base]: it starts with the calls of [base], in
    the same order, under the same ids and with the same models, no
    counter lower; the calls after them have no negative counter. *)
Fixpoint extends (base seen : list (key * Hooks.call)) : Prop :=
  match base, seen with
  | [], _ => Forall non_negative_call seen
  | _ :: _, [] => False
  | kv :: base', kv' :: seen' =>
      fst kv = fst kv'
      /\ Hooks.model (snd kv) = Hooks.model (snd kv')
      /\ (forall c, row_get (Hooks.tokens (snd kv)) c
                    <= row_get (Hooks.tokens (snd kv')) c)
      /\ extends base' seen'
  end.


(** The first of the files with the latest modification time. *)
Definition first_newest (files : list Files.session_file) : option Files.session_file :=
  fold_right
    (fun x best =>
       match best with
       | None => Some x
       | Some y =>
           if Qle_bool (Files.mtime y) (Files.mtime x) then Some x else Some y
       end)
    None files.

(** * Properties *)

Unset Implicit Arguments.

(** ** Error monad and dictionaries *)

Lemma bind_ok {A B : Type} (c : result A) (k : A -> result B) (b : B) :
  bind c k = Ok b -> exists a, c = Ok a /\ k a = Ok b.
Proof.
  destruct c as [a|e]; simpl; intros Hb; [exists a; auto | discriminate].
Qed.

Lemma key_eqb_eq (a b : key) : key_eqb a b = true <-> a = b.
Proof.
  destruct a, b; simpl; split; intros Hab;
    try discriminate; try reflexivity.
  - apply Z.eqb_eq in Hab. now subst.
  - injection Hab as ->. apply Z.eqb_refl.
  - apply String.eqb_eq in Hab. now subst.
  - injection Hab as ->. apply String.eqb_refl.
Qed.

Lemma key_eqb_refl (a : key) : key_eqb a a = true.
Proof. now apply key_eqb_eq. Qed.

Lemma key_eqb_neq (a b : key) : key_eqb a b = false <-> a <> b.
Proof.
  split.
  - intros Hf Heq. apply key_eqb_eq in Heq. congruence.
  - intros Hne. destruct (key_eqb a b) eqn:E; [|reflexivity].
    apply key_eqb_eq in E. contradiction.
Qed.

Lemma key_eqb_sym (a b : key) : key_eqb a b = key_eqb b a.
Proof.
  destruct (key_eqb a b) eqn:E.
  - apply key_eqb_eq in E. subst. symmetry. apply key_eqb_refl.
  - symmetry. apply key_eqb_neq. apply key_eqb_neq in E. congruence.
Qed.

Lemma hash_key_truthy (x : json) (k : key) :
  hash_key x = Ok k -> key_truthy k = truthy x.
Proof.
  destruct x; simpl; intros Hk; inversion Hk; subst; simpl; try reflexivity.
  now destruct b.
Qed.

Section DictFacts.
Variable V : Type.
Implicit Types (d : list (key * V)) (k : key) (v : V).

Lemma dict_get_set_same k v d : dict_get k (dict_set k v d) = Some v.
Proof.
  induction d as [|[k' v'] rest IH]; simpl.
  - now rewrite key_eqb_refl.
  - destruct (key_eqb k' k) eqn:E; simpl; rewrite E; auto.
Qed.

Lemma dict_get_set_other k k' v d :
  k <> k' -> dict_get k' (dict_set k v d) = dict_get k' d.
Proof.
  intros Hne. induction d as [|[k1 v1] rest IH]; simpl.
  - apply key_eqb_neq in Hne. now rewrite Hne.
  - destruct (key_eqb k1 k) eqn:E; simpl.
    + apply key_eqb_eq in E. subst k1.
      apply key_eqb_neq in Hne. now rewrite Hne.
    + destruct (key_eqb k1 k'); auto.
Qed.

Lemma dict_sum_app f d1 d2 :
  dict_sum f (d1 ++ d2) = dict_sum f d1 + dict_sum f d2.
Proof.
  induction d1 as [|kv rest IH]; simpl; [reflexivity|].
  rewrite IH. lia.
Qed.

Lemma dict_sum_set f k v d :
  dict_sum f (dict_set k v d)
  = dict_sum f d + f v
    - match dict_get k d with Some old => f old | None => 0 end.
Proof.
  induction d as [|[k' v'] rest IH]; simpl.
  - lia.
  - destruct (key_eqb k' k) eqn:E; simpl; [lia|].
    rewrite IH. lia.
Qed.

Lemma dict_get_keep p k d :
  p k = true -> dict_get k (keep p d) = dict_get k d.
Proof.
  intros Hp. induction d as [|[k' v'] rest IH]; simpl; [reflexivity|].
  destruct (p k') eqn:Ep; simpl.
  - now rewrite IH.
  - destruct (key_eqb k' k) eqn:E; [|exact IH].
    apply key_eqb_eq in E. congruence.
Qed.

Lemma keep_set_in p k v d :
  p k = true -> keep p (dict_set k v d) = dict_set k v (keep p d).
Proof.
  intros Hp. induction d as [|[k' v'] rest IH]; simpl.
  - now rewrite Hp.
  - destruct (key_eqb k' k) eqn:E; simpl.
    + apply key_eqb_eq in E. subst k'. rewrite Hp. simpl.
      now rewrite key_eqb_refl.
    + destruct (p k') eqn:Ep; simpl; [|exact IH].
      now rewrite E, IH.
Qed.

Lemma keep_set_out p k v d :
  p k = false -> keep p (dict_set k v d) = keep p d.
Proof.
  intros Hp. induction d as [|[k' v'] rest IH]; simpl.
  - now rewrite Hp.
  - destruct (key_eqb k' k) eqn:E; simpl.
    + apply key_eqb_eq in E. subst k'. now rewrite Hp.
    + destruct (p k'); simpl; now rewrite IH.
Qed.

Lemma dict_sum_keep f p d :
  dict_sum f d = dict_sum f (keep p d) + dict_sum f (keep (fun k => negb (p k)) d).
Proof.
  induction d as [|[k' v'] rest IH]; simpl; [reflexivity|].
  destruct (p k'); simpl; lia.
Qed.
End DictFacts.

Lemma dict_get_map {V W : Type} (f : V -> W) (k : key) (d : list (key * V)) :
  dict_get k (dict_map f d) = option_map f (dict_get k d).
Proof.
  unfold dict_map. induction d as [|[k' v'] rest IH]; simpl; [reflexivity|].
  destruct (key_eqb k' k); auto.
Qed.

Lemma dict_map_set {V W : Type} (f : V -> W) (k : key) (v : V) (d : list (key * V)) :
  dict_map f (dict_set k v d) = dict_set k (f v) (dict_map f d).
Proof.
  unfold dict_map. induction d as [|[k' v'] rest IH]; simpl; [reflexivity|].
  destruct (key_eqb k' k); simpl; [reflexivity|]. now rewrite IH.
Qed.

Lemma dict_sum_map {V W : Type} (f : V -> W) (g : W -> Z) (d : list (key * V)) :
  dict_sum g (dict_map f d) = dict_sum (fun v => g (f v)) d.
Proof.
  unfold dict_map. induction d as [|[k' v'] rest IH]; simpl; [reflexivity|].
  now rewrite IH.
Qed.

Lemma row_ext (a b : usage_row) :
  (forall c, row_get a c = row_get b c) -> a = b.
Proof.
  intros Hc. destruct a, b.
  pose proof (Hc InputTokens). pose proof (Hc OutputTokens).
  pose proof (Hc CacheCreation). pose proof (Hc CacheRead).
  simpl in *. congruence.
Qed.

Lemma row_get_zero (c : counter) : row_get zero_row c = 0.
Proof. now destruct c. Qed.

Lemma row_get_set (c c' : counter) (v : Z) (r : usage_row) :
  row_get (row_set c v r) c' = if match c, c' with
                                  | InputTokens, InputTokens
                                  | OutputTokens, OutputTokens
                                  | CacheCreation, CacheCreation
                                  | CacheRead, CacheRead => true
                                  | _, _ => false
                                  end then v else row_get r c'.
Proof. destruct c, c'; reflexivity. Qed.

(** ** The session analyzer's scan *)

Lemma str_eq_user_assistant (x : json) :
  str_eq x "user" = true -> str_eq x "assistant" = false.
Proof.
  destruct x; simpl; try discriminate.
  intros Hu. apply String.eqb_eq in Hu. now subst.
Qed.

Lemma session_track_user_usage (e : json) (r r' : Session.session) :
  Session.track_user e r = Ok r' ->
  Session.totals r' = Session.totals r
  /\ Session.by_request r' = Session.by_request r.
Proof.
  unfold Session.track_user. intros Hr.
  apply bind_ok in Hr as (msg & _ & Hr).
  destruct msg; try (inversion Hr; subst; now auto).
  destruct (get fields "content" (JStr "")); try (inversion Hr; subst; now auto).
  destruct (negb (s =? "")%string); inversion Hr; subst; now auto.
Qed.

Lemma session_track_content_usage (content : json) (r : Session.session) :
  Session.totals (Session.track_content content r) = Session.totals r
  /\ Session.by_request (Session.track_content content r) = Session.by_request r.
Proof.
  unfold Session.track_content. destruct content; auto.
  revert r. induction items as [|item rest IH]; intros r; simpl; [auto|].
  destruct (IH (Session.track_item r item)) as [Ht Hb]. rewrite Ht, Hb.
  unfold Session.track_item. destruct item; auto.
  destruct (str_eq _ "thinking"); [now auto|].
  destruct (str_eq _ "tool_use"); now auto.
Qed.

Lemma session_count_api_call_usage (rid : json) (st st' : Session.scan_state) :
  Session.count_api_call rid st = Ok st' ->
  Session.totals (snd st') = Session.totals (snd st)
  /\ Session.by_request (snd st') = Session.by_request (snd st).
Proof.
  unfold Session.count_api_call. destruct st as [seen r].
  destruct (truthy rid); [|intros Hs; inversion Hs; now auto].
  intros Hs. apply bind_ok in Hs as (k & _ & Hs).
  destruct (existsb (key_eqb k) seen); inversion Hs; now auto.
Qed.

(** What one record does to [totals] and [by_request]. *)
Lemma session_scan_entry_usage (st st' : Session.scan_state) (e : json) :
  Session.scan_entry st e = Ok st' ->
  match assistant_usage e with
  | Some (rid, usage) =>
      exists k acc,
        hash_key rid = Ok k
        /\ for_each (Session.fold_counter usage)
             (Session.totals (snd st),
              Session.row_of k (Session.by_request (snd st)))
             Session.usage_keys = Ok acc
        /\ Session.totals (snd st') = fst acc
        /\ Session.by_request (snd st')
           = dict_set k (snd acc) (Session.by_request (snd st))
  | None =>
      Session.totals (snd st') = Session.totals (snd st)
      /\ Session.by_request (snd st') = Session.by_request (snd st)
  end.
Proof.
  unfold Session.scan_entry, assistant_usage. intros Hs.
  destruct e; try discriminate Hs. cbn [py_get bind] in Hs.
  destruct (str_eq (get fields "type" JNull) "user") eqn:Eu.
  - rewrite (str_eq_user_assistant _ Eu) in *.
    apply bind_ok in Hs as (st1 & H1 & Hs). inversion Hs; subst st'.
    apply bind_ok in H1 as (r1 & H1 & Hr). inversion Hr; subst st1. simpl.
    now apply session_track_user_usage in H1.
  - cbn [bind] in Hs.
    destruct (str_eq (get fields "type" JNull) "assistant") eqn:Ea;
      [|inversion Hs; now auto].
    unfold Session.track_assistant in Hs. cbn [py_get bind] in Hs.
    apply bind_ok in Hs as (st1 & H1 & Hs).
    apply session_count_api_call_usage in H1 as [Ht1 Hb1].
    destruct (get fields "message" (JDict [])) as [| | | | |msg];
      try discriminate Hs.
    cbn [py_get bind] in Hs.
    destruct (truthy (get msg "usage" (JDict []))) eqn:Et.
    + apply bind_ok in Hs as (r2 & H2 & Hs). inversion Hs; subst st'. simpl.
      destruct (session_track_content_usage
                  (get msg "content" (JList [])) r2) as [Ht Hb].
      rewrite Ht, Hb. unfold Session.fold_usage in H2.
      apply bind_ok in H2 as (k & Hk & H2).
      apply bind_ok in H2 as (acc & Hacc & H2).
      inversion H2; subst r2. simpl.
      exists k, acc. rewrite <- Ht1, <- Hb1. auto.
    + cbn [bind] in Hs. inversion Hs; subst st'. simpl.
      destruct (session_track_content_usage
                  (get msg "content" (JList [])) (snd st1)) as [Ht Hb].
      rewrite Ht, Hb. auto.
Qed.

Lemma session_fold_counter (usage : json) (tot req : usage_row) (c : counter)
    (acc : usage_row * usage_row) :
  Session.fold_counter usage (tot, req) c = Ok acc ->
  exists v,
    usage_value usage c = Ok v
    /\ snd acc = row_set c (Z.max (row_get req c) v) req
    /\ fst acc
       = row_set c (row_get tot c + (Z.max (row_get req c) v - row_get req c)) tot.
Proof.
  unfold Session.fold_counter. intros Ha.
  apply bind_ok in Ha as (v & Hv & Ha). exists v. split; [exact Hv|].
  destruct (Z.gtb_spec v (row_get req c)); inversion Ha; subst acc; simpl.
  - rewrite Z.max_r by lia. auto.
  - rewrite Z.max_l by lia.
    replace (row_get tot c + (row_get req c - row_get req c)) with (row_get tot c)
      by lia.
    split; apply row_ext; intros c'; rewrite row_get_set;
      destruct c, c'; reflexivity.
Qed.

(** The loop over the four keys: each stored counter becomes the
    maximum of itself and the snapshot's value, and the matching total
    grows by the difference. *)
Lemma session_fold_keys (usage : json) (tot req : usage_row)
    (acc : usage_row * usage_row) :
  for_each (Session.fold_counter usage) (tot, req) Session.usage_keys = Ok acc ->
  forall c, exists v,
    usage_value usage c = Ok v
    /\ row_get (snd acc) c = Z.max (row_get req c) v
    /\ row_get (fst acc) c
       = row_get tot c + (Z.max (row_get req c) v - row_get req c).
Proof.
  unfold Session.usage_keys. cbn [for_each]. intros Ha.
  apply bind_ok in Ha as ([t1 r1] & H1 & Ha).
  apply bind_ok in Ha as ([t2 r2] & H2 & Ha).
  apply bind_ok in Ha as ([t3 r3] & H3 & Ha).
  apply bind_ok in Ha as ([t4 r4] & H4 & Ha).
  inversion Ha; subst acc. clear Ha.
  apply session_fold_counter in H1 as (v1 & Hv1 & Hr1 & Ht1).
  apply session_fold_counter in H2 as (v2 & Hv2 & Hr2 & Ht2).
  apply session_fold_counter in H3 as (v3 & Hv3 & Hr3 & Ht3).
  apply session_fold_counter in H4 as (v4 & Hv4 & Hr4 & Ht4).
  simpl in *. subst.
  intros c; destruct c;
    [exists v1 | exists v2 | exists v3 | exists v4];
    (split; [assumption|]); split; reflexivity.
Qed.

(** One record, seen from one call id [k] and one counter [c]: a
    snapshot of [k] raises the stored value to the maximum and adds the
    growth to the total; any other record leaves the stored value of
    [k] alone. *)
Lemma session_scan_entry_counter (st st' : Session.scan_state) (e : json)
    (k : key) (c : counter) :
  Session.scan_entry st e = Ok st' ->
  session_stored (Session.by_request (snd st')) k c
  = match snapshot_value k c e with
    | Some v => Z.max (session_stored (Session.by_request (snd st)) k c) v
    | None => session_stored (Session.by_request (snd st)) k c
    end.
Proof.
  intros Hs. apply session_scan_entry_usage in Hs.
  unfold snapshot_value. destruct (assistant_usage e) as [[rid usage]|].
  - destruct Hs as (k0 & acc & Hk & Hacc & Ht & Hb).
    rewrite Hk, Hb.
    destruct (session_fold_keys _ _ _ _ Hacc c) as (v & Hv & Hr & _).
    rewrite Hv. unfold session_stored, Session.row_of.
    destruct (key_eqb k0 k) eqn:E.
    + apply key_eqb_eq in E. subst k0.
      rewrite dict_get_set_same. exact Hr.
    + apply key_eqb_neq in E. now rewrite dict_get_set_other.
  - destruct Hs as [_ Hb]. now rewrite Hb.
Qed.

(** The running total of a counter always equals the sum of that
    counter over [by_request]. *)
Lemma session_scan_entry_total (st st' : Session.scan_state) (e : json) (c : counter) :
  Session.scan_entry st e = Ok st' ->
  row_get (Session.totals (snd st')) c
  - dict_sum (fun row => row_get row c) (Session.by_request (snd st'))
  = row_get (Session.totals (snd st)) c
    - dict_sum (fun row => row_get row c) (Session.by_request (snd st)).
Proof.
  intros Hs. apply session_scan_entry_usage in Hs.
  destruct (assistant_usage e) as [[rid usage]|].
  - destruct Hs as (k0 & acc & Hk & Hacc & Ht & Hb).
    rewrite Ht, Hb, dict_sum_set.
    destruct (session_fold_keys _ _ _ _ Hacc c) as (v & Hv & Hr & Htot).
    rewrite Htot, Hr. unfold Session.row_of.
    destruct (dict_get k0 (Session.by_request (snd st)));
      rewrite ?row_get_zero; lia.
  - destruct Hs as [Ht Hb]. now rewrite Ht, Hb.
Qed.

(** ** The hook analyzer's scan *)

Lemma hooks_track_user_seen (e : json) (st st' : Hooks.scan_state) :
  Hooks.track_user e st = Ok st' ->
  Hooks.seen_request_ids st' = Hooks.seen_request_ids st.
Proof.
  unfold Hooks.track_user. intros Hr.
  apply bind_ok in Hr as (msg & _ & Hr).
  destruct msg; try (inversion Hr; subst; now auto).
  destruct (get fields "content" (JStr "")); try (inversion Hr; subst; now auto).
  destruct (negb (s =? "")%string); [|inversion Hr; subst; now auto].
  apply bind_ok in Hr as (ts & _ & Hr). inversion Hr; subst; now auto.
Qed.

(** What one record does to [seen_request_ids]. *)
Lemma hooks_scan_entry_usage (st st' : Hooks.scan_state) (e : json) :
  Hooks.scan_entry st e = Ok st' ->
  match assistant_usage e with
  | Some (rid, usage) =>
      if truthy rid
      then exists m,
          Hooks.fold_usage rid m usage (Hooks.seen_request_ids st)
          = Ok (Hooks.seen_request_ids st')
      else Hooks.seen_request_ids st' = Hooks.seen_request_ids st
  | None => Hooks.seen_request_ids st' = Hooks.seen_request_ids st
  end.
Proof.
  unfold Hooks.scan_entry, assistant_usage. intros Hs.
  destruct e; try discriminate Hs. cbn [py_get bind] in Hs.
  destruct (str_eq (get fields "type" JNull) "user") eqn:Eu.
  - rewrite (str_eq_user_assistant _ Eu) in *.
    apply bind_ok in Hs as (st1 & H1 & Hs). inversion Hs; subst st'.
    now apply hooks_track_user_seen in H1.
  - cbn [bind] in Hs.
    destruct (str_eq (get fields "type" JNull) "assistant") eqn:Ea;
      [|inversion Hs; now auto].
    unfold Hooks.track_assistant in Hs. cbn [py_get bind] in Hs.
    destruct (get fields "message" (JDict [])) as [| | | | |msg];
      try discriminate Hs.
    cbn [py_get bind] in Hs.
    destruct (truthy (get msg "usage" (JDict []))) eqn:Et; cbn [andb] in Hs.
    + destruct (truthy (get fields "requestId" (JStr ""))) eqn:Er.
      * apply bind_ok in Hs as (seen & Hf & Hs). inversion Hs; subst st'. simpl.
        eexists. exact Hf.
      * cbn [bind] in Hs. inversion Hs; subst st'. reflexivity.
    + cbn [bind] in Hs. inversion Hs; subst st'. reflexivity.
Qed.

Lemma hooks_fold_usage (rid m usage : json) (seen seen' : list (key * Hooks.call)) :
  Hooks.fold_usage rid m usage seen = Ok seen' ->
  exists k row,
    hash_key rid = Ok k
    /\ (forall c, exists v,
           usage_value usage c = Ok v
           /\ row_get row c = Z.max (hooks_stored seen k c) v)
    /\ seen' = dict_set k {| Hooks.model := Hooks.model (Hooks.call_of k m seen);
                             Hooks.tokens := row |} seen.
Proof.
  unfold Hooks.fold_usage. intros Hf.
  apply bind_ok in Hf as (k & Hk & Hf).
  apply bind_ok in Hf as (i & Hi & Hf).
  apply bind_ok in Hf as (o & Ho & Hf).
  apply bind_ok in Hf as (cc & Hcc & Hf).
  apply bind_ok in Hf as (cr & Hcr & Hf).
  inversion Hf; subst seen'; clear Hf.
  exists k. eexists. split; [exact Hk|]. split; [|reflexivity].
  assert (Hst : forall c, row_get (Hooks.tokens (Hooks.call_of k m seen)) c
                          = hooks_stored seen k c).
  { intros c. unfold Hooks.call_of, hooks_stored.
    destruct (dict_get k seen); [reflexivity|apply row_get_zero]. }
  intros c; destruct c;
    [exists i | exists o | exists cc | exists cr];
    (split; [assumption|]); rewrite <- Hst; reflexivity.
Qed.

Lemma hooks_scan_entry_counter (st st' : Hooks.scan_state) (e : json)
    (k : key) (c : counter) :
  Hooks.scan_entry st e = Ok st' ->
  hooks_stored (Hooks.seen_request_ids st') k c
  = if key_truthy k
    then match snapshot_value k c e with
         | Some v => Z.max (hooks_stored (Hooks.seen_request_ids st) k c) v
         | None => hooks_stored (Hooks.seen_request_ids st) k c
         end
    else hooks_stored (Hooks.seen_request_ids st) k c.
Proof.
  intros Hs. apply hooks_scan_entry_usage in Hs.
  unfold snapshot_value.
  destruct (assistant_usage e) as [[rid usage]|];
    [|rewrite Hs; now destruct (key_truthy k)].
  destruct (truthy rid) eqn:Er.
  - destruct Hs as (m & Hf).
    apply hooks_fold_usage in Hf as (k0 & row & Hk & Hrow & Hseen).
    rewrite Hk, Hseen. destruct (Hrow c) as (v & Hv & Hr). rewrite Hv.
    unfold hooks_stored at 1.
    destruct (key_eqb k0 k) eqn:E.
    + apply key_eqb_eq in E. subst k0. rewrite dict_get_set_same. simpl.
      rewrite (hash_key_truthy _ _ Hk), Er. exact Hr.
    + apply key_eqb_neq in E. rewrite dict_get_set_other by exact E.
      fold (hooks_stored (Hooks.seen_request_ids st) k c).
      now destruct (key_truthy k).
  - rewrite Hs. destruct (key_truthy k) eqn:Ek; [|reflexivity].
    destruct (hash_key rid) as [k0|] eqn:Hk; [|reflexivity].
    destruct (usage_value usage c); [|reflexivity].
    destruct (key_eqb k0 k) eqn:E; [|reflexivity].
    apply key_eqb_eq in E. subst k0.
    rewrite (hash_key_truthy _ _ Hk) in Ek. congruence.
Qed.

(** ** Whole scans *)

Lemma for_each_ok_cons {A S : Type} (body : S -> A -> result S) (st st' : S)
    (x : A) (xs : list A) :
  for_each body st (x :: xs) = Ok st' ->
  exists st1, body st x = Ok st1 /\ for_each body st1 xs = Ok st'.
Proof. simpl. apply bind_ok. Qed.

Lemma for_each_app {A S : Type} (body : S -> A -> result S) (st : S)
    (xs ys : list A) :
  for_each body st (xs ++ ys)
  = (st1 <- for_each body st xs ;; for_each body st1 ys).
Proof.
  revert st. induction xs as [|x xs IH]; intros st; simpl; [reflexivity|].
  destruct (body st x); simpl; [apply IH|reflexivity].
Qed.

Lemma for_each_ok_app {A S : Type} (body : S -> A -> result S) (st st' : S)
    (xs ys : list A) :
  for_each body st (xs ++ ys) = Ok st' ->
  exists st1, for_each body st xs = Ok st1 /\ for_each body st1 ys = Ok st'.
Proof.
  revert st. induction xs as [|x xs IH]; intros st Hf; simpl in *.
  - now exists st.
  - apply bind_ok in Hf as (st0 & H0 & Hf). rewrite H0. simpl.
    now apply IH.
Qed.

Lemma session_scan_stored (entries : list json) (st st' : Session.scan_state)
    (k : key) (c : counter) :
  Session.scan st entries = Ok st' ->
  session_stored (Session.by_request (snd st')) k c
  = fold_left Z.max (snapshots k c entries)
      (session_stored (Session.by_request (snd st)) k c).
Proof.
  unfold Session.scan. revert st.
  induction entries as [|e rest IH]; intros st Hs.
  - inversion Hs; subst. reflexivity.
  - apply for_each_ok_cons in Hs as (st1 & H1 & Hs).
    rewrite (IH _ Hs), (session_scan_entry_counter _ _ _ k c H1). simpl.
    now destruct (snapshot_value k c e).
Qed.

Lemma session_scan_total (entries : list json) (st st' : Session.scan_state)
    (c : counter) :
  Session.scan st entries = Ok st' ->
  row_get (Session.totals (snd st')) c
  - dict_sum (fun row => row_get row c) (Session.by_request (snd st'))
  = row_get (Session.totals (snd st)) c
    - dict_sum (fun row => row_get row c) (Session.by_request (snd st)).
Proof.
  unfold Session.scan. revert st.
  induction entries as [|e rest IH]; intros st Hs.
  - inversion Hs; subst. reflexivity.
  - apply for_each_ok_cons in Hs as (st1 & H1 & Hs).
    rewrite (IH _ Hs). now apply session_scan_entry_total with (e := e).
Qed.

Lemma hooks_scan_stored (entries : list json) (st st' : Hooks.scan_state)
    (k : key) (c : counter) :
  key_truthy k = true ->
  Hooks.scan st entries = Ok st' ->
  hooks_stored (Hooks.seen_request_ids st') k c
  = fold_left Z.max (snapshots k c entries)
      (hooks_stored (Hooks.seen_request_ids st) k c).
Proof.
  intros Hk. unfold Hooks.scan. revert st.
  induction entries as [|e rest IH]; intros st Hs.
  - inversion Hs; subst. reflexivity.
  - apply for_each_ok_cons in Hs as (st1 & H1 & Hs).
    rewrite (IH _ Hs), (hooks_scan_entry_counter _ _ _ k c H1), Hk. simpl.
    now destruct (snapshot_value k c e).
Qed.

Lemma session_parse_entries_scan (entries : list json) (r : Session.session) :
  Session.parse_entries entries = Ok r ->
  exists seen,
    Session.scan ([], Session.empty_result (Z.of_nat (List.length entries))) entries
    = Ok (seen, r).
Proof.
  unfold Session.parse_entries. intros Hp.
  apply bind_ok in Hp as (m & _ & Hp).
  apply bind_ok in Hp as ([seen r'] & Hs & Hp).
  inversion Hp; subst. now exists seen.
Qed.

(** ** The running maximum *)

Lemma fold_max_ge (vs : list Z) (a : Z) : a <= fold_left Z.max vs a.
Proof.
  revert a. induction vs as [|v rest IH]; intros a; simpl; [lia|].
  specialize (IH (Z.max a v)). lia.
Qed.

Lemma fold_max_upper (vs : list Z) (a v : Z) :
  In v vs -> v <= fold_left Z.max vs a.
Proof.
  revert a. induction vs as [|w rest IH]; intros a Hin; simpl; [contradiction|].
  destruct Hin as [->|Hin]; [|now apply IH].
  pose proof (fold_max_ge rest (Z.max a v)). lia.
Qed.

Lemma fold_max_attained (vs : list Z) (a : Z) :
  In (fold_left Z.max vs a) vs \/ fold_left Z.max vs a = a.
Proof.
  revert a. induction vs as [|w rest IH]; intros a; simpl; [now right|].
  destruct (IH (Z.max a w)) as [Hin|Heq]; [now left; right|].
  rewrite Heq. destruct (Z.max_spec a w) as [[_ Hm]|[_ Hm]]; rewrite Hm; auto.
Qed.

(** How one record moves the running total of a counter: a snapshot
    adds the growth of its call's stored value, any other record adds
    nothing. *)
Lemma session_scan_entry_growth (st st' : Session.scan_state) (e : json) (c : counter) :
  Session.scan_entry st e = Ok st' ->
  (exists k v,
      snapshot_value k c e = Some v
      /\ row_get (Session.totals (snd st')) c
         = row_get (Session.totals (snd st)) c
           + (Z.max (session_stored (Session.by_request (snd st)) k c) v
              - session_stored (Session.by_request (snd st)) k c))
  \/ (assistant_usage e = None
      /\ row_get (Session.totals (snd st')) c = row_get (Session.totals (snd st)) c).
Proof.
  intros Hs. apply session_scan_entry_usage in Hs.
  unfold snapshot_value.
  destruct (assistant_usage e) as [[rid usage]|].
  - left. destruct Hs as (k0 & acc & Hk & Hacc & Ht & Hb).
    destruct (session_fold_keys _ _ _ _ Hacc c) as (v & Hv & _ & Htot).
    exists k0, v. rewrite Hk, Hv, key_eqb_refl, Ht. split; [reflexivity|].
    exact Htot.
  - right. destruct Hs as [Ht _]. now rewrite Ht.
Qed.

Lemma snapshot_value_unique (k k' : key) (c : counter) (e : json) (v v' : Z) :
  snapshot_value k c e = Some v -> snapshot_value k' c e = Some v' ->
  k = k' /\ v = v'.
Proof.
  unfold snapshot_value.
  destruct (assistant_usage e) as [[rid usage]|]; [|discriminate].
  destruct (hash_key rid) as [k0|]; [|discriminate].
  destruct (usage_value usage c) as [v0|]; [|discriminate].
  destruct (key_eqb k0 k) eqn:E1; [|discriminate].
  destruct (key_eqb k0 k') eqn:E2; [|discriminate].
  apply key_eqb_eq in E1, E2. intros H1 H2. split; congruence.
Qed.

(** ** Well-formed logs are scanned to the end *)

Lemma well_formed_usage_value (usage : json) (c : counter) :
  well_formed_usage usage = true -> exists v, usage_value usage c = Ok v.
Proof.
  unfold well_formed_usage, usage_value. destruct usage; try discriminate.
  intros Hw. cbn [py_get bind]. rewrite forallb_forall in Hw.
  assert (Hin : In c Session.usage_keys)
    by (destruct c; simpl; auto).
  specialize (Hw c Hin).
  destruct (get fields (usage_key c) (JInt 0)); try discriminate Hw.
  now eexists.
Qed.

Lemma session_fold_counter_returns (usage : json) (acc : usage_row * usage_row)
    (c : counter) :
  well_formed_usage usage = true ->
  exists acc', Session.fold_counter usage acc c = Ok acc'.
Proof.
  intros Hw. destruct acc as [tot req]. unfold Session.fold_counter.
  destruct (well_formed_usage_value usage c Hw) as (v & ->). cbn [bind].
  destruct (v >? row_get req c); now eexists.
Qed.

Lemma session_fold_usage_returns (rid : string) (usage : json) (r : Session.session) :
  well_formed_usage usage = true ->
  exists r', Session.fold_usage (JStr rid) usage r = Ok r'.
Proof.
  intros Hw. unfold Session.fold_usage, Session.usage_keys.
  cbn [hash_key bind for_each].
  destruct (session_fold_counter_returns usage
              (Session.totals r, Session.row_of (KStr rid) (Session.by_request r))
              InputTokens Hw) as (a1 & ->). cbn [bind].
  destruct (session_fold_counter_returns usage a1 OutputTokens Hw) as (a2 & ->).
  cbn [bind].
  destruct (session_fold_counter_returns usage a2 CacheCreation Hw) as (a3 & ->).
  cbn [bind].
  destruct (session_fold_counter_returns usage a3 CacheRead Hw) as (a4 & ->).
  cbn [bind]. now eexists.
Qed.

Lemma session_track_user_returns (fields : list (string * json)) (r : Session.session) :
  exists r', Session.track_user (JDict fields) r = Ok r'.
Proof.
  unfold Session.track_user. cbn [py_get bind].
  destruct (get fields "message" (JDict [])) as [| | | | |msg];
    try (now eexists).
  destruct (get msg "content" (JStr "")) as [| | |text| |]; try (now eexists).
  destruct (negb (text =? "")%string); now eexists.
Qed.

Lemma session_scan_entry_returns (st : Session.scan_state) (e : json) :
  well_formed_entry e = true -> exists st', Session.scan_entry st e = Ok st'.
Proof.
  unfold well_formed_entry, Session.scan_entry. destruct e; try discriminate.
  intros Hw. apply andb_prop in Hw as [_ Hw]. cbn [py_get bind].
  assert (H1 : exists st1,
             (if str_eq (get fields "type" JNull) "user"
              then r <- Session.track_user (JDict fields) (snd st) ;; Ok (fst st, r)
              else Ok st) = Ok st1).
  { destruct (str_eq (get fields "type" JNull) "user"); [|now eexists].
    destruct (session_track_user_returns fields (snd st)) as (r' & ->).
    now eexists. }
  destruct H1 as (st1 & ->). cbn [bind].
  destruct (str_eq (get fields "type" JNull) "assistant"); [|now eexists].
  apply andb_prop in Hw as [Hid Hw].
  unfold Session.track_assistant. cbn [py_get bind].
  destruct (get fields "requestId" (JStr "")) as [| | |rid| |];
    try discriminate Hid.
  destruct (get fields "message" (JDict [])) as [| | | | |msg];
    try discriminate Hw.
  apply andb_prop in Hw as [_ Hu].
  assert (H2 : exists st2, Session.count_api_call (JStr rid) st1 = Ok st2).
  { unfold Session.count_api_call. destruct st1 as [seen r].
    destruct (truthy (JStr rid)); [|now eexists]. cbn [hash_key bind].
    destruct (existsb (key_eqb (KStr rid)) seen); now eexists. }
  destruct H2 as (st2 & ->). cbn [py_get bind].
  destruct (truthy (get msg "usage" (JDict []))).
  - destruct (session_fold_usage_returns rid _ (snd st2) Hu) as (r' & ->).
    cbn [bind]. now eexists.
  - cbn [bind]. now eexists.
Qed.

Lemma session_scan_returns (entries : list json) (st : Session.scan_state) :
  well_formed entries = true -> exists st', Session.scan st entries = Ok st'.
Proof.
  unfold well_formed, Session.scan. revert st.
  induction entries as [|e rest IH]; intros st Hw; simpl.
  - now eexists.
  - simpl in Hw. apply andb_prop in Hw as [He Hw].
    destruct (session_scan_entry_returns st e He) as (st1 & ->). cbn [bind].
    now apply IH.
Qed.

Lemma build_uuid_map_returns (entries : list json) (m : list (key * json)) :
  well_formed entries = true ->
  exists m',
    for_each
      (fun uuid_map entry =>
         present <- Session.has_uuid entry ;;
         if present : bool then
           uuid <- Session.index_uuid entry ;;
           k <- hash_key uuid ;;
           Ok (dict_set k entry uuid_map)
         else Ok uuid_map)
      m entries = Ok m'.
Proof.
  unfold well_formed. revert m.
  induction entries as [|e rest IH]; intros m Hw; simpl.
  - now eexists.
  - simpl in Hw. apply andb_prop in Hw as [He Hw].
    unfold well_formed_entry in He. destruct e; try discriminate He.
    apply andb_prop in He as [Hu _]. cbn [Session.has_uuid Session.index_uuid bind].
    unfold get in Hu.
    destruct (lookup "uuid" fields) as [u|]; cbn [bind]; [|now apply IH].
    destruct u; try discriminate Hu. cbn [hash_key bind]. now apply IH.
Qed.

Lemma session_parse_entries_returns (entries : list json) :
  well_formed entries = true -> exists r, Session.parse_entries entries = Ok r.
Proof.
  intros Hw. unfold Session.parse_entries, Session.build_uuid_map.
  destruct (build_uuid_map_returns entries [] Hw) as (m & ->). cbn [bind].
  destruct (session_scan_returns entries
              ([], Session.empty_result (Z.of_nat (List.length entries))) Hw)
    as (st & ->).
  cbn [bind]. now eexists.
Qed.

Lemma forallb_dict_set {V : Type} (p : V -> bool) (k : key) (v : V)
    (d : list (key * V)) :
  forallb (fun kv => p (snd kv)) d = true ->
  p v = true ->
  forallb (fun kv => p (snd kv)) (dict_set k v d) = true.
Proof.
  intros Hd Hv. induction d as [|[k' v'] rest IH]; simpl in *.
  - now rewrite Hv.
  - apply andb_prop in Hd as [H1 H2].
    destruct (key_eqb k' k); simpl; [now rewrite Hv|].
    now rewrite H1, IH.
Qed.

Lemma forallb_dict_get {V : Type} (p : V -> bool) (k : key) (v : V)
    (d : list (key * V)) :
  forallb (fun kv => p (snd kv)) d = true ->
  dict_get k d = Some v ->
  p v = true.
Proof.
  induction d as [|[k' v'] rest IH]; simpl; [discriminate|].
  intros Hd Hg. apply andb_prop in Hd as [H1 H2].
  destruct (key_eqb k' k); [now inversion Hg; subst|now apply IH].
Qed.

Lemma hooks_fold_usage_returns (rid m : string) (usage : json)
    (seen : list (key * Hooks.call)) :
  well_formed_usage usage = true ->
  models_are_strings seen = true ->
  exists seen',
    Hooks.fold_usage (JStr rid) (JStr m) usage seen = Ok seen'
    /\ models_are_strings seen' = true.
Proof.
  intros Hw Hm. unfold Hooks.fold_usage. cbn [hash_key bind].
  destruct (well_formed_usage_value usage InputTokens Hw) as (i & ->).
  destruct (well_formed_usage_value usage OutputTokens Hw) as (o & ->).
  destruct (well_formed_usage_value usage CacheCreation Hw) as (cc & ->).
  destruct (well_formed_usage_value usage CacheRead Hw) as (cr & ->).
  cbn [bind]. eexists. split; [reflexivity|].
  unfold models_are_strings in *.
  apply (forallb_dict_set (fun c => is_str (Hooks.model c))); [exact Hm|].
  cbn [Hooks.model].
  unfold Hooks.call_of.
  destruct (dict_get (KStr rid) seen) as [c|] eqn:Eg; [|reflexivity].
  exact (forallb_dict_get (fun c => is_str (Hooks.model c)) _ _ _ Hm Eg).
Qed.

Lemma hooks_scan_entry_returns (st : Hooks.scan_state) (e : json) :
  well_formed_entry e = true ->
  models_are_strings (Hooks.seen_request_ids st) = true ->
  exists st',
    Hooks.scan_entry st e = Ok st'
    /\ models_are_strings (Hooks.seen_request_ids st') = true.
Proof.
  unfold well_formed_entry, Hooks.scan_entry. destruct e; try discriminate.
  intros Hw Hm. apply andb_prop in Hw as [_ Hw]. cbn [py_get bind].
  assert (H1 : exists st1,
             (if str_eq (get fields "type" JNull) "user"
              then Hooks.track_user (JDict fields) st else Ok st) = Ok st1
             /\ Hooks.seen_request_ids st1 = Hooks.seen_request_ids st).
  { destruct (str_eq (get fields "type" JNull) "user"); [|now eexists].
    unfold Hooks.track_user. cbn [py_get bind].
    destruct (get fields "message" (JDict [])) as [| | | | |msg];
      try (now eexists).
    destruct (get msg "content" (JStr "")) as [| | |text| |];
      try (now eexists).
    destruct (negb (text =? "")%string); now eexists. }
  destruct H1 as (st1 & -> & Hseen). cbn [bind]. rewrite <- Hseen in Hm.
  destruct (str_eq (get fields "type" JNull) "assistant"); [|now eexists].
  apply andb_prop in Hw as [Hid Hw].
  unfold Hooks.track_assistant. cbn [py_get bind].
  destruct (get fields "requestId" (JStr "")) as [| | |rid| |];
    try discriminate Hid.
  destruct (get fields "message" (JDict [])) as [| | | | |msg];
    try discriminate Hw.
  apply andb_prop in Hw as [Hmod Hu]. cbn [py_get bind].
  destruct (get msg "model" (JStr "unknown")) as [| | |m| |];
    try discriminate Hmod.
  destruct (truthy (get msg "usage" (JDict [])) && truthy (JStr rid)).
  - destruct (hooks_fold_usage_returns rid m _ _ Hu Hm) as (seen' & -> & Hm').
    cbn [bind]. now eexists.
  - cbn [bind]. now eexists.
Qed.

Lemma hooks_scan_returns (entries : list json) (st : Hooks.scan_state) :
  well_formed entries = true ->
  models_are_strings (Hooks.seen_request_ids st) = true ->
  exists st',
    Hooks.scan st entries = Ok st'
    /\ models_are_strings (Hooks.seen_request_ids st') = true.
Proof.
  unfold well_formed, Hooks.scan. revert st.
  induction entries as [|e rest IH]; intros st Hw Hm; simpl.
  - now eexists.
  - simpl in Hw. apply andb_prop in Hw as [He Hw].
    destruct (hooks_scan_entry_returns st e He Hm) as (st1 & -> & Hm1).
    cbn [bind]. now apply IH.
Qed.

Lemma categorize_returns (seen : list (key * Hooks.call)) (acc : Hooks.categories) :
  models_are_strings seen = true ->
  exists cats, for_each Hooks.categorize_call acc seen = Ok cats.
Proof.
  unfold models_are_strings. revert acc.
  induction seen as [|[k data] rest IH]; intros acc Hm; simpl.
  - now eexists.
  - simpl in Hm. apply andb_prop in Hm as [Hd Hm].
    unfold Hooks.categorize_call at 1. cbn [snd].
    destruct (Hooks.model data) as [| | |m| |]; try discriminate Hd.
    cbn [Hooks.classify hash_key bind].
    destruct (is_hook m); cbn [bind]; now apply IH.
Qed.

Lemma hooks_parse_entries_returns (entries : list json) :
  well_formed entries = true -> exists a, Hooks.parse_entries entries = Ok a.
Proof.
  intros Hw. unfold Hooks.parse_entries.
  destruct (hooks_scan_returns entries Hooks.empty_scan Hw eq_refl)
    as (st & -> & Hm).
  cbn [bind]. unfold Hooks.categorize.
  destruct (categorize_returns _ Hooks.empty_categories Hm) as (cats & ->).
  cbn [bind]. now eexists.
Qed.

(** A log in the input format is scanned to the end by both
    analyzers. *)
Lemma well_formed_logs_parse (entries : list json) :
  well_formed entries = true ->
  (exists r, Session.parse_entries entries = Ok r)
  /\ (exists a, Hooks.parse_entries entries = Ok a)
  /\ (exists st, Hooks.scan Hooks.empty_scan entries = Ok st).
Proof.
  intros Hw. split; [now apply session_parse_entries_returns|].
  split; [now apply hooks_parse_entries_returns|].
  destruct (hooks_scan_returns entries Hooks.empty_scan Hw eq_refl)
    as (st & Hs & _).
  now exists st.
Qed.

(** ** C1: the reconciled value is the running maximum *)

(** C1. In both analyzers the value stored for a counter of a call id
    is the running maximum of the values its snapshots report, taken
    from the zero a fresh call starts with: it is at least every
    snapshot value and is one of them (or zero). A snapshot whose value
    does not exceed the stored one changes neither the stored value nor
    the session total. The snapshots 5, 5, 12, 8 of one call reconcile
    to 12. The hook analyzer stores calls with a non-empty id only. *)
Theorem reconciled_value_is_running_max :
  (forall entries r k c,
      Session.parse_entries entries = Ok r ->
      session_stored (Session.by_request r) k c
      = running_max (snapshots k c entries))
  /\ (forall entries st k c,
         key_truthy k = true ->
         Hooks.scan Hooks.empty_scan entries = Ok st ->
         hooks_stored (Hooks.seen_request_ids st) k c
         = running_max (snapshots k c entries))
  /\ (forall vs v, In v vs -> v <= running_max vs)
  /\ (forall vs, In (running_max vs) vs \/ running_max vs = 0)
  /\ (forall st st' e k c v,
         Session.scan_entry st e = Ok st' ->
         snapshot_value k c e = Some v ->
         v <= session_stored (Session.by_request (snd st)) k c ->
         session_stored (Session.by_request (snd st')) k c
         = session_stored (Session.by_request (snd st)) k c
         /\ row_get (Session.totals (snd st')) c
            = row_get (Session.totals (snd st)) c)
  /\ (forall st st' e k c v,
         Hooks.scan_entry st e = Ok st' ->
         snapshot_value k c e = Some v ->
         v <= hooks_stored (Hooks.seen_request_ids st) k c ->
         hooks_stored (Hooks.seen_request_ids st') k c
         = hooks_stored (Hooks.seen_request_ids st) k c)
  /\ (exists r,
         Session.parse_entries streamed_log = Ok r
         /\ session_stored (Session.by_request r) (KStr "req_1") InputTokens = 12
         /\ row_get (Session.totals r) InputTokens = 12)
  /\ (exists st,
         Hooks.scan Hooks.empty_scan streamed_log = Ok st
         /\ hooks_stored (Hooks.seen_request_ids st) (KStr "req_1") InputTokens = 12).
Proof.
  repeat apply conj.
  - intros entries r k c Hp.
    apply session_parse_entries_scan in Hp as (seen & Hs).
    pose proof (session_scan_stored _ _ _ k c Hs) as Hst.
    cbn [snd] in Hst. rewrite Hst. unfold running_max. f_equal.
    apply row_get_zero.
  - intros entries st k c Hk Hs.
    now rewrite (hooks_scan_stored _ _ _ k c Hk Hs).
  - intros vs v. apply fold_max_upper.
  - intros vs. apply fold_max_attained.
  - intros st st' e k c v Hs Hv Hle. split.
    + rewrite (session_scan_entry_counter _ _ _ k c Hs), Hv. lia.
    + destruct (session_scan_entry_growth _ _ _ c Hs)
        as [(k' & v' & Hv' & Ht)|[Hnone _]].
      * destruct (snapshot_value_unique _ _ _ _ _ _ Hv Hv') as [<- <-].
        rewrite Ht. lia.
      * unfold snapshot_value in Hv. now rewrite Hnone in Hv.
  - intros st st' e k c v Hs Hv Hle.
    rewrite (hooks_scan_entry_counter _ _ _ k c Hs), Hv.
    destruct (key_truthy k); lia.
  - eexists. split; [vm_compute; reflexivity|]. split; reflexivity.
  - eexists. split; [vm_compute; reflexivity|]. reflexivity.
Qed.

Lemma reconciled_value_is_running_max_witness :
  exists r,
    Session.parse_entries streamed_log = Ok r
    /\ session_stored (Session.by_request r) (KStr "req_1") InputTokens
       = running_max [5; 5; 12; 8].
Proof.
  eexists. split; [vm_compute; reflexivity|].
  refine (proj1 reconciled_value_is_running_max streamed_log _
            (KStr "req_1") InputTokens _).
  vm_compute. reflexivity.
Defined.

(** ** C10: the counters never decrease *)

Lemma session_scan_entry_mono (st st' : Session.scan_state) (e : json)
    (k : key) (c : counter) :
  Session.scan_entry st e = Ok st' ->
  session_stored (Session.by_request (snd st)) k c
  <= session_stored (Session.by_request (snd st')) k c
  /\ row_get (Session.totals (snd st)) c <= row_get (Session.totals (snd st')) c.
Proof.
  intros Hs. split.
  - rewrite (session_scan_entry_counter _ _ _ k c Hs).
    destruct (snapshot_value k c e); lia.
  - destruct (session_scan_entry_growth _ _ _ c Hs)
      as [(k' & v' & _ & Ht)|[_ Ht]]; rewrite Ht; lia.
Qed.

Lemma hooks_scan_entry_mono (st st' : Hooks.scan_state) (e : json)
    (k : key) (c : counter) :
  Hooks.scan_entry st e = Ok st' ->
  hooks_stored (Hooks.seen_request_ids st) k c
  <= hooks_stored (Hooks.seen_request_ids st') k c.
Proof.
  intros Hs. rewrite (hooks_scan_entry_counter _ _ _ k c Hs).
  destruct (key_truthy k), (snapshot_value k c e); lia.
Qed.

Lemma session_scan_mono (entries : list json) (st st' : Session.scan_state)
    (k : key) (c : counter) :
  Session.scan st entries = Ok st' ->
  session_stored (Session.by_request (snd st)) k c
  <= session_stored (Session.by_request (snd st')) k c
  /\ row_get (Session.totals (snd st)) c <= row_get (Session.totals (snd st')) c.
Proof.
  unfold Session.scan. revert st.
  induction entries as [|e rest IH]; intros st Hs.
  - inversion Hs; subst. lia.
  - apply for_each_ok_cons in Hs as (st1 & H1 & Hs).
    destruct (IH _ Hs), (session_scan_entry_mono _ _ _ k c H1). lia.
Qed.

Lemma hooks_scan_mono (entries : list json) (st st' : Hooks.scan_state)
    (k : key) (c : counter) :
  Hooks.scan st entries = Ok st' ->
  hooks_stored (Hooks.seen_request_ids st) k c
  <= hooks_stored (Hooks.seen_request_ids st') k c.
Proof.
  unfold Hooks.scan. revert st.
  induction entries as [|e rest IH]; intros st Hs.
  - inversion Hs; subst. lia.
  - apply for_each_ok_cons in Hs as (st1 & H1 & Hs).
    pose proof (IH _ Hs). pose proof (hooks_scan_entry_mono _ _ _ k c H1). lia.
Qed.

(** C10. Processing a record never lowers a stored counter of any call
    id nor a running total of the session analyzer, and never lowers a
    stored counter of the hook analyzer; over a whole scan, which starts
    from zeros, every stored counter and every running total is
    therefore non-negative. *)
Theorem counters_never_decrease :
  (forall st st' e k c,
      Session.scan_entry st e = Ok st' ->
      session_stored (Session.by_request (snd st)) k c
      <= session_stored (Session.by_request (snd st')) k c
      /\ row_get (Session.totals (snd st)) c
         <= row_get (Session.totals (snd st')) c)
  /\ (forall st st' e k c,
         Hooks.scan_entry st e = Ok st' ->
         hooks_stored (Hooks.seen_request_ids st) k c
         <= hooks_stored (Hooks.seen_request_ids st') k c)
  /\ (forall entries r k c,
         Session.parse_entries entries = Ok r ->
         0 <= session_stored (Session.by_request r) k c
         /\ 0 <= row_get (Session.totals r) c)
  /\ (forall entries st k c,
         Hooks.scan Hooks.empty_scan entries = Ok st ->
         0 <= hooks_stored (Hooks.seen_request_ids st) k c).
Proof.
  repeat apply conj.
  - intros st st' e k c. apply session_scan_entry_mono.
  - intros st st' e k c. apply hooks_scan_entry_mono.
  - intros entries r k c Hp.
    apply session_parse_entries_scan in Hp as (seen & Hs).
    pose proof (session_scan_mono _ _ _ k c Hs) as [H1 H2].
    cbn [snd] in H1, H2.
    change (session_stored (Session.by_request (Session.empty_result _)) k c)
      with (row_get zero_row c) in H1.
    change (Session.totals (Session.empty_result _)) with zero_row in H2.
    rewrite row_get_zero in H1, H2. now split.
  - intros entries st k c Hs.
    apply (hooks_scan_mono _ _ _ k c) in Hs. exact Hs.
Qed.

Lemma counters_never_decrease_witness :
  exists r,
    Session.parse_entries streamed_log = Ok r
    /\ 0 <= session_stored (Session.by_request r) (KStr "req_1") InputTokens
    /\ 0 <= row_get (Session.totals r) InputTokens.
Proof.
  eexists. split; [vm_compute; reflexivity|].
  refine (proj1 (proj2 (proj2 counters_never_decrease))
            streamed_log _ (KStr "req_1") InputTokens _).
  vm_compute. reflexivity.
Defined.

(** ** C2: delta accumulation against store-the-maximum *)

(** The calls the hook analyzer stores are the rows of [by_request]
    with a non-empty id, in the same order. *)
Lemma scans_agree_step (ss ss' : Session.scan_state) (sh sh' : Hooks.scan_state)
    (e : json) :
  Session.scan_entry ss e = Ok ss' ->
  Hooks.scan_entry sh e = Ok sh' ->
  dict_map Hooks.tokens (Hooks.seen_request_ids sh)
  = keep key_truthy (Session.by_request (snd ss)) ->
  dict_map Hooks.tokens (Hooks.seen_request_ids sh')
  = keep key_truthy (Session.by_request (snd ss')).
Proof.
  intros Hs Hh HR.
  apply session_scan_entry_usage in Hs. apply hooks_scan_entry_usage in Hh.
  destruct (assistant_usage e) as [[rid usage]|].
  - destruct Hs as (k & acc & Hk & Hacc & _ & Hb). rewrite Hb.
    pose proof (hash_key_truthy _ _ Hk) as Htr.
    destruct (truthy rid).
    + destruct Hh as (m & Hf).
      apply hooks_fold_usage in Hf as (k1 & row & Hk1 & Hrow & Hseen).
      assert (k1 = k) by congruence. subst k1.
      rewrite Hseen, dict_map_set, keep_set_in by exact Htr.
      rewrite HR. f_equal. simpl. apply row_ext. intros c.
      destruct (Hrow c) as (v & Hv & Hr).
      destruct (session_fold_keys _ _ _ _ Hacc c) as (v' & Hv' & Hr' & _).
      assert (v' = v) by congruence. subst v'.
      rewrite Hr, Hr'. f_equal.
      pose proof (dict_get_map Hooks.tokens k (Hooks.seen_request_ids sh)) as Hg.
      rewrite HR, dict_get_keep in Hg by exact Htr.
      unfold hooks_stored, Session.row_of. rewrite Hg.
      destruct (dict_get k (Hooks.seen_request_ids sh)); simpl;
        [reflexivity|symmetry; apply row_get_zero].
    + rewrite Hh, keep_set_out by exact Htr. exact HR.
  - destruct Hs as [_ Hb]. now rewrite Hh, Hb.
Qed.

Lemma scans_agree (entries : list json) (ss ss' : Session.scan_state)
    (sh sh' : Hooks.scan_state) :
  Session.scan ss entries = Ok ss' ->
  Hooks.scan sh entries = Ok sh' ->
  dict_map Hooks.tokens (Hooks.seen_request_ids sh)
  = keep key_truthy (Session.by_request (snd ss)) ->
  dict_map Hooks.tokens (Hooks.seen_request_ids sh')
  = keep key_truthy (Session.by_request (snd ss')).
Proof.
  unfold Session.scan, Hooks.scan. revert ss sh.
  induction entries as [|e rest IH]; intros ss sh Hs Hh HR.
  - inversion Hs; inversion Hh; subst. exact HR.
  - apply for_each_ok_cons in Hs as (ss1 & Hs1 & Hs).
    apply for_each_ok_cons in Hh as (sh1 & Hh1 & Hh).
    apply (IH _ _ Hs Hh). now apply (scans_agree_step ss ss1 sh sh1 e).
Qed.

(** When every snapshot carries a non-empty id, [by_request] holds no
    row under an empty one. *)
Lemma session_scan_no_anonymous (entries : list json) (ss ss' : Session.scan_state) :
  (forall e rid usage,
      In e entries -> assistant_usage e = Some (rid, usage) -> truthy rid = true) ->
  Session.scan ss entries = Ok ss' ->
  keep (fun k => negb (key_truthy k)) (Session.by_request (snd ss'))
  = keep (fun k => negb (key_truthy k)) (Session.by_request (snd ss)).
Proof.
  unfold Session.scan. revert ss.
  induction entries as [|e rest IH]; intros ss Hid Hs.
  - inversion Hs; subst. reflexivity.
  - apply for_each_ok_cons in Hs as (ss1 & Hs1 & Hs).
    rewrite (IH ss1); [|intros; eapply Hid; [right|]; eassumption|exact Hs].
    apply session_scan_entry_usage in Hs1.
    destruct (assistant_usage e) as [[rid usage]|] eqn:Eu.
    + destruct Hs1 as (k & acc & Hk & _ & _ & Hb). rewrite Hb.
      apply keep_set_out.
      rewrite (hash_key_truthy _ _ Hk), (Hid e rid usage); auto.
      now left.
    + destruct Hs1 as [_ Hb]. now rewrite Hb.
Qed.

(** C2, as the code has it. Both analyzers scan a well-formed log to
    the end. On a log that both scan to the end, the session analyzer's
    running total of a counter equals the sum of that counter over the
    rows of [by_request], and it equals the sum over the calls the hook
    analyzer stores plus what [by_request] holds under empty request
    ids, which the hook analyzer skips. The two strategies give the
    same number when every snapshot carries a non-empty request id. *)
Theorem strategies_agree_on_identified_calls :
  forall entries,
    (well_formed entries = true ->
     exists rs sh,
       Session.parse_entries entries = Ok rs
       /\ Hooks.scan Hooks.empty_scan entries = Ok sh)
    /\ (forall rs sh c,
           Session.parse_entries entries = Ok rs ->
           Hooks.scan Hooks.empty_scan entries = Ok sh ->
           row_get (Session.totals rs) c
           = dict_sum (fun row => row_get row c) (Session.by_request rs)
           /\ row_get (Session.totals rs) c
              = dict_sum (fun data => row_get (Hooks.tokens data) c)
                  (Hooks.seen_request_ids sh)
                + dict_sum (fun row => row_get row c)
                    (keep (fun k => negb (key_truthy k)) (Session.by_request rs))
           /\ ((forall e rid usage,
                   In e entries -> assistant_usage e = Some (rid, usage) ->
                   truthy rid = true) ->
               dict_sum (fun data => row_get (Hooks.tokens data) c)
                 (Hooks.seen_request_ids sh)
               = row_get (Session.totals rs) c)).
Proof.
  intros entries. split.
  { intros Hw. destruct (well_formed_logs_parse entries Hw)
      as ((rs & Hrs) & _ & (sh & Hsh)).
    now exists rs, sh. }
  intros rs sh c Hp Hh.
  apply session_parse_entries_scan in Hp as (seen & Hs).
  pose proof (session_scan_total _ _ _ c Hs) as Htot.
  cbn [snd] in Htot.
  change (Session.totals (Session.empty_result _)) with zero_row in Htot.
  change (Session.by_request (Session.empty_result _))
    with (@nil (key * usage_row)) in Htot.
  rewrite row_get_zero in Htot. simpl in Htot.
  assert (Hsum : row_get (Session.totals rs) c
                 = dict_sum (fun row => row_get row c) (Session.by_request rs))
    by lia.
  pose proof (scans_agree _ _ _ _ _ Hs Hh eq_refl) as HR. cbn [snd] in HR.
  assert (Hsplit : row_get (Session.totals rs) c
                   = dict_sum (fun data => row_get (Hooks.tokens data) c)
                       (Hooks.seen_request_ids sh)
                     + dict_sum (fun row => row_get row c)
                         (keep (fun k => negb (key_truthy k))
                            (Session.by_request rs))).
  { rewrite Hsum at 1.
    rewrite (dict_sum_keep _ (fun row => row_get row c) key_truthy).
    rewrite <- HR, dict_sum_map. reflexivity. }
  split; [exact Hsum|]. split; [exact Hsplit|].
  intros Hid. pose proof (session_scan_no_anonymous _ _ _ Hid Hs) as Hno.
  cbn [snd] in Hno. rewrite Hsplit, Hno. simpl. lia.
Qed.

Lemma strategies_agree_on_identified_calls_witness :
  exists rs sh,
    Session.parse_entries streamed_log = Ok rs
    /\ Hooks.scan Hooks.empty_scan streamed_log = Ok sh
    /\ dict_sum (fun data => row_get (Hooks.tokens data) InputTokens)
         (Hooks.seen_request_ids sh)
       = row_get (Session.totals rs) InputTokens.
Proof.
  destruct (proj1 (strategies_agree_on_identified_calls streamed_log) eq_refl)
    as (rs & sh & Hrs & Hsh).
  exists rs, sh. split; [exact Hrs|]. split; [exact Hsh|].
  refine (proj2 (proj2 (proj2 (strategies_agree_on_identified_calls streamed_log)
                          rs sh InputTokens Hrs Hsh)) _).
  intros e rid usage Hin Hu.
  simpl in Hin.
  destruct Hin as [<-|[<-|[<-|[<-|[]]]]]; vm_compute in Hu;
    injection Hu as <- _; reflexivity.
Defined.

(** C2 fails as stated: on the well-formed [mixed_log] the session
    analyzer's running total of input tokens is 12, the hook analyzer's
    sum over its stored calls is 7. *)
Lemma strategies_differ_on_anonymous_snapshots :
  exists rs sh,
    well_formed mixed_log = true
    /\ Session.parse_entries mixed_log = Ok rs
    /\ Hooks.scan Hooks.empty_scan mixed_log = Ok sh
    /\ row_get (Session.totals rs) InputTokens = 12
    /\ dict_sum (fun data => row_get (Hooks.tokens data) InputTokens)
         (Hooks.seen_request_ids sh) = 7
    /\ dict_sum (fun data => row_get (Hooks.tokens data) InputTokens)
         (Hooks.seen_request_ids sh)
       <> row_get (Session.totals rs) InputTokens.
Proof.
  do 2 eexists. split; [reflexivity|].
  split; [vm_compute; reflexivity|]. split; [vm_compute; reflexivity|].
  repeat split. discriminate.
Qed.

(** ** C3: snapshots without a request id *)

(** C3, as the code has it. The session analyzer folds a snapshot with
    an empty request id under the one key [''], like the snapshots of
    any other id: the stored value becomes the maximum and the total
    grows by the difference only. The hook analyzer does not store such
    a snapshot at all. *)
Theorem empty_id_snapshots_share_one_row :
  forall e usage,
    assistant_usage e = Some (JStr "", usage) ->
    (forall st st' c,
        Session.scan_entry st e = Ok st' ->
        exists v,
          usage_value usage c = Ok v
          /\ session_stored (Session.by_request (snd st')) (KStr "") c
             = Z.max (session_stored (Session.by_request (snd st)) (KStr "") c) v
          /\ row_get (Session.totals (snd st')) c
             = row_get (Session.totals (snd st)) c
               + (Z.max (session_stored (Session.by_request (snd st)) (KStr "") c) v
                  - session_stored (Session.by_request (snd st)) (KStr "") c))
    /\ (forall st st',
           Hooks.scan_entry st e = Ok st' ->
           Hooks.seen_request_ids st' = Hooks.seen_request_ids st).
Proof.
  intros e usage Hu. split.
  - intros st st' c Hs.
    pose proof (session_scan_entry_usage _ _ _ Hs) as Hsu.
    rewrite Hu in Hsu. destruct Hsu as (k & acc & Hk & Hacc & Ht & Hb).
    inversion Hk; subst k.
    destruct (session_fold_keys _ _ _ _ Hacc c) as (v & Hv & Hr & Htot).
    exists v. split; [exact Hv|]. split.
    + unfold session_stored at 1, Session.row_of.
      now rewrite Hb, dict_get_set_same.
    + now rewrite Ht.
  - intros st st' Hs. apply hooks_scan_entry_usage in Hs.
    now rewrite Hu in Hs.
Qed.

Lemma empty_id_snapshots_share_one_row_witness :
  exists st',
    Hooks.scan_entry Hooks.empty_scan
      (usage_record (JStr "") "claude-3-opus-20240229" [("input_tokens", JInt 5)])
    = Ok st'
    /\ Hooks.seen_request_ids st' = [].
Proof.
  eexists. split; [vm_compute; reflexivity|].
  refine (proj2 (empty_id_snapshots_share_one_row
                   (usage_record (JStr "") "claude-3-opus-20240229"
                      [("input_tokens", JInt 5)])
                   _ _) Hooks.empty_scan _ _);
    vm_compute; reflexivity.
Defined.

(** C3 fails as stated: of two snapshots without a request id that
    report 5 input tokens each, the session analyzer totals 5, and the
    hook analyzer records nothing in any total. *)
Lemma empty_id_snapshots_are_folded_or_skipped :
  (exists r,
      Session.parse_entries anonymous_log = Ok r
      /\ row_get (Session.totals r) InputTokens = 5
      /\ row_get (Session.totals r) InputTokens <> 5 + 5)
  /\ (exists a,
         Hooks.parse_entries anonymous_log = Ok a
         /\ Hooks.main_agent a
            = {| Hooks.api_calls := 0; Hooks.main_tokens := zero_row;
                 Hooks.models := [] |}
         /\ Hooks.hooks_prompt a
            = {| Hooks.count := 0; Hooks.prompt_input_tokens := 0;
                 Hooks.prompt_output_tokens := 0 |}).
Proof.
  split; eexists; (split; [vm_compute; reflexivity|]); repeat split.
  discriminate.
Qed.

(** ** C4: the categorisation loop *)

(** The categorisation loop from any accumulator: what it adds to each
    tally is a sum over the calls of one category. *)
Lemma categorize_from (seen : list (key * Hooks.call)) (acc cats : Hooks.categories) :
  for_each Hooks.categorize_call acc seen = Ok cats ->
  (forall c,
      row_get (Hooks.main_tokens (Hooks.cat_main_agent cats)) c
      = row_get (Hooks.main_tokens (Hooks.cat_main_agent acc)) c
        + dict_sum (fun data => row_get (Hooks.tokens data) c) (primary_calls seen))
  /\ Hooks.api_calls (Hooks.cat_main_agent cats)
     = Hooks.api_calls (Hooks.cat_main_agent acc)
       + Z.of_nat (List.length (primary_calls seen))
  /\ Hooks.count (Hooks.cat_prompt cats)
     = Hooks.count (Hooks.cat_prompt acc)
       + Z.of_nat (List.length (lightweight_calls seen))
  /\ Hooks.prompt_input_tokens (Hooks.cat_prompt cats)
     = Hooks.prompt_input_tokens (Hooks.cat_prompt acc)
       + dict_sum (fun data => input_tokens (Hooks.tokens data)
                               + cache_read (Hooks.tokens data))
           (lightweight_calls seen)
  /\ Hooks.prompt_output_tokens (Hooks.cat_prompt cats)
     = Hooks.prompt_output_tokens (Hooks.cat_prompt acc)
       + dict_sum (fun data => output_tokens (Hooks.tokens data))
           (lightweight_calls seen).
Proof.
  revert acc. induction seen as [|[k data] rest IH]; intros acc Hc.
  - inversion Hc; subst. simpl. split; [intros c; lia|]. lia.
  - apply for_each_ok_cons in Hc as (acc1 & H1 & Hc).
    destruct (IH _ Hc) as (Hm & Ha & Hn & Hi & Ho). clear IH Hc.
    unfold Hooks.categorize_call in H1. cbn [snd] in H1.
    apply bind_ok in H1 as (hook & Hcl & H1).
    apply bind_ok in H1 as (km & _ & H1).
    unfold Hooks.classify in Hcl.
    unfold primary_calls, lightweight_calls, is_lightweight in *.
    cbn [filter snd].
    destruct (Hooks.model data) as [| | |s| |]; try discriminate Hcl.
    inversion Hcl; subst hook; clear Hcl.
    destruct (is_hook s); inversion H1; subst acc1; clear H1;
      cbn [negb] in *; simpl in Hm, Ha, Hn, Hi, Ho |- *;
      rewrite ?Zpos_P_of_succ_nat;
      (split; [intros c; rewrite Hm; destruct c; simpl; lia|]); lia.
Qed.

Lemma hooks_parse_entries_inv (entries : list json) (a : Hooks.analysis) :
  Hooks.parse_entries entries = Ok a ->
  exists st cats,
    Hooks.scan Hooks.empty_scan entries = Ok st
    /\ Hooks.categorize (Hooks.seen_request_ids st) = Ok cats
    /\ a = {| Hooks.entry_count := Z.of_nat (List.length entries);
              Hooks.main_agent := Hooks.cat_main_agent cats;
              Hooks.hooks_prompt := Hooks.cat_prompt cats;
              Hooks.api_calls_by_model := Hooks.cat_by_model cats;
              Hooks.user_prompts := Hooks.scan_user_prompts st;
              Hooks.tool_uses := Hooks.scan_tool_uses st |}.
Proof.
  unfold Hooks.parse_entries. intros Hp.
  apply bind_ok in Hp as (st & Hs & Hp).
  apply bind_ok in Hp as (cats & Hc & Hp).
  inversion Hp. now exists st, cats.
Qed.

(** C4, as the code has it. For the calls classified primary the four
    counters are summed separately and the calls are counted. For the
    calls classified lightweight the calls are counted, the input total
    is the sum of input tokens plus cache-read tokens, and the output
    total is the sum of output tokens. *)
Theorem categories_sum_reconciled_calls :
  forall entries a,
    Hooks.parse_entries entries = Ok a ->
    exists st,
      Hooks.scan Hooks.empty_scan entries = Ok st
      /\ (forall c,
             row_get (Hooks.main_tokens (Hooks.main_agent a)) c
             = dict_sum (fun data => row_get (Hooks.tokens data) c)
                 (primary_calls (Hooks.seen_request_ids st)))
      /\ Hooks.api_calls (Hooks.main_agent a)
         = Z.of_nat (List.length (primary_calls (Hooks.seen_request_ids st)))
      /\ Hooks.count (Hooks.hooks_prompt a)
         = Z.of_nat (List.length (lightweight_calls (Hooks.seen_request_ids st)))
      /\ Hooks.prompt_input_tokens (Hooks.hooks_prompt a)
         = dict_sum (fun data => input_tokens (Hooks.tokens data)
                                 + cache_read (Hooks.tokens data))
             (lightweight_calls (Hooks.seen_request_ids st))
      /\ Hooks.prompt_output_tokens (Hooks.hooks_prompt a)
         = dict_sum (fun data => output_tokens (Hooks.tokens data))
             (lightweight_calls (Hooks.seen_request_ids st)).
Proof.
  intros entries a Hp.
  apply hooks_parse_entries_inv in Hp as (st & cats & Hs & Hc & ->).
  exists st. split; [exact Hs|].
  apply categorize_from in Hc as (Hm & Ha & Hn & Hi & Ho).
  cbn [Hooks.main_agent Hooks.hooks_prompt].
  repeat split.
  - intros c. rewrite Hm. simpl. rewrite row_get_zero. lia.
  - rewrite Ha. simpl. lia.
  - rewrite Hn. simpl. lia.
  - rewrite Hi. simpl. lia.
  - rewrite Ho. simpl. lia.
Qed.

Lemma categories_sum_reconciled_calls_witness :
  exists a st,
    Hooks.parse_entries haiku_log = Ok a
    /\ Hooks.scan Hooks.empty_scan haiku_log = Ok st
    /\ Hooks.prompt_input_tokens (Hooks.hooks_prompt a)
       = dict_sum (fun data => input_tokens (Hooks.tokens data)
                               + cache_read (Hooks.tokens data))
           (lightweight_calls (Hooks.seen_request_ids st)).
Proof.
  assert (Hp : exists a, Hooks.parse_entries haiku_log = Ok a)
    by (eexists; vm_compute; reflexivity).
  destruct Hp as (a & Hp).
  destruct (categories_sum_reconciled_calls haiku_log a Hp)
    as (st & Hs & _ & _ & _ & Hi & _).
  exists a, st. split; [exact Hp|]. split; [exact Hs|exact Hi].
Defined.

(** C4 fails as stated: for the one haiku call of [haiku_log], with 10
    input, 1 output, 7 cache-creation and 3 cache-read tokens, the
    lightweight input total is 13, not the 10 input tokens of the call;
    the record of the lightweight category has no other token field
    than input and output. *)
Lemma lightweight_input_includes_cache_read :
  exists a st,
    Hooks.parse_entries haiku_log = Ok a
    /\ Hooks.scan Hooks.empty_scan haiku_log = Ok st
    /\ Hooks.hooks_prompt a
       = {| Hooks.count := 1; Hooks.prompt_input_tokens := 13;
            Hooks.prompt_output_tokens := 1 |}
    /\ dict_sum (fun data => input_tokens (Hooks.tokens data))
         (lightweight_calls (Hooks.seen_request_ids st)) = 10
    /\ Hooks.prompt_input_tokens (Hooks.hooks_prompt a)
       <> dict_sum (fun data => input_tokens (Hooks.tokens data))
            (lightweight_calls (Hooks.seen_request_ids st)).
Proof.
  do 2 eexists.
  split; [vm_compute; reflexivity|]. split; [vm_compute; reflexivity|].
  repeat split. discriminate.
Qed.

(** ** C7: the classifier *)

Lemma lower_char_haiku (c : ascii) :
  (("h" =? lower_char c)%char = same_letter c "h")
  /\ (("a" =? lower_char c)%char = same_letter c "a")
  /\ (("i" =? lower_char c)%char = same_letter c "i")
  /\ (("k" =? lower_char c)%char = same_letter c "k")
  /\ (("u" =? lower_char c)%char = same_letter c "u").
Proof.
  destruct c as [[|] [|] [|] [|] [|] [|] [|] [|]]; vm_compute; auto.
Qed.

Lemma prefix_cons (x c : ascii) (p s : string) :
  String.prefix (String x p) (String c s) = (x =? c)%char && String.prefix p s.
Proof.
  simpl. destruct (ascii_dec x c) as [->|Hne].
  - now rewrite Ascii.eqb_refl.
  - apply Ascii.eqb_neq in Hne. now rewrite Hne.
Qed.

Lemma prefix_nil (s : string) : String.prefix "" s = true.
Proof. now destruct s. Qed.

Lemma prefix_haiku_lower (s : string) :
  String.prefix "haiku" (lower s) = prefix_ci "haiku" s.
Proof.
  destruct s as [|c1 [|c2 [|c3 [|c4 [|c5 s]]]]];
    cbn [lower prefix_ci]; rewrite ?prefix_cons, ?prefix_nil;
    try reflexivity.
  all: destruct (lower_char_haiku c1) as (-> & _).
  2-5: destruct (lower_char_haiku c2) as (_ & -> & _).
  3-5: destruct (lower_char_haiku c3) as (_ & _ & -> & _).
  4-5: destruct (lower_char_haiku c4) as (_ & _ & _ & -> & _).
  5: destruct (lower_char_haiku c5) as (_ & _ & _ & _ & ->).
  all: cbn [String.prefix]; rewrite ?andb_false_r; reflexivity.
Qed.

(** C7. A model string is taken for a hook exactly when it contains
    the letters h, a, i, k, u in a row, each in either case; the
    categorisation loop sends such a call to the prompt-hook tallies
    and every other call to the main-agent tallies. *)
Theorem haiku_classifies_lightweight :
  (forall m, is_hook m = contains_ci "haiku" m)
  /\ (forall m, Hooks.classify (JStr m) = Ok (contains_ci "haiku" m))
  /\ (forall acc k data m,
         Hooks.model data = JStr m ->
         exists acc',
           Hooks.categorize_call acc (k, data) = Ok acc'
           /\ if contains_ci "haiku" m
              then Hooks.cat_prompt acc'
                   = Hooks.add_hook_call data (Hooks.cat_prompt acc)
                   /\ Hooks.cat_main_agent acc' = Hooks.cat_main_agent acc
              else Hooks.cat_main_agent acc'
                   = Hooks.add_main_call (KStr m) data (Hooks.cat_main_agent acc)
                   /\ Hooks.cat_prompt acc' = Hooks.cat_prompt acc)
  /\ is_hook "claude-3-5-haiku-20241022" = true
  /\ is_hook "claude-3-opus-20240229" = false
  /\ is_hook "Claude-3-5-HAIKU" = true.
Proof.
  assert (Hci : forall m, is_hook m = contains_ci "haiku" m).
  { unfold is_hook. induction m as [|c m IH].
    - reflexivity.
    - change (contains "haiku" (lower (String c m)))
        with (String.prefix "haiku" (lower (String c m))
              || contains "haiku" (lower m)).
      rewrite prefix_haiku_lower, IH. reflexivity. }
  split; [exact Hci|]. split; [intros m; simpl; now rewrite Hci|].
  split; [|repeat split].
  intros acc k data m Hm. unfold Hooks.categorize_call. cbn [snd].
  rewrite Hm. cbn [Hooks.classify hash_key bind]. rewrite Hci.
  destruct (contains_ci "haiku" m); eexists; (split; [reflexivity|]);
    split; reflexivity.
Qed.

Lemma haiku_classifies_lightweight_witness :
  exists acc',
    Hooks.categorize_call Hooks.empty_categories
      (KStr "req_h",
       {| Hooks.model := JStr "claude-3-5-haiku-20241022";
          Hooks.tokens := zero_row |}) = Ok acc'
    /\ Hooks.count (Hooks.cat_prompt acc') = 1.
Proof.
  destruct (proj1 (proj2 (proj2 haiku_classifies_lightweight))
              Hooks.empty_categories (KStr "req_h")
              {| Hooks.model := JStr "claude-3-5-haiku-20241022";
                 Hooks.tokens := zero_row |}
              "claude-3-5-haiku-20241022" eq_refl)
    as (acc' & Hc & Hp).
  exists acc'. split; [exact Hc|].
  change (contains_ci "haiku" "claude-3-5-haiku-20241022") with true in Hp.
  destruct Hp as [Hp _]. rewrite Hp. reflexivity.
Defined.

(** ** C5 and C6: the cost calculators *)

(** The literals of the pricing table denote, in binary64, the floats
    the Python source writes. *)
Lemma binary64_literals :
  float_lit (F := float) 15.0 = 15.0%float
  /\ float_lit (F := float) 75.0 = 75.0%float
  /\ float_lit (F := float) 1.50 = 1.5%float
  /\ float_lit (F := float) 18.75 = 18.75%float
  /\ float_lit (F := float) 3.0 = 3.0%float
  /\ float_lit (F := float) 0.30 = 0.3%float
  /\ float_lit (F := float) 3.75 = 3.75%float
  /\ float_lit (F := float) 0.25 = 0.25%float
  /\ float_lit (F := float) 1.25 = 1.25%float
  /\ float_lit (F := float) 0.025 = 0.025%float
  /\ float_lit (F := float) 0.3125 = 0.3125%float.
Proof. repeat split; vm_compute; reflexivity. Qed.

(** The table of the code is the table of the specification. *)
Lemma pricing_is_spec_table (t : tier) :
  (Hooks.input (Hooks.pricing_get (tier_name t)) == spec_rate t InputCost)%Q
  /\ (Hooks.output (Hooks.pricing_get (tier_name t))
      == spec_rate t OutputCost)%Q
  /\ (Hooks.rate_cache_read (Hooks.pricing_get (tier_name t))
      == spec_rate t CacheReadCost)%Q
  /\ (Hooks.rate_cache_create (Hooks.pricing_get (tier_name t))
      == spec_rate t CacheCreateCost)%Q.
Proof. destruct t; repeat split. Qed.

(** The conversion is finite just below the bound and infinite at it. *)
Lemma binary64_range_edge :
  is_infinity (Z2float (2 ^ 1024 - 2 ^ 970 - 1)) = false
  /\ is_infinity (Z2float (2 ^ 1024 - 2 ^ 970)) = true
  /\ Z2float (2 ^ 53 + 1) = Z2float (2 ^ 53).
Proof. repeat split; vm_compute; reflexivity. Qed.

Lemma binary64_of_int_in_range (n : Z) :
  float_range n -> float_of_int (F := float) n = Ok (Z2float n).
Proof.
  unfold float_range. intros Hn. cbn [float_of_int binary64].
  destruct (Z.ltb_spec (Z.abs n) (2 ^ 1024 - 2 ^ 970)); [reflexivity|lia].
Qed.

Lemma float_range_small (n : Z) : Z.abs n <= 2 ^ 64 -> float_range n.
Proof.
  unfold float_range. intros Hn.
  apply Z.le_lt_trans with (m := 2 ^ 64); [exact Hn|].
  vm_compute. reflexivity.
Qed.

Lemma binary64_term (n : Z) (rate : Q) :
  float_range n ->
  Hooks.term (F := float) n rate
  = Ok (PrimFloat.div (PrimFloat.mul (Z2float n) (float_lit rate))
          (Z2float 1000000)).
Proof.
  intros Hn. unfold Hooks.term, mul_int_float, div_float_int.
  rewrite (binary64_of_int_in_range n Hn). cbn [bind].
  rewrite (binary64_of_int_in_range 1000000)
    by (apply float_range_small; simpl; lia).
  reflexivity.
Qed.

(** C5. In exact arithmetic the hook analyzer's cost of a token dict at
    a tier of the table is the sum of the four components
    tokens x rate / 1,000,000 at that tier's rates, and the session
    analyzer's breakdown holds those four components at the primary
    rates and their sum as the total. In binary64, which is what runs,
    for counts that convert to a float the hook analyzer adds the four
    components, each evaluated product first, to zero from left to
    right; the session analyzer evaluates
    each component with the rate divided first; and one million input
    tokens and one million output tokens at the primary tier cost
    exactly 90.0 in both analyzers. *)
Theorem cost_is_tokens_times_rate :
  (forall tokens t,
      exists cost,
        Hooks.calculate_cost (F := Q) tokens (tier_name t) = Ok cost
        /\ (cost
            == spec_component (Hooks.tokens_get "input_tokens" tokens)
                 (spec_rate t InputCost)
               + spec_component (Hooks.tokens_get "output_tokens" tokens)
                   (spec_rate t OutputCost)
               + spec_component (Hooks.tokens_get "cache_read" tokens)
                   (spec_rate t CacheReadCost)
               + spec_component (Hooks.tokens_get "cache_creation" tokens)
                   (spec_rate t CacheCreateCost))%Q)
  /\ (forall totals,
         exists b,
           Session.calculate_cost (F := Q) totals = Ok b
           /\ (Session.input_cost b
               == spec_component (input_tokens totals)
                    (spec_rate Primary InputCost))%Q
           /\ (Session.output_cost b
               == spec_component (output_tokens totals)
                    (spec_rate Primary OutputCost))%Q
           /\ (Session.cache_read_cost b
               == spec_component (cache_read totals)
                    (spec_rate Primary CacheReadCost))%Q
           /\ (Session.cache_create_cost b
               == spec_component (cache_creation totals)
                    (spec_rate Primary CacheCreateCost))%Q
           /\ (Session.total_cost b
               == Session.input_cost b + Session.output_cost b
                  + Session.cache_read_cost b + Session.cache_create_cost b)%Q)
  /\ (forall tokens m,
         float_range (Hooks.tokens_get "input_tokens" tokens) ->
         float_range (Hooks.tokens_get "output_tokens" tokens) ->
         float_range (Hooks.tokens_get "cache_read" tokens) ->
         float_range (Hooks.tokens_get "cache_creation" tokens) ->
         Hooks.calculate_cost (F := float) tokens m
         = Ok (Z2float 0
               + binary64_component (Hooks.tokens_get "input_tokens" tokens)
                   (Hooks.input (Hooks.pricing_get m))
               + binary64_component (Hooks.tokens_get "output_tokens" tokens)
                   (Hooks.output (Hooks.pricing_get m))
               + binary64_component (Hooks.tokens_get "cache_read" tokens)
                   (Hooks.rate_cache_read (Hooks.pricing_get m))
               + binary64_component (Hooks.tokens_get "cache_creation" tokens)
                   (Hooks.rate_cache_create (Hooks.pricing_get m)))%float)
  /\ (forall totals,
         float_range (input_tokens totals) ->
         float_range (output_tokens totals) ->
         float_range (cache_read totals) ->
         float_range (cache_creation totals) ->
         exists b,
           Session.calculate_cost (F := float) totals = Ok b
           /\ Session.input_cost b
              = binary64_per_token_component (input_tokens totals) 15.0
           /\ Session.output_cost b
              = binary64_per_token_component (output_tokens totals) 75.0
           /\ Session.cache_read_cost b
              = binary64_per_token_component (cache_read totals) 1.50
           /\ Session.cache_create_cost b
              = binary64_per_token_component (cache_creation totals) 18.75
           /\ Session.total_cost b
              = (Session.input_cost b + Session.output_cost b
                 + Session.cache_read_cost b + Session.cache_create_cost b)%float)
  /\ Hooks.calculate_cost (F := float) million_tokens "opus" = Ok 90.0%float
  /\ (exists b,
         Session.calculate_cost (F := float) million_totals = Ok b
         /\ Session.total_cost b = 90.0%float).
Proof.
  repeat apply conj.
  - intros tokens t. eexists. split; [reflexivity|].
    destruct (pricing_is_spec_table t) as (Hi & Ho & Hr & Hc).
    unfold spec_component. rewrite <- Hi, <- Ho, <- Hr, <- Hc.
    cbn [fadd fmul fdiv float_lit exact].
    field.
  - intros totals. eexists. split; [reflexivity|].
    cbn [Session.input_cost Session.output_cost Session.cache_read_cost
           Session.cache_create_cost Session.total_cost].
    unfold spec_component, spec_rate.
    cbn [fadd fmul fdiv float_lit exact].
    repeat split; field.
  - intros tokens m Hi Ho Hr Hc. unfold Hooks.calculate_cost.
    rewrite !binary64_term by assumption. cbn [bind].
    unfold add_int_float.
    rewrite (binary64_of_int_in_range 0)
      by (apply float_range_small; simpl; lia).
    reflexivity.
  - intros totals Hi Ho Hr Hc.
    unfold Session.calculate_cost, Session.per_token, div_float_int,
      mul_int_float.
    rewrite (binary64_of_int_in_range 1000000)
      by (apply float_range_small; simpl; lia).
    cbn [bind].
    rewrite (binary64_of_int_in_range _ Hi), (binary64_of_int_in_range _ Ho),
      (binary64_of_int_in_range _ Hr), (binary64_of_int_in_range _ Hc).
    cbn [bind]. eexists. split; [reflexivity|]. repeat split.
  - vm_compute. reflexivity.
  - eexists. split; vm_compute; reflexivity.
Qed.

Lemma cost_is_tokens_times_rate_witness :
  Hooks.calculate_cost (F := float) million_tokens "opus" = Ok 90.0%float.
Proof.
  refine (eq_trans
            (proj1 (proj2 (proj2 cost_is_tokens_times_rate))
               million_tokens "opus" _ _ _ _) _);
    vm_compute; reflexivity.
Defined.

Lemma pricing_lookup_none (m : string) :
  Hooks.pricing_lookup m Hooks.pricing = None
  <-> m <> "opus" /\ m <> "sonnet" /\ m <> "haiku".
Proof.
  unfold Hooks.pricing. cbn [Hooks.pricing_lookup].
  destruct (String.eqb_spec "opus" m) as [<-|H1].
  { split; [discriminate|]. intros (H & _). now contradiction H. }
  destruct (String.eqb_spec "sonnet" m) as [<-|H2].
  { split; [discriminate|]. intros (_ & H & _). now contradiction H. }
  destruct (String.eqb_spec "haiku" m) as [<-|H3].
  { split; [discriminate|]. intros (_ & _ & H). now contradiction H. }
  split; [|reflexivity]. intros _. repeat split; congruence.
Qed.

(** C6. For a tier string with no entry in the pricing table
    [calculate_cost] takes the opus row: over any float arithmetic its
    result, exception or cost, is the result for ['opus'] on the same
    counts. It returns a cost in exact arithmetic, and in binary64
    whenever the four counts convert to a float. *)
Theorem unknown_tier_costs_as_primary :
  forall m,
    Hooks.pricing_lookup m Hooks.pricing = None ->
    (forall (F : Type) (PF : PyFloat F) tokens,
        Hooks.calculate_cost (F := F) tokens m
        = Hooks.calculate_cost (F := F) tokens "opus")
    /\ (forall tokens,
           exists cost, Hooks.calculate_cost (F := Q) tokens m = Ok cost)
    /\ (forall tokens,
           float_range (Hooks.tokens_get "input_tokens" tokens) ->
           float_range (Hooks.tokens_get "output_tokens" tokens) ->
           float_range (Hooks.tokens_get "cache_read" tokens) ->
           float_range (Hooks.tokens_get "cache_creation" tokens) ->
           exists cost, Hooks.calculate_cost (F := float) tokens m = Ok cost).
Proof.
  intros m Hm.
  assert (Hp : Hooks.pricing_get m = Hooks.opus)
    by (unfold Hooks.pricing_get; now rewrite Hm).
  split; [|split].
  - intros F PF tokens. unfold Hooks.calculate_cost. now rewrite Hp.
  - intros tokens. eexists. reflexivity.
  - intros tokens Hi Ho Hr Hc. unfold Hooks.calculate_cost.
    rewrite !binary64_term by assumption. cbn [bind].
    unfold add_int_float.
    rewrite (binary64_of_int_in_range 0)
      by (apply float_range_small; simpl; lia).
    cbn [bind]. eexists. reflexivity.
Qed.

Lemma unknown_tier_costs_as_primary_witness :
  Hooks.calculate_cost (F := float) million_tokens "gpt-4" = Ok 90.0%float.
Proof.
  rewrite (proj1 (unknown_tier_costs_as_primary "gpt-4" eq_refl)
             float binary64 million_tokens).
  vm_compute. reflexivity.
Defined.

(** ** C8: the line reader *)

Lemma read_lines_app (loads : string -> result json) (a b : list string) :
  read_lines loads (a ++ b)
  = (xs <- read_lines loads a ;;
     ys <- read_lines loads b ;;
     Ok (xs ++ ys)%list).
Proof.
  induction a as [|line rest IH]; simpl.
  - destruct (read_lines loads b); reflexivity.
  - destruct (loads line) as [entry|e].
    + rewrite IH. destruct (read_lines loads rest); simpl; [|reflexivity].
      destruct (read_lines loads b); reflexivity.
    + destruct (caught e); [exact IH|reflexivity].
Qed.

(** When no line raises anything but [JSONDecodeError], the reader
    returns the values of the lines on which [json.loads] returns. *)
Lemma read_lines_decoded (loads : string -> result json) (lines : list string) :
  (forall line e, In line lines -> loads line = Raise e -> caught e = true) ->
  read_lines loads lines = Ok (read_entries (decoded loads) lines).
Proof.
  induction lines as [|line rest IH]; intros Hc; simpl; [reflexivity|].
  assert (Hrest : read_lines loads rest = Ok (read_entries (decoded loads) rest))
    by (apply IH; intros l e Hin; apply Hc; now right).
  unfold decoded at 1. destruct (loads line) as [entry|e] eqn:El.
  - now rewrite Hrest.
  - rewrite (Hc line e (or_introl eq_refl) El). exact Hrest.
Qed.

Lemma read_lines_drop (loads : string -> result json)
    (pre post : list string) (bad : string) :
  loads bad = Raise JSONDecodeError ->
  read_lines loads (pre ++ bad :: post) = read_lines loads (pre ++ post).
Proof.
  intros Hbad. rewrite !read_lines_app. simpl. now rewrite Hbad.
Qed.

Lemma read_lines_escape (loads : string -> result json)
    (pre post : list string) (bad : string) (e : exn) :
  loads bad = Raise e ->
  caught e = false ->
  (forall line e', In line pre -> loads line = Raise e' -> caught e' = true) ->
  read_lines loads (pre ++ bad :: post) = Raise e.
Proof.
  intros Hbad He Hpre. rewrite read_lines_app, (read_lines_decoded _ _ Hpre).
  simpl. now rewrite Hbad, He.
Qed.

Lemma read_lines_keeps (loads : string -> result json)
    (pre post : list string) (line : string) (v : json) (entries : list json) :
  loads line = Ok v ->
  read_lines loads (pre ++ line :: post) = Ok entries ->
  exists xs ys, entries = (xs ++ v :: ys)%list.
Proof.
  intros Hl Hr. rewrite read_lines_app in Hr.
  apply bind_ok in Hr as (xs & _ & Hr).
  apply bind_ok in Hr as (tail & Ht & Hr).
  simpl in Ht. rewrite Hl in Ht.
  apply bind_ok in Ht as (ys & _ & Ht).
  inversion Ht; subst tail. inversion Hr; subst entries. now exists xs, ys.
Qed.

Lemma session_scan_entry_non_record (st : Session.scan_state) (v : json) :
  is_dict v = false -> Session.scan_entry st v = Raise AttributeError.
Proof. destruct v; try discriminate; reflexivity. Qed.

Lemma hooks_scan_entry_non_record (st : Hooks.scan_state) (v : json) :
  is_dict v = false -> Hooks.scan_entry st v = Raise AttributeError.
Proof. destruct v; try discriminate; reflexivity. Qed.

(** With an entry that is not an object, neither analyzer returns. *)
Lemma session_parse_non_record (xs ys : list json) (v : json) (r : Session.session) :
  is_dict v = false -> Session.parse_entries (xs ++ v :: ys) <> Ok r.
Proof.
  intros Hd Hp. apply session_parse_entries_scan in Hp as (seen & Hs).
  unfold Session.scan in Hs.
  apply for_each_ok_app in Hs as (st1 & _ & Hs).
  apply for_each_ok_cons in Hs as (st2 & H2 & _).
  rewrite (session_scan_entry_non_record st1 v Hd) in H2. discriminate.
Qed.

Lemma hooks_parse_non_record (xs ys : list json) (v : json) (a : Hooks.analysis) :
  is_dict v = false -> Hooks.parse_entries (xs ++ v :: ys) <> Ok a.
Proof.
  intros Hd Hp. apply hooks_parse_entries_inv in Hp as (st & cats & Hs & _).
  unfold Hooks.scan in Hs.
  apply for_each_ok_app in Hs as (st1 & _ & Hs).
  apply for_each_ok_cons in Hs as (st2 & H2 & _).
  rewrite (hooks_scan_entry_non_record st1 v Hd) in H2. discriminate.
Qed.

(** Among well-formed records the hook analyzer stops at the entry
    that is not an object. *)
Lemma hooks_parse_non_record_error (pre post : list json) (v : json) :
  well_formed pre = true ->
  is_dict v = false ->
  Hooks.parse_entries (pre ++ v :: post) = Raise AttributeError.
Proof.
  intros Hw Hd. unfold Hooks.parse_entries, Hooks.scan.
  rewrite for_each_app.
  destruct (hooks_scan_returns pre Hooks.empty_scan Hw eq_refl) as (st & Hs & _).
  unfold Hooks.scan in Hs. rewrite Hs. cbn [bind for_each].
  now rewrite (hooks_scan_entry_non_record st v Hd).
Qed.

(** Among well-formed records the session analyzer stops at the entry
    that is not an object: in the loop that fills [uuid_map] when
    ['uuid' in entry] raises or holds, in the scan otherwise. *)
Lemma session_parse_non_record_error (pre post : list json) (v : json) :
  well_formed pre = true ->
  is_dict v = false ->
  (is_scalar v = true \/ mentions_uuid v = true ->
   Session.parse_entries (pre ++ v :: post) = Raise TypeError)
  /\ (is_scalar v = false ->
      mentions_uuid v = false ->
      well_formed post = true ->
      Session.parse_entries (pre ++ v :: post) = Raise AttributeError).
Proof.
  intros Hw Hd. unfold Session.parse_entries, Session.build_uuid_map.
  rewrite for_each_app.
  destruct (build_uuid_map_returns pre [] Hw) as (m & ->).
  cbn [bind for_each]. split.
  - intros [Hs|Hm].
    + destruct v; try discriminate; reflexivity.
    + destruct v; try discriminate; simpl in Hm |- *; now rewrite Hm.
  - intros Hs Hm Hpost.
    assert (Hv : Session.has_uuid v = Ok false)
      by (destruct v; try discriminate; simpl in Hm |- *; now rewrite Hm).
    rewrite Hv. cbn [bind].
    destruct (build_uuid_map_returns post m Hpost) as (m' & ->). cbn [bind].
    unfold Session.scan. rewrite for_each_app.
    destruct (session_scan_returns pre
                ([], Session.empty_result
                       (Z.of_nat (List.length (pre ++ v :: post)))) Hw)
      as (st & Hst).
    unfold Session.scan in Hst. rewrite Hst. cbn [bind for_each].
    now rewrite (session_scan_entry_non_record st v Hd).
Qed.

Lemma session_track_content_frame (content : json) (r : Session.session) :
  Session.entry_count (Session.track_content content r) = Session.entry_count r
  /\ Session.user_prompts (Session.track_content content r)
     = Session.user_prompts r.
Proof.
  unfold Session.track_content. destruct content; auto.
  revert r. induction items as [|item rest IH]; intros r; simpl; [auto|].
  destruct (IH (Session.track_item r item)) as [Hc Hp]. rewrite Hc, Hp.
  unfold Session.track_item. destruct item; auto.
  destruct (str_eq _ "thinking"); [now auto|].
  destruct (str_eq _ "tool_use"); now auto.
Qed.

Lemma session_track_assistant_frame (e : json) (st st' : Session.scan_state) :
  Session.track_assistant e st = Ok st' ->
  Session.entry_count (snd st') = Session.entry_count (snd st)
  /\ Session.user_prompts (snd st') = Session.user_prompts (snd st).
Proof.
  unfold Session.track_assistant. intros Hs.
  apply bind_ok in Hs as (msg & _ & Hs).
  apply bind_ok in Hs as (rid & _ & Hs).
  apply bind_ok in Hs as (st1 & H1 & Hs).
  apply bind_ok in Hs as (usage & _ & Hs).
  apply bind_ok in Hs as (r2 & H2 & Hs).
  apply bind_ok in Hs as (content & _ & Hs).
  inversion Hs; subst st'; clear Hs. cbn [snd].
  destruct (session_track_content_frame content r2) as [Hc Hp].
  rewrite Hc, Hp.
  assert (H12 : Session.entry_count r2 = Session.entry_count (snd st1)
                /\ Session.user_prompts r2 = Session.user_prompts (snd st1)).
  { destruct (truthy usage); [|inversion H2; now auto].
    unfold Session.fold_usage in H2.
    apply bind_ok in H2 as (k & _ & H2).
    apply bind_ok in H2 as (acc & _ & H2).
    inversion H2; now auto. }
  destruct H12 as [-> ->].
  unfold Session.count_api_call in H1. destruct st as [seen r].
  destruct (truthy rid); [|inversion H1; now auto].
  apply bind_ok in H1 as (k & _ & H1).
  destruct (existsb (key_eqb k) seen); inversion H1; now auto.
Qed.

(** One record leaves [entry_count] alone and appends the preview of a
    user text, cut to 100 characters. *)
Lemma session_scan_entry_frame (st st' : Session.scan_state) (e : json) :
  Session.scan_entry st e = Ok st' ->
  Session.entry_count (snd st') = Session.entry_count (snd st)
  /\ Session.user_prompts (snd st')
     = (Session.user_prompts (snd st)
        ++ match user_text e with
           | Some text => [slice_to 100 text]
           | None => []
           end)%list.
Proof.
  unfold Session.scan_entry, user_text. intros Hs.
  destruct e; try discriminate Hs. cbn [py_get bind] in Hs.
  destruct (str_eq (get fields "type" JNull) "user") eqn:Eu.
  - rewrite (str_eq_user_assistant _ Eu) in *.
    apply bind_ok in Hs as (st1 & H1 & Hs). inversion Hs; subst st'; clear Hs.
    apply bind_ok in H1 as (r1 & H1 & Hr). inversion Hr; subst st1; clear Hr.
    cbn [snd]. unfold Session.track_user in H1. cbn [py_get bind] in H1.
    destruct (get fields "message" (JDict [])) as [| | | | |msg];
      try (inversion H1; subst; rewrite app_nil_r; now auto).
    destruct (get msg "content" (JStr "")) as [| | |text| |];
      try (inversion H1; subst; rewrite app_nil_r; now auto).
    destruct (negb (text =? "")%string); inversion H1; subst;
      rewrite ?app_nil_r; now auto.
  - cbn [bind] in Hs. rewrite app_nil_r.
    destruct (str_eq (get fields "type" JNull) "assistant");
      [|inversion Hs; now auto].
    now apply session_track_assistant_frame in Hs.
Qed.

Lemma session_scan_frame (entries : list json) (st st' : Session.scan_state) :
  Session.scan st entries = Ok st' ->
  Session.entry_count (snd st') = Session.entry_count (snd st)
  /\ Session.user_prompts (snd st')
     = (Session.user_prompts (snd st)
        ++ map (slice_to 100) (user_texts entries))%list.
Proof.
  unfold Session.scan. revert st.
  induction entries as [|e rest IH]; intros st Hs.
  - inversion Hs; subst. simpl. rewrite app_nil_r. auto.
  - apply for_each_ok_cons in Hs as (st1 & H1 & Hs).
    destruct (IH _ Hs) as [Hc Hp].
    destruct (session_scan_entry_frame _ _ _ H1) as [Hc1 Hp1].
    rewrite Hc, Hc1, Hp, Hp1, <- app_assoc. split; [reflexivity|].
    f_equal. simpl. now destruct (user_text e).
Qed.

(** One record appends the preview of a user text, cut to 200
    characters. *)
Lemma hooks_scan_entry_frame (st st' : Hooks.scan_state) (e : json) :
  Hooks.scan_entry st e = Ok st' ->
  map Hooks.content (Hooks.scan_user_prompts st')
  = (map Hooks.content (Hooks.scan_user_prompts st)
     ++ match user_text e with
        | Some text => [slice_to 200 text]
        | None => []
        end)%list.
Proof.
  unfold Hooks.scan_entry, user_text. intros Hs.
  destruct e; try discriminate Hs. cbn [py_get bind] in Hs.
  destruct (str_eq (get fields "type" JNull) "user") eqn:Eu.
  - rewrite (str_eq_user_assistant _ Eu) in *.
    apply bind_ok in Hs as (st1 & H1 & Hs). inversion Hs; subst st'; clear Hs.
    unfold Hooks.track_user in H1. cbn [py_get bind] in H1.
    destruct (get fields "message" (JDict [])) as [| | | | |msg];
      try (inversion H1; subst; now rewrite app_nil_r).
    destruct (get msg "content" (JStr "")) as [| | |text| |];
      try (inversion H1; subst; now rewrite app_nil_r).
    destruct (negb (text =? "")%string); inversion H1; subst;
      rewrite ?app_nil_r; [|reflexivity].
    cbn [Hooks.scan_user_prompts]. now rewrite map_app.
  - cbn [bind] in Hs. rewrite app_nil_r.
    destruct (str_eq (get fields "type" JNull) "assistant");
      [|inversion Hs; now auto].
    unfold Hooks.track_assistant in Hs.
    apply bind_ok in Hs as (msg & _ & Hs).
    apply bind_ok in Hs as (rid & _ & Hs).
    apply bind_ok in Hs as (m & _ & Hs).
    apply bind_ok in Hs as (usage & _ & Hs).
    apply bind_ok in Hs as (seen & _ & Hs).
    apply bind_ok in Hs as (content & _ & Hs).
    inversion Hs; subst st'. reflexivity.
Qed.

Lemma hooks_scan_frame (entries : list json) (st st' : Hooks.scan_state) :
  Hooks.scan st entries = Ok st' ->
  map Hooks.content (Hooks.scan_user_prompts st')
  = (map Hooks.content (Hooks.scan_user_prompts st)
     ++ map (slice_to 200) (user_texts entries))%list.
Proof.
  unfold Hooks.scan. revert st.
  induction entries as [|e rest IH]; intros st Hs.
  - inversion Hs; subst. simpl. now rewrite app_nil_r.
  - apply for_each_ok_cons in Hs as (st1 & H1 & Hs).
    rewrite (IH _ Hs), (hooks_scan_entry_frame _ _ _ H1), <- app_assoc.
    f_equal. simpl. now destruct (user_text e).
Qed.

Lemma session_entry_count (entries : list json) (r : Session.session) :
  Session.parse_entries entries = Ok r ->
  Session.entry_count r = Z.of_nat (List.length entries).
Proof.
  intros Hp. apply session_parse_entries_scan in Hp as (seen & Hs).
  now apply session_scan_frame in Hs as [Hc _].
Qed.

Lemma hooks_entry_count (entries : list json) (a : Hooks.analysis) :
  Hooks.parse_entries entries = Ok a ->
  Hooks.entry_count a = Z.of_nat (List.length entries).
Proof.
  intros Hp. apply hooks_parse_entries_inv in Hp as (st & cats & _ & _ & ->).
  reflexivity.
Qed.

(** C8, as the code has it. The lines are read one by one, and what a
    line does depends on what [json.loads] does with that line alone.
    A line on which it raises [JSONDecodeError] is dropped: both
    analyzers return for the file exactly what they return for the
    file without the line, result or exception, so no count changes.
    A line on which it raises any other exception ends the run in that
    exception. A line on which it returns a value that is not an
    object is kept as an entry, and then neither analyzer returns a
    result: among well-formed records the hook analyzer raises
    [AttributeError], and the session analyzer raises [TypeError] for
    [null], a boolean, a number and a string or list that holds
    [uuid], and [AttributeError] for another string or list. When the
    lines that are kept are well-formed records both analyzers return
    a result, and the entry count of a result is the number of lines
    kept; for four lines of which only the second raises
    [JSONDecodeError] it is 3. *)
Theorem only_undecodable_lines_are_dropped :
  forall loads : string -> result json,
    (forall a b,
        read_lines loads (a ++ b)
        = (xs <- read_lines loads a ;;
           ys <- read_lines loads b ;;
           Ok (xs ++ ys)%list))
    /\ (forall lines,
           (forall line e,
               In line lines -> loads line = Raise e -> caught e = true) ->
           read_lines loads lines = Ok (read_entries (decoded loads) lines)
           /\ SessionFile.parse_session loads lines
              = Session.parse_session (decoded loads) lines
           /\ HooksFile.parse_session loads lines
              = Hooks.parse_session (decoded loads) lines)
    /\ (forall pre bad post,
           loads bad = Raise JSONDecodeError ->
           read_lines loads (pre ++ bad :: post) = read_lines loads (pre ++ post)
           /\ SessionFile.parse_session loads (pre ++ bad :: post)
              = SessionFile.parse_session loads (pre ++ post)
           /\ HooksFile.parse_session loads (pre ++ bad :: post)
              = HooksFile.parse_session loads (pre ++ post))
    /\ (forall pre bad post e,
           loads bad = Raise e ->
           caught e = false ->
           (forall line e',
               In line pre -> loads line = Raise e' -> caught e' = true) ->
           read_lines loads (pre ++ bad :: post) = Raise e
           /\ SessionFile.parse_session loads (pre ++ bad :: post) = Raise e
           /\ HooksFile.parse_session loads (pre ++ bad :: post) = Raise e)
    /\ (forall pre line post v,
           loads line = Ok v ->
           is_dict v = false ->
           (forall entries,
               read_lines loads (pre ++ line :: post) = Ok entries ->
               In v entries)
           /\ (forall r,
                  SessionFile.parse_session loads (pre ++ line :: post) <> Ok r)
           /\ (forall a,
                  HooksFile.parse_session loads (pre ++ line :: post) <> Ok a))
    /\ (forall pre v post,
           well_formed pre = true ->
           is_dict v = false ->
           Hooks.parse_entries (pre ++ v :: post) = Raise AttributeError
           /\ (is_scalar v = true \/ mentions_uuid v = true ->
               Session.parse_entries (pre ++ v :: post) = Raise TypeError)
           /\ (is_scalar v = false ->
               mentions_uuid v = false ->
               well_formed post = true ->
               Session.parse_entries (pre ++ v :: post) = Raise AttributeError))
    /\ (forall lines entries,
           read_lines loads lines = Ok entries ->
           well_formed entries = true ->
           (exists r, SessionFile.parse_session loads lines = Ok r)
           /\ (exists a, HooksFile.parse_session loads lines = Ok a))
    /\ (forall lines r,
           SessionFile.parse_session loads lines = Ok r ->
           exists entries,
             read_lines loads lines = Ok entries
             /\ Session.entry_count r = Z.of_nat (List.length entries))
    /\ (forall lines a,
           HooksFile.parse_session loads lines = Ok a ->
           exists entries,
             read_lines loads lines = Ok entries
             /\ Hooks.entry_count a = Z.of_nat (List.length entries))
    /\ (forall l1 l2 l3 l4 e1 e3 e4,
           loads l1 = Ok e1 ->
           loads l2 = Raise JSONDecodeError ->
           loads l3 = Ok e3 ->
           loads l4 = Ok e4 ->
           read_lines loads [l1; l2; l3; l4] = Ok [e1; e3; e4]
           /\ (forall r,
                  SessionFile.parse_session loads [l1; l2; l3; l4] = Ok r ->
                  Session.entry_count r = 3)
           /\ (forall a,
                  HooksFile.parse_session loads [l1; l2; l3; l4] = Ok a ->
                  Hooks.entry_count a = 3)).
Proof.
  intros loads. repeat apply conj.
  - apply read_lines_app.
  - intros lines Hc.
    unfold SessionFile.parse_session, HooksFile.parse_session,
      Session.parse_session, Hooks.parse_session.
    rewrite (read_lines_decoded loads lines Hc). auto.
  - intros pre bad post Hbad.
    unfold SessionFile.parse_session, HooksFile.parse_session.
    rewrite (read_lines_drop loads pre post bad Hbad). auto.
  - intros pre bad post e Hbad He Hpre.
    unfold SessionFile.parse_session, HooksFile.parse_session.
    rewrite (read_lines_escape loads pre post bad e Hbad He Hpre). auto.
  - intros pre line post v Hl Hd. repeat apply conj.
    + intros entries Hr.
      destruct (read_lines_keeps loads pre post line v entries Hl Hr)
        as (xs & ys & ->).
      apply in_or_app. right. now left.
    + intros r Hp. unfold SessionFile.parse_session in Hp.
      apply bind_ok in Hp as (entries & Hr & Hp).
      destruct (read_lines_keeps loads pre post line v entries Hl Hr)
        as (xs & ys & ->).
      exact (session_parse_non_record xs ys v r Hd Hp).
    + intros a Hp. unfold HooksFile.parse_session in Hp.
      apply bind_ok in Hp as (entries & Hr & Hp).
      destruct (read_lines_keeps loads pre post line v entries Hl Hr)
        as (xs & ys & ->).
      exact (hooks_parse_non_record xs ys v a Hd Hp).
  - intros pre v post Hw Hd.
    split; [now apply hooks_parse_non_record_error|].
    now apply session_parse_non_record_error.
  - intros lines entries Hr Hw.
    unfold SessionFile.parse_session, HooksFile.parse_session.
    rewrite Hr. cbn [bind].
    destruct (well_formed_logs_parse _ Hw) as (Hs & Ha & _). now split.
  - intros lines r Hp. unfold SessionFile.parse_session in Hp.
    apply bind_ok in Hp as (entries & Hr & Hp).
    exists entries. split; [exact Hr|]. now apply session_entry_count.
  - intros lines a Hp. unfold HooksFile.parse_session in Hp.
    apply bind_ok in Hp as (entries & Hr & Hp).
    exists entries. split; [exact Hr|]. now apply hooks_entry_count.
  - intros l1 l2 l3 l4 e1 e3 e4 H1 H2 H3 H4.
    assert (Hr : read_lines loads [l1; l2; l3; l4] = Ok [e1; e3; e4])
      by (simpl; now rewrite H1, H2, H3, H4).
    unfold SessionFile.parse_session, HooksFile.parse_session. rewrite Hr.
    cbn [bind]. split; [reflexivity|]. split.
    + intros r Hp. now apply session_entry_count in Hp.
    + intros a Hp. now apply hooks_entry_count in Hp.
Qed.

Lemma only_undecodable_lines_are_dropped_witness :
  exists r a,
    SessionFile.parse_session sample_loads sample_file = Ok r
    /\ HooksFile.parse_session sample_loads sample_file = Ok a
    /\ Session.entry_count r = 3
    /\ Hooks.entry_count a = 3.
Proof.
  assert (Hp : exists r a,
             SessionFile.parse_session sample_loads sample_file = Ok r
             /\ HooksFile.parse_session sample_loads sample_file = Ok a).
  { do 2 eexists. split; vm_compute; reflexivity. }
  destruct Hp as (r & a & Hs & Hh).
  destruct (proj2 (proj2 (proj2 (proj2 (proj2 (proj2 (proj2 (proj2 (proj2
              (only_undecodable_lines_are_dropped sample_loads)))))))))
              "{}" "not json" "{}" "{}" (JDict []) (JDict []) (JDict [])
              eq_refl eq_refl eq_refl eq_refl) as (_ & Hcs & Hch).
  exists r, a. split; [exact Hs|]. split; [exact Hh|].
  split; [exact (Hcs r Hs)|exact (Hch a Hh)].
Defined.

(** C8 fails as stated for a line that is JSON but not a record, and
    for a line on which [json.loads] raises something else than
    [JSONDecodeError]. Of four lines whose second is the number 42,
    all four are kept, the number among them, and the session analyzer
    raises [TypeError] and the hook analyzer [AttributeError]; a line
    nested too deeply ends both in [RecursionError]. *)
Lemma non_record_line_is_kept :
  read_lines sample_loads number_file
  = Ok [JDict []; JInt 42; JDict []; JDict []]
  /\ SessionFile.parse_session sample_loads number_file = Raise TypeError
  /\ HooksFile.parse_session sample_loads number_file = Raise AttributeError
  /\ SessionFile.parse_session sample_loads ["{}"; deep_line; "{}"]
     = Raise RecursionError
  /\ HooksFile.parse_session sample_loads ["{}"; deep_line; "{}"]
     = Raise RecursionError.
Proof. repeat split; vm_compute; reflexivity. Qed.

(** ** C9: previews of user prompts *)

Lemma slice_to_length (n : nat) (s : string) :
  String.length (slice_to n s) = Nat.min n (String.length s).
Proof.
  unfold slice_to. revert s.
  induction n as [|n IH]; intros s; destruct s; simpl; auto.
Qed.

Lemma slice_to_prefix (n : nat) (s : string) :
  String.prefix (slice_to n s) s = true.
Proof.
  unfold slice_to. revert s.
  induction n as [|n IH]; intros s; destruct s; simpl; auto.
  destruct (ascii_dec a a); [apply IH|contradiction].
Qed.

(** What one record adds to the prompts of the hook analyzer: the
    preview of its text with its timestamp. *)
Lemma hooks_scan_entry_stamped (st st' : Hooks.scan_state) (e : json) :
  Hooks.scan_entry st e = Ok st' ->
  Hooks.scan_user_prompts st'
  = (Hooks.scan_user_prompts st
     ++ match user_text e with
        | Some text =>
            [{| Hooks.content := slice_to 200 text;
                Hooks.timestamp := record_timestamp e |}]
        | None => []
        end)%list.
Proof.
  unfold Hooks.scan_entry, user_text, record_timestamp. intros Hs.
  destruct e; try discriminate Hs. cbn [py_get bind] in Hs.
  destruct (str_eq (get fields "type" JNull) "user") eqn:Eu.
  - rewrite (str_eq_user_assistant _ Eu) in *.
    apply bind_ok in Hs as (st1 & H1 & Hs). inversion Hs; subst st'; clear Hs.
    unfold Hooks.track_user in H1. cbn [py_get bind] in H1.
    destruct (get fields "message" (JDict [])) as [| | | | |msg];
      try (inversion H1; subst; now rewrite app_nil_r).
    destruct (get msg "content" (JStr "")) as [| | |text| |];
      try (inversion H1; subst; now rewrite app_nil_r).
    destruct (negb (text =? "")%string); inversion H1; subst;
      rewrite ?app_nil_r; reflexivity.
  - cbn [bind] in Hs. rewrite app_nil_r.
    destruct (str_eq (get fields "type" JNull) "assistant");
      [|inversion Hs; now auto].
    unfold Hooks.track_assistant in Hs.
    apply bind_ok in Hs as (msg & _ & Hs).
    apply bind_ok in Hs as (rid & _ & Hs).
    apply bind_ok in Hs as (m & _ & Hs).
    apply bind_ok in Hs as (usage & _ & Hs).
    apply bind_ok in Hs as (seen & _ & Hs).
    apply bind_ok in Hs as (content & _ & Hs).
    inversion Hs; subst st'. reflexivity.
Qed.

Lemma hooks_scan_stamped (entries : list json) (st st' : Hooks.scan_state) :
  Hooks.scan st entries = Ok st' ->
  Hooks.scan_user_prompts st'
  = (Hooks.scan_user_prompts st
     ++ map (fun p => {| Hooks.content := slice_to 200 (fst p);
                         Hooks.timestamp := snd p |})
          (stamped_texts entries))%list.
Proof.
  unfold Hooks.scan. revert st.
  induction entries as [|e rest IH]; intros st Hs.
  - inversion Hs; subst. simpl. now rewrite app_nil_r.
  - apply for_each_ok_cons in Hs as (st1 & H1 & Hs).
    rewrite (IH _ Hs), (hooks_scan_entry_stamped _ _ _ H1), <- app_assoc.
    f_equal. simpl. now destruct (user_text e).
Qed.

(** C9, as the code has it. The previews are kept in arrival order,
    one for each user record whose message content is a non-empty
    plain string; the hook analyzer keeps the first 200 characters of
    the string with the timestamp of the record, [None] for a record
    without one, and the session analyzer keeps the first 100
    characters alone. *)
Theorem user_prompt_previews :
  (forall entries a,
      Hooks.parse_entries entries = Ok a ->
      Hooks.user_prompts a
      = map (fun p => {| Hooks.content := slice_to 200 (fst p);
                         Hooks.timestamp := snd p |})
          (stamped_texts entries)
      /\ map Hooks.content (Hooks.user_prompts a)
         = map (slice_to 200) (user_texts entries)
      /\ map Hooks.timestamp (Hooks.user_prompts a)
         = map snd (stamped_texts entries))
  /\ (forall entries r,
         Session.parse_entries entries = Ok r ->
         Session.user_prompts r = map (slice_to 100) (user_texts entries))
  /\ (forall n s,
         String.length (slice_to n s) = Nat.min n (String.length s)
         /\ String.prefix (slice_to n s) s = true).
Proof.
  repeat apply conj.
  - intros entries a Hp.
    apply hooks_parse_entries_inv in Hp as (st & cats & Hs & _ & ->).
    cbn [Hooks.user_prompts].
    pose proof (hooks_scan_stamped _ _ _ Hs) as Hst. simpl in Hst.
    split; [exact Hst|]. split.
    + now apply hooks_scan_frame in Hs.
    + rewrite Hst, map_map. reflexivity.
  - intros entries r Hp.
    apply session_parse_entries_scan in Hp as (seen & Hs).
    now apply session_scan_frame in Hs as [_ Hp].
  - intros n s. split; [apply slice_to_length|apply slice_to_prefix].
Qed.

Lemma user_prompt_previews_witness :
  exists a,
    Hooks.parse_entries
      [timed_user_record long_prompt "2025-06-01T10:00:00Z"; user_record "hello"]
    = Ok a
    /\ Hooks.user_prompts a
       = [{| Hooks.content := long_prompt;
             Hooks.timestamp := JStr "2025-06-01T10:00:00Z" |};
          {| Hooks.content := "hello"; Hooks.timestamp := JNull |}].
Proof.
  assert (Hp : exists a,
             Hooks.parse_entries
               [timed_user_record long_prompt "2025-06-01T10:00:00Z";
                user_record "hello"] = Ok a)
    by (eexists; vm_compute; reflexivity).
  destruct Hp as (a & Hp). exists a. split; [exact Hp|].
  rewrite (proj1 (proj1 user_prompt_previews _ a Hp)).
  vm_compute. reflexivity.
Defined.

(** C9 fails as stated for the session analyzer: of a user prompt of
    150 characters it keeps 100, not the 150 that the first 200
    characters of the string are. *)
Lemma session_preview_is_100_characters :
  exists r,
    Session.parse_entries [user_record long_prompt] = Ok r
    /\ Session.user_prompts r = [slice_to 100 long_prompt]
    /\ map String.length (Session.user_prompts r) = [100%nat]
    /\ String.length (slice_to 200 long_prompt) = 150%nat
    /\ Session.user_prompts r <> [slice_to 200 long_prompt].
Proof.
  eexists. split; [vm_compute; reflexivity|].
  repeat split. vm_compute. discriminate.
Qed.

(** * Further properties *)

(** ** The reader *)

(** X1. The reader keeps exactly the values of the lines that parse:
    there are never more entries than lines, as many only when every
    line parses, and a value is an entry just when some line parses to
    it. *)
Theorem entries_are_the_parsed_lines :
  forall (json_loads : string -> option json) (lines : list string),
    (List.length (read_entries json_loads lines) <= List.length lines)%nat
    /\ (List.length (read_entries json_loads lines) = List.length lines
        <-> forall line, In line lines -> json_loads line <> None)
    /\ (forall e,
           In e (read_entries json_loads lines)
           <-> exists line, In line lines /\ json_loads line = Some e).
Proof.
  intros json_loads lines.
  assert (Hle : forall l,
             (List.length (read_entries json_loads l) <= List.length l)%nat).
  { induction l as [|x l IH]; simpl; [lia|].
    destruct (json_loads x); simpl; lia. }
  split; [apply Hle|]. split.
  - induction lines as [|x l IH]; simpl.
    + split; [intros _ line []|reflexivity].
    + destruct (json_loads x) as [e|] eqn:Ex; simpl.
      * split.
        -- intros Hlen line [<-|Hin]; [congruence|].
           apply IH; [lia|exact Hin].
        -- intros Hall. f_equal. apply IH. intros line Hin.
           apply Hall. now right.
      * split.
        -- intros Hlen. pose proof (Hle l). lia.
        -- intros Hall. exfalso. apply (Hall x); auto.
  - intros e. induction lines as [|x l IH]; simpl.
    + split; [intros []|intros (line & [] & _)].
    + destruct (json_loads x) as [e0|] eqn:Ex; simpl.
      * split.
        -- intros [<-|Hin]; [exists x; auto|].
           apply IH in Hin as (line & Hin & Hl). exists line. auto.
        -- intros (line & [<-|Hin] & Hl); [left; congruence|].
           right. apply IH. now exists line.
      * split.
        -- intros Hin. apply IH in Hin as (line & Hin & Hl).
           exists line. auto.
        -- intros (line & [<-|Hin] & Hl); [congruence|].
           apply IH. now exists line.
Qed.

(** ** The count of API calls *)

Lemma existsb_key_In (k : key) (seen : list key) :
  existsb (key_eqb k) seen = true <-> In k seen.
Proof.
  rewrite existsb_exists. split.
  - intros (x & Hin & Heq). apply key_eqb_eq in Heq. now subst.
  - intros Hin. exists k. split; [exact Hin|apply key_eqb_refl].
Qed.

Lemma session_track_content_api (content : json) (r : Session.session) :
  Session.api_calls (Session.track_content content r) = Session.api_calls r.
Proof.
  unfold Session.track_content. destruct content; auto.
  revert r. induction items as [|item rest IH]; intros r; simpl; [auto|].
  rewrite IH. unfold Session.track_item. destruct item; auto.
  destruct (str_eq _ "thinking"); [reflexivity|].
  destruct (str_eq _ "tool_use"); reflexivity.
Qed.

(** What one record does to the set of seen ids and to the count. *)
Lemma session_scan_entry_api (seen seen' : list key) (r r' : Session.session)
    (e : json) :
  Session.scan_entry (seen, r) e = Ok (seen', r') ->
  match assistant_id e with
  | Some k =>
      if existsb (key_eqb k) seen
      then seen' = seen /\ Session.api_calls r' = Session.api_calls r
      else seen' = (seen ++ [k])%list
           /\ Session.api_calls r' = Session.api_calls r + 1
  | None => seen' = seen /\ Session.api_calls r' = Session.api_calls r
  end.
Proof.
  unfold Session.scan_entry, assistant_id. intros Hs.
  destruct e; try discriminate Hs. cbn [py_get bind] in Hs.
  destruct (str_eq (get fields "type" JNull) "user") eqn:Eu.
  - rewrite (str_eq_user_assistant _ Eu) in *.
    apply bind_ok in Hs as (st1 & H1 & Hs). inversion Hs; subst st1; clear Hs.
    apply bind_ok in H1 as (r1 & H1 & Hr). inversion Hr; subst; clear Hr.
    split; [reflexivity|].
    unfold Session.track_user in H1. cbn [py_get bind] in H1.
    destruct (get fields "message" (JDict [])) as [| | | | |msg];
      try (inversion H1; now subst).
    destruct (get msg "content" (JStr "")) as [| | |text| |];
      try (inversion H1; now subst).
    destruct (negb (text =? "")%string); inversion H1; now subst.
  - cbn [bind] in Hs.
    destruct (str_eq (get fields "type" JNull) "assistant");
      [|inversion Hs; now subst].
    unfold Session.track_assistant in Hs. cbn [py_get bind] in Hs.
    apply bind_ok in Hs as ([seen1 r1] & H1 & Hs).
    apply bind_ok in Hs as (usage & _ & Hs).
    apply bind_ok in Hs as (r2 & H2 & Hs).
    apply bind_ok in Hs as (content & _ & Hs).
    inversion Hs; subst seen' r'; clear Hs.
    rewrite session_track_content_api.
    assert (Hr2 : Session.api_calls r2 = Session.api_calls r1).
    { cbn [snd] in H2. destruct (truthy usage); [|now inversion H2].
      unfold Session.fold_usage in H2.
      apply bind_ok in H2 as (k & _ & H2).
      apply bind_ok in H2 as (acc & _ & H2). now inversion H2. }
    rewrite Hr2. clear H2 Hr2. cbn [fst].
    unfold Session.count_api_call in H1.
    destruct (truthy (get fields "requestId" (JStr "")));
      [|inversion H1; now subst].
    apply bind_ok in H1 as (k & Hk & H1). rewrite Hk.
    destruct (existsb (key_eqb k) seen); inversion H1; now subst.
Qed.

Lemma session_scan_api (entries : list json) (seen seen' : list key)
    (r r' : Session.session) :
  Session.scan (seen, r) entries = Ok (seen', r') ->
  NoDup seen ->
  NoDup seen'
  /\ (forall k, In k seen' <-> In k seen \/ In k (assistant_ids entries))
  /\ Session.api_calls r' - Z.of_nat (List.length seen')
     = Session.api_calls r - Z.of_nat (List.length seen).
Proof.
  unfold Session.scan. revert seen r.
  induction entries as [|e rest IH]; intros seen r Hs Hnd.
  - inversion Hs; subst. split; [exact Hnd|]. split; [|reflexivity].
    intros k. simpl. tauto.
  - apply for_each_ok_cons in Hs as ([seen1 r1] & H1 & Hs).
    apply session_scan_entry_api in H1. simpl.
    destruct (assistant_id e) as [k0|].
    + destruct (existsb (key_eqb k0) seen) eqn:Ex.
      * destruct H1 as [-> Ha]. apply existsb_key_In in Ex.
        destruct (IH _ _ Hs Hnd) as (Hnd' & Hin & Hc).
        split; [exact Hnd'|]. split; [|lia].
        intros k. rewrite Hin. simpl. split; [tauto|].
        intros [H|[<-|H]]; auto.
      * destruct H1 as [-> Ha].
        assert (Hni : ~ In k0 seen).
        { intros Hin. apply existsb_key_In in Hin. congruence. }
        assert (Hnd1 : NoDup (seen ++ [k0])).
        { apply NoDup_app; [exact Hnd|repeat constructor; intros []|].
          intros x Hx [<-|[]]. contradiction. }
        destruct (IH _ _ Hs Hnd1) as (Hnd' & Hin & Hc).
        split; [exact Hnd'|]. split.
        -- intros k. rewrite Hin, in_app_iff. simpl. tauto.
        -- rewrite Hc, Ha, length_app, Nat2Z.inj_add. simpl. lia.
    + destruct H1 as [-> Ha].
      destruct (IH _ _ Hs Hnd) as (Hnd' & Hin & Hc).
      split; [exact Hnd'|]. split; [exact Hin|lia].
Qed.

(** X2. The session analyzer's [api_calls] is the number of distinct
    non-empty request ids among the assistant records, whether they
    carry usage or not: the ids seen form a duplicate-free list of
    exactly those ids, and [api_calls] is its length. *)
Theorem api_calls_counts_distinct_ids :
  forall entries r,
    Session.parse_entries entries = Ok r ->
    exists seen,
      NoDup seen
      /\ (forall k, In k seen <-> In k (assistant_ids entries))
      /\ Session.api_calls r = Z.of_nat (List.length seen).
Proof.
  intros entries r Hp.
  apply session_parse_entries_scan in Hp as (seen & Hs).
  apply session_scan_api in Hs as (Hnd & Hin & Hc); [|constructor].
  exists seen. split; [exact Hnd|]. split.
  - intros k. rewrite Hin. simpl. tauto.
  - simpl in Hc. lia.
Qed.

Lemma api_calls_counts_distinct_ids_witness :
  exists (r : Session.session) (seen : list key),
    Session.parse_entries streamed_log = Ok r
    /\ NoDup seen
    /\ Session.api_calls r = Z.of_nat (List.length seen).
Proof.
  assert (Hp : exists r, Session.parse_entries streamed_log = Ok r)
    by (eexists; vm_compute; reflexivity).
  destruct Hp as (r & Hp).
  destruct (api_calls_counts_distinct_ids streamed_log r Hp)
    as (seen & Hnd & _ & Hc).
  exists r, seen. auto.
Defined.

(** ** Records that were seen before *)

Lemma dict_set_same_value {V : Type} (k : key) (v : V) (d : list (key * V)) :
  dict_get k d = Some v -> dict_set k v d = d.
Proof.
  induction d as [|[k' v'] rest IH]; simpl; [discriminate|].
  destruct (key_eqb k' k); intros Hg.
  - now inversion Hg.
  - now rewrite IH.
Qed.

(** The usage state after a record depends on the usage state before
    it only. *)
Lemma session_scan_entry_usage_det (s1 s2 s1' s2' : Session.scan_state) (e : json) :
  Session.scan_entry s1 e = Ok s1' ->
  Session.scan_entry s2 e = Ok s2' ->
  Session.totals (snd s1) = Session.totals (snd s2) ->
  Session.by_request (snd s1) = Session.by_request (snd s2) ->
  Session.totals (snd s1') = Session.totals (snd s2')
  /\ Session.by_request (snd s1') = Session.by_request (snd s2').
Proof.
  intros H1 H2 Ht Hb.
  apply session_scan_entry_usage in H1. apply session_scan_entry_usage in H2.
  destruct (assistant_usage e) as [[rid usage]|].
  - destruct H1 as (k1 & a1 & Hk1 & Ha1 & Ht1 & Hb1).
    destruct H2 as (k2 & a2 & Hk2 & Ha2 & Ht2 & Hb2).
    assert (k2 = k1) by congruence. subst k2.
    rewrite Ht, Hb in Ha1. assert (a2 = a1) by congruence. subst a2.
    rewrite Ht1, Ht2, Hb1, Hb2, Hb. auto.
  - destruct H1 as [Ht1 Hb1], H2 as [Ht2 Hb2].
    rewrite Ht1, Ht2, Hb1, Hb2. auto.
Qed.

Lemma session_scan_usage_det (entries : list json)
    (s1 s2 s1' s2' : Session.scan_state) :
  Session.scan s1 entries = Ok s1' ->
  Session.scan s2 entries = Ok s2' ->
  Session.totals (snd s1) = Session.totals (snd s2) ->
  Session.by_request (snd s1) = Session.by_request (snd s2) ->
  Session.totals (snd s1') = Session.totals (snd s2')
  /\ Session.by_request (snd s1') = Session.by_request (snd s2').
Proof.
  unfold Session.scan. revert s1 s2.
  induction entries as [|e rest IH]; intros s1 s2 H1 H2 Ht Hb.
  - inversion H1; inversion H2; subst. auto.
  - apply for_each_ok_cons in H1 as (m1 & E1 & H1).
    apply for_each_ok_cons in H2 as (m2 & E2 & H2).
    destruct (session_scan_entry_usage_det _ _ _ _ _ E1 E2 Ht Hb) as [Ht' Hb'].
    exact (IH _ _ H1 H2 Ht' Hb').
Qed.

(** A record is absorbed by [by_request] when its call has a row that
    is at least the record's snapshot in every counter. *)
Lemma session_absorbed_unchanged (st st' : Session.scan_state) (e : json) :
  Session.scan_entry st e = Ok st' ->
  (forall rid usage,
      assistant_usage e = Some (rid, usage) ->
      exists k row,
        hash_key rid = Ok k
        /\ dict_get k (Session.by_request (snd st)) = Some row
        /\ forall c v, usage_value usage c = Ok v -> v <= row_get row c) ->
  Session.totals (snd st') = Session.totals (snd st)
  /\ Session.by_request (snd st') = Session.by_request (snd st).
Proof.
  intros Hs Habs. apply session_scan_entry_usage in Hs.
  destruct (assistant_usage e) as [[rid usage]|]; [|exact Hs].
  destruct Hs as (k & acc & Hk & Hacc & Ht & Hb).
  destruct (Habs rid usage eq_refl) as (k' & row & Hk' & Hg & Hle).
  assert (k' = k) by congruence. subst k'.
  unfold Session.row_of in Hacc. rewrite Hg in Hacc.
  assert (Hrow : snd acc = row).
  { apply row_ext. intros c.
    destruct (session_fold_keys _ _ _ _ Hacc c) as (v & Hv & Hr & _).
    rewrite Hr. specialize (Hle c v Hv). lia. }
  assert (Htot : fst acc = Session.totals (snd st)).
  { apply row_ext. intros c.
    destruct (session_fold_keys _ _ _ _ Hacc c) as (v & Hv & _ & Htot).
    rewrite Htot. specialize (Hle c v Hv). lia. }
  rewrite Ht, Hb, Hrow, Htot. split; [reflexivity|].
  now apply dict_set_same_value.
Qed.

Lemma session_absorbed_after (st st' : Session.scan_state) (e e0 : json) :
  Session.scan_entry st e = Ok st' ->
  (e0 = e
   \/ forall rid usage,
       assistant_usage e0 = Some (rid, usage) ->
       exists k row,
         hash_key rid = Ok k
         /\ dict_get k (Session.by_request (snd st)) = Some row
         /\ forall c v, usage_value usage c = Ok v -> v <= row_get row c) ->
  forall rid usage,
    assistant_usage e0 = Some (rid, usage) ->
    exists k row,
      hash_key rid = Ok k
      /\ dict_get k (Session.by_request (snd st')) = Some row
      /\ forall c v, usage_value usage c = Ok v -> v <= row_get row c.
Proof.
  intros Hs Hcase rid0 usage0 Hu0.
  apply session_scan_entry_usage in Hs.
  destruct Hcase as [->|Habs].
  - rewrite Hu0 in Hs. destruct Hs as (k & acc & Hk & Hacc & _ & Hb).
    exists k, (snd acc). split; [exact Hk|]. split.
    + rewrite Hb. apply dict_get_set_same.
    + intros c v Hv.
      destruct (session_fold_keys _ _ _ _ Hacc c) as (v' & Hv' & Hr & _).
      assert (v' = v) by congruence. subst v'. rewrite Hr. lia.
  - destruct (Habs rid0 usage0 Hu0) as (k0 & row0 & Hk0 & Hg0 & Hle0).
    destruct (assistant_usage e) as [[rid usage]|].
    + destruct Hs as (k & acc & Hk & Hacc & _ & Hb). rewrite Hb.
      destruct (key_eqb k k0) eqn:E.
      * apply key_eqb_eq in E. subst k0.
        exists k, (snd acc). split; [exact Hk0|]. split.
        -- apply dict_get_set_same.
        -- intros c v Hv.
           destruct (session_fold_keys _ _ _ _ Hacc c) as (v' & _ & Hr & _).
           unfold Session.row_of in Hr. rewrite Hg0 in Hr. rewrite Hr.
           specialize (Hle0 c v Hv). lia.
      * apply key_eqb_neq in E. exists k0, row0.
        split; [exact Hk0|]. split; [|exact Hle0].
        now rewrite dict_get_set_other.
    + destruct Hs as [_ Hb]. rewrite Hb. now exists k0, row0.
Qed.

Lemma session_scan_absorbs (pre : list json) (st st' : Session.scan_state) (e0 : json) :
  Session.scan st pre = Ok st' ->
  (In e0 pre
   \/ forall rid usage,
       assistant_usage e0 = Some (rid, usage) ->
       exists k row,
         hash_key rid = Ok k
         /\ dict_get k (Session.by_request (snd st)) = Some row
         /\ forall c v, usage_value usage c = Ok v -> v <= row_get row c) ->
  forall rid usage,
    assistant_usage e0 = Some (rid, usage) ->
    exists k row,
      hash_key rid = Ok k
      /\ dict_get k (Session.by_request (snd st')) = Some row
      /\ forall c v, usage_value usage c = Ok v -> v <= row_get row c.
Proof.
  unfold Session.scan. revert st.
  induction pre as [|e rest IH]; intros st Hs Hcase.
  - inversion Hs; subst. destruct Hcase as [[]|Habs]. exact Habs.
  - apply for_each_ok_cons in Hs as (st1 & H1 & Hs).
    destruct Hcase as [[->|Hin]|Habs].
    + apply (IH _ Hs). right.
      apply (session_absorbed_after _ _ _ _ H1). now left.
    + apply (IH _ Hs). now left.
    + apply (IH _ Hs). right.
      apply (session_absorbed_after _ _ _ _ H1). now right.
Qed.

(** X3. A record that occurs again later in the log changes nothing in
    the session analyzer's token state: with or without the later
    copy, [totals] and [by_request] of the result are the same. *)
Theorem repeated_record_changes_no_usage :
  forall l1 l2 l3 e r r',
    Session.parse_entries (l1 ++ e :: l2 ++ e :: l3) = Ok r ->
    Session.parse_entries (l1 ++ e :: l2 ++ l3) = Ok r' ->
    Session.totals r = Session.totals r'
    /\ Session.by_request r = Session.by_request r'.
Proof.
  intros l1 l2 l3 e r r' Hp Hp'.
  apply session_parse_entries_scan in Hp as (seen & Hs).
  apply session_parse_entries_scan in Hp' as (seen' & Hs').
  unfold Session.scan in Hs, Hs'.
  replace (l1 ++ e :: l2 ++ e :: l3)%list
    with ((l1 ++ e :: l2) ++ e :: l3)%list in Hs
    by (rewrite <- app_assoc; reflexivity).
  replace (l1 ++ e :: l2 ++ l3)%list
    with ((l1 ++ e :: l2) ++ l3)%list in Hs'
    by (rewrite <- app_assoc; reflexivity).
  assert (Happ : forall (l l' : list json) (s s' : Session.scan_state),
             for_each Session.scan_entry s (l ++ l') = Ok s' ->
             exists m, for_each Session.scan_entry s l = Ok m
                       /\ for_each Session.scan_entry m l' = Ok s').
  { induction l as [|x l IH]; intros l' s s' H; simpl in *.
    - now exists s.
    - apply bind_ok in H as (s1 & H1 & H).
      destruct (IH _ _ _ H) as (m & Hm & Hm'). exists m.
      rewrite H1. auto. }
  apply Happ in Hs as (m & Hm & Hs). apply Happ in Hs' as (m' & Hm' & Hs').
  apply for_each_ok_cons in Hs as (m1 & He & Hs).
  destruct (session_scan_usage_det _ _ _ _ _ Hm Hm' eq_refl eq_refl) as [Ht Hb].
  assert (Hin : In e (l1 ++ e :: l2)) by (apply in_or_app; right; now left).
  pose proof (session_scan_absorbs _ _ _ e Hm (or_introl Hin)) as Habs.
  destruct (session_absorbed_unchanged _ _ _ He Habs) as [Ht1 Hb1].
  apply (session_scan_usage_det _ _ _ _ _ Hs Hs'); congruence.
Qed.

Lemma repeated_record_changes_no_usage_witness :
  exists r r',
    Session.parse_entries streamed_log = Ok r
    /\ Session.parse_entries (firstn 1 streamed_log ++ skipn 2 streamed_log) = Ok r'
    /\ Session.totals r = Session.totals r'.
Proof.
  assert (Hp : exists r, Session.parse_entries streamed_log = Ok r)
    by (eexists; vm_compute; reflexivity).
  assert (Hp' : exists r',
             Session.parse_entries (firstn 1 streamed_log ++ skipn 2 streamed_log)
             = Ok r')
    by (eexists; vm_compute; reflexivity).
  destruct Hp as (r & Hp), Hp' as (r' & Hp').
  exists r, r'. split; [exact Hp|]. split; [exact Hp'|].
  exact (proj1 (repeated_record_changes_no_usage
                  [] [] (skipn 2 streamed_log) (hd JNull streamed_log)
                  r r' Hp Hp')).
Defined.

(** ** The order of the records *)

Lemma map_fst_dict_set {V : Type} (k : key) (v : V) (d : list (key * V)) :
  map fst (dict_set k v d)
  = match dict_get k d with
    | Some _ => map fst d
    | None => (map fst d ++ [k])%list
    end.
Proof.
  induction d as [|[k' v'] rest IH]; simpl; [reflexivity|].
  destruct (key_eqb k' k) eqn:E; simpl; [reflexivity|].
  rewrite IH. now destruct (dict_get k rest).
Qed.

Lemma dict_get_None_iff {V : Type} (k : key) (d : list (key * V)) :
  dict_get k d = None <-> ~ In k (map fst d).
Proof.
  induction d as [|[k' v'] rest IH]; simpl; [tauto|].
  destruct (key_eqb k' k) eqn:E.
  - apply key_eqb_eq in E. split; [discriminate|]. intros H. exfalso. auto.
  - apply key_eqb_neq in E. rewrite IH. tauto.
Qed.

Lemma dict_get_Some_key {V : Type} (k : key) (v : V) (d : list (key * V)) :
  dict_get k d = Some v -> In k (map fst d).
Proof.
  induction d as [|[k' v'] rest IH]; simpl; [discriminate|].
  destruct (key_eqb k' k) eqn:E; [|auto].
  apply key_eqb_eq in E. auto.
Qed.

Lemma dict_set_keys_nodup {V : Type} (k : key) (v : V) (d : list (key * V)) :
  NoDup (map fst d) -> NoDup (map fst (dict_set k v d)).
Proof.
  intros Hnd. rewrite map_fst_dict_set.
  destruct (dict_get k d) eqn:Eg; [exact Hnd|].
  apply dict_get_None_iff in Eg.
  apply NoDup_app; [exact Hnd|repeat constructor; intros []|].
  intros x Hx [<-|[]]. contradiction.
Qed.

Lemma dict_get_In {V : Type} (k : key) (v : V) (d : list (key * V)) :
  NoDup (map fst d) -> (dict_get k d = Some v <-> In (k, v) d).
Proof.
  induction d as [|[k' v'] rest IH]; simpl; intros Hnd.
  - split; [discriminate|intros []].
  - inversion Hnd as [|? ? Hni Hnd']; subst.
    destruct (key_eqb k' k) eqn:E.
    + apply key_eqb_eq in E. subst k'. split.
      * intros Hg. left. congruence.
      * intros [Heq|Hin]; [congruence|].
        exfalso. apply Hni. change k with (fst (k, v)). now apply in_map.
    + apply key_eqb_neq in E. rewrite (IH Hnd'). split; [auto|].
      intros [Heq|Hin]; [congruence|exact Hin].
Qed.

Lemma dict_sum_perm {V : Type} (f : V -> Z) (d d' : list (key * V)) :
  Permutation d d' -> dict_sum f d = dict_sum f d'.
Proof. induction 1; simpl; lia. Qed.

Lemma fold_max_perm (l l' : list Z) :
  Permutation l l' -> forall a, fold_left Z.max l a = fold_left Z.max l' a.
Proof.
  induction 1 as [|x l l' Hp IH|x y l|l l' l'' H1 IH1 H2 IH2]; intros a; simpl.
  - reflexivity.
  - apply IH.
  - f_equal. lia.
  - now rewrite IH1.
Qed.

Lemma snapshots_perm (k : key) (c : counter) (l l' : list json) :
  Permutation l l' -> Permutation (snapshots k c l) (snapshots k c l').
Proof.
  induction 1 as [|x l l' Hp IH|x y l|l l' l'' H1 IH1 H2 IH2]; simpl.
  - constructor.
  - destruct (snapshot_value k c x); [now constructor|exact IH].
  - destruct (snapshot_value k c x), (snapshot_value k c y);
      try apply Permutation_refl. apply perm_swap.
  - now apply Permutation_trans with (snapshots k c l').
Qed.

(** [by_request] lists each id once and has a row for exactly the ids
    that have a snapshot. *)
Lemma session_scan_keys (entries : list json) (st st' : Session.scan_state) :
  Session.scan st entries = Ok st' ->
  NoDup (map fst (Session.by_request (snd st))) ->
  NoDup (map fst (Session.by_request (snd st')))
  /\ forall k,
      In k (map fst (Session.by_request (snd st')))
      <-> In k (map fst (Session.by_request (snd st)))
          \/ snapshots k InputTokens entries <> [].
Proof.
  unfold Session.scan. revert st.
  induction entries as [|e rest IH]; intros st Hs Hnd.
  - inversion Hs; subst. split; [exact Hnd|]. intros k. simpl. tauto.
  - apply for_each_ok_cons in Hs as (st1 & H1 & Hs).
    apply session_scan_entry_usage in H1.
    assert (Hstep :
             NoDup (map fst (Session.by_request (snd st1)))
             /\ forall k,
                 In k (map fst (Session.by_request (snd st1)))
                 <-> In k (map fst (Session.by_request (snd st)))
                     \/ snapshot_value k InputTokens e <> None).
    { unfold snapshot_value.
      destruct (assistant_usage e) as [[rid usage]|].
      - destruct H1 as (k0 & acc & Hk & Hacc & _ & Hb). rewrite Hb, Hk.
        split; [now apply dict_set_keys_nodup|]. intros k.
        destruct (session_fold_keys _ _ _ _ Hacc InputTokens) as (v & -> & _).
        rewrite map_fst_dict_set.
        destruct (key_eqb k0 k) eqn:E.
        + apply key_eqb_eq in E. subst k0.
          destruct (dict_get k (Session.by_request (snd st))) eqn:Eg.
          * split; [auto|]. intros _.
            exact (dict_get_Some_key _ _ _ Eg).
          * rewrite in_app_iff. simpl. split; [|tauto].
            intros _. right. discriminate.
        + apply key_eqb_neq in E.
          destruct (dict_get k0 (Session.by_request (snd st))).
          * split; [auto|]. intros [H|H]; [exact H|congruence].
          * rewrite in_app_iff. simpl. split.
            -- intros [H|[H|[]]]; [auto|contradiction].
            -- intros [H|H]; [auto|congruence].
      - destruct H1 as [_ Hb]. rewrite Hb. split; [exact Hnd|].
        intros k. split; [auto|]. intros [H|H]; [exact H|congruence]. }
    destruct Hstep as [Hnd1 Hin1].
    destruct (IH _ Hs Hnd1) as [Hnd' Hin']. split; [exact Hnd'|].
    intros k. rewrite Hin', Hin1. simpl.
    destruct (snapshot_value k InputTokens e).
    + split; [intros _; right; discriminate|]. intros _. left. right. discriminate.
    + split.
      * intros [[H|H]|H]; [auto|congruence|auto].
      * intros [H|H]; auto.
Qed.

(** X4. The order of the records does not matter to the token
    state: two logs with the same records in different orders give the
    session analyzer the same [totals], the same rows in [by_request]
    (listed in a different order) and so the same reconciled value of
    every counter of every call; the hook analyzer stores the same
    reconciled values too. *)
Theorem record_order_does_not_change_usage :
  forall entries entries',
    Permutation entries entries' ->
    (forall r r',
        Session.parse_entries entries = Ok r ->
        Session.parse_entries entries' = Ok r' ->
        Session.totals r = Session.totals r'
        /\ Permutation (Session.by_request r) (Session.by_request r')
        /\ forall k c,
            session_stored (Session.by_request r) k c
            = session_stored (Session.by_request r') k c)
    /\ (forall st st',
           Hooks.scan Hooks.empty_scan entries = Ok st ->
           Hooks.scan Hooks.empty_scan entries' = Ok st' ->
           forall k c,
             hooks_stored (Hooks.seen_request_ids st) k c
             = hooks_stored (Hooks.seen_request_ids st') k c).
Proof.
  intros entries entries' Hperm. split.
  - intros r r' Hp Hp'.
    apply session_parse_entries_scan in Hp as (seen & Hs).
    apply session_parse_entries_scan in Hp' as (seen' & Hs').
    assert (Hst : forall k c,
               session_stored (Session.by_request r) k c
               = session_stored (Session.by_request r') k c).
    { intros k c.
      pose proof (session_scan_stored _ _ _ k c Hs) as H1.
      pose proof (session_scan_stored _ _ _ k c Hs') as H2.
      cbn [snd] in H1, H2. rewrite H1, H2.
      change (Session.by_request (Session.empty_result _))
        with (@nil (key * usage_row)).
      apply fold_max_perm. now apply snapshots_perm. }
    destruct (session_scan_keys _ _ _ Hs) as [Hnd Hin]; [constructor|].
    destruct (session_scan_keys _ _ _ Hs') as [Hnd' Hin']; [constructor|].
    cbn [snd] in Hnd, Hin, Hnd', Hin'.
    assert (Hkeys : forall k,
               In k (map fst (Session.by_request r))
               <-> In k (map fst (Session.by_request r'))).
    { intros k. rewrite Hin, Hin'. simpl.
      pose proof (snapshots_perm k InputTokens _ _ Hperm) as Hsp.
      split; intros [[]|Hne]; right; intros Hnil; apply Hne.
      - rewrite Hnil in Hsp. apply Permutation_sym in Hsp.
        now apply Permutation_nil in Hsp.
      - rewrite Hnil in Hsp. now apply Permutation_nil in Hsp. }
    assert (Hget : forall k,
               dict_get k (Session.by_request r)
               = dict_get k (Session.by_request r')).
    { intros k.
      destruct (dict_get k (Session.by_request r)) as [row|] eqn:E1;
        destruct (dict_get k (Session.by_request r')) as [row'|] eqn:E2.
      - f_equal. apply row_ext. intros c. specialize (Hst k c).
        unfold session_stored, Session.row_of in Hst.
        now rewrite E1, E2 in Hst.
      - apply dict_get_Some_key in E1. apply dict_get_None_iff in E2.
        apply Hkeys in E1. contradiction.
      - apply dict_get_Some_key in E2. apply dict_get_None_iff in E1.
        apply Hkeys in E2. contradiction.
      - reflexivity. }
    assert (Hpb : Permutation (Session.by_request r) (Session.by_request r')).
    { apply NoDup_Permutation.
      - now apply NoDup_map_inv with (f := fst).
      - now apply NoDup_map_inv with (f := fst).
      - intros [k row].
        rewrite <- (dict_get_In k row _ Hnd), <- (dict_get_In k row _ Hnd').
        now rewrite Hget. }
    split; [|split; [exact Hpb|exact Hst]].
    apply row_ext. intros c.
    pose proof (session_scan_total _ _ _ c Hs) as T1.
    pose proof (session_scan_total _ _ _ c Hs') as T2.
    cbn [snd] in T1, T2.
    change (Session.totals (Session.empty_result _)) with zero_row in T1, T2.
    change (Session.by_request (Session.empty_result _))
      with (@nil (key * usage_row)) in T1, T2.
    simpl in T1, T2.
    rewrite (dict_sum_perm (fun row => row_get row c) _ _ Hpb) in T1. lia.
  - intros st st' Hs Hs' k c. unfold hooks_stored at 1 2.
    destruct (key_truthy k) eqn:Ek.
    + fold (hooks_stored (Hooks.seen_request_ids st) k c).
      fold (hooks_stored (Hooks.seen_request_ids st') k c).
      rewrite (hooks_scan_stored _ _ _ k c Ek Hs),
        (hooks_scan_stored _ _ _ k c Ek Hs').
      apply fold_max_perm. now apply snapshots_perm.
    + fold (hooks_stored (Hooks.seen_request_ids st) k c).
      fold (hooks_stored (Hooks.seen_request_ids st') k c).
      assert (Hz : forall l s s',
                 Hooks.scan s l = Ok s' ->
                 hooks_stored (Hooks.seen_request_ids s') k c
                 = hooks_stored (Hooks.seen_request_ids s) k c).
      { unfold Hooks.scan. induction l as [|e l IH]; intros s s' H.
        - now inversion H.
        - apply for_each_ok_cons in H as (s1 & H1 & H).
          rewrite (IH _ _ H), (hooks_scan_entry_counter _ _ _ k c H1), Ek.
          reflexivity. }
      now rewrite (Hz _ _ _ Hs), (Hz _ _ _ Hs').
Qed.

Lemma record_order_does_not_change_usage_witness :
  exists r r',
    Session.parse_entries mixed_log = Ok r
    /\ Session.parse_entries (rev mixed_log) = Ok r'
    /\ Session.totals r = Session.totals r'.
Proof.
  assert (Hp : exists r, Session.parse_entries mixed_log = Ok r)
    by (eexists; vm_compute; reflexivity).
  assert (Hp' : exists r', Session.parse_entries (rev mixed_log) = Ok r')
    by (eexists; vm_compute; reflexivity).
  destruct Hp as (r & Hp), Hp' as (r' & Hp').
  exists r, r'. split; [exact Hp|]. split; [exact Hp'|].
  exact (proj1 (proj1 (record_order_does_not_change_usage
                         mixed_log (rev mixed_log) (Permutation_rev mixed_log))
                  r r' Hp Hp')).
Defined.

(** ** The calls the hook analyzer stores *)

Lemma map_fst_dict_map {V W : Type} (f : V -> W) (d : list (key * V)) :
  map fst (dict_map f d) = map fst d.
Proof.
  unfold dict_map. rewrite map_map. reflexivity.
Qed.

Lemma keep_keys {V : Type} (p : key -> bool) (d : list (key * V)) :
  Forall (fun k => p k = true) (map fst (keep p d)).
Proof.
  unfold keep. induction d as [|[k v] rest IH]; simpl; [constructor|].
  destruct (p k) eqn:E; simpl; [constructor; assumption|exact IH].
Qed.

(** X5. The calls the hook analyzer stores are exactly the rows of the
    session analyzer's [by_request] with a non-empty id, in the same
    order and with the same four counters; no call is ever stored
    under an empty id. *)
Theorem hook_calls_are_the_identified_rows :
  forall entries r st,
    Session.parse_entries entries = Ok r ->
    Hooks.scan Hooks.empty_scan entries = Ok st ->
    dict_map Hooks.tokens (Hooks.seen_request_ids st)
    = keep key_truthy (Session.by_request r)
    /\ Forall (fun k => key_truthy k = true)
         (map fst (Hooks.seen_request_ids st)).
Proof.
  intros entries r st Hp Hs.
  apply session_parse_entries_scan in Hp as (seen & Hss).
  pose proof (scans_agree _ _ _ _ _ Hss Hs eq_refl) as HR. cbn [snd] in HR.
  split; [exact HR|].
  rewrite <- (map_fst_dict_map Hooks.tokens), HR. apply keep_keys.
Qed.

Lemma hook_calls_are_the_identified_rows_witness :
  exists r st,
    Session.parse_entries mixed_log = Ok r
    /\ Hooks.scan Hooks.empty_scan mixed_log = Ok st
    /\ dict_map Hooks.tokens (Hooks.seen_request_ids st)
       = keep key_truthy (Session.by_request r).
Proof.
  assert (Hp : exists r, Session.parse_entries mixed_log = Ok r)
    by (eexists; vm_compute; reflexivity).
  assert (Hs : exists st, Hooks.scan Hooks.empty_scan mixed_log = Ok st)
    by (eexists; vm_compute; reflexivity).
  destruct Hp as (r & Hp), Hs as (st & Hs).
  exists r, st. split; [exact Hp|]. split; [exact Hs|].
  exact (proj1 (hook_calls_are_the_identified_rows mixed_log r st Hp Hs)).
Defined.

(** What one record does to the model stored for call [k]. *)
Lemma hooks_scan_entry_model (st st' : Hooks.scan_state) (e : json) (k : key) :
  Hooks.scan_entry st e = Ok st' ->
  option_map Hooks.model (dict_get k (Hooks.seen_request_ids st'))
  = match option_map Hooks.model (dict_get k (Hooks.seen_request_ids st)) with
    | Some m => Some m
    | None => snapshot_model k e
    end.
Proof.
  unfold Hooks.scan_entry, snapshot_model. intros Hs.
  assert (Hid : forall o : option json,
             o = match o with Some m => Some m | None => None end)
    by (now intros []).
  destruct e; try discriminate Hs. cbn [py_get bind] in Hs.
  destruct (str_eq (get fields "type" JNull) "user") eqn:Eu.
  - rewrite (str_eq_user_assistant _ Eu) in *.
    apply bind_ok in Hs as (st1 & H1 & Hs). inversion Hs; subst st'.
    apply hooks_track_user_seen in H1. rewrite H1. apply Hid.
  - cbn [bind] in Hs.
    destruct (str_eq (get fields "type" JNull) "assistant");
      [|inversion Hs; subst; apply Hid].
    unfold Hooks.track_assistant in Hs. cbn [py_get bind] in Hs.
    destruct (get fields "message" (JDict [])) as [| | | | |msg];
      try discriminate Hs.
    cbn [py_get bind] in Hs.
    destruct (truthy (get msg "usage" (JDict []))
              && truthy (get fields "requestId" (JStr ""))).
    + apply bind_ok in Hs as (seen & Hf & Hs). inversion Hs; subst st'.
      cbn [Hooks.seen_request_ids].
      apply hooks_fold_usage in Hf as (k0 & row & Hk & _ & ->). rewrite Hk.
      destruct (key_eqb k0 k) eqn:E.
      * apply key_eqb_eq in E. subst k0. rewrite dict_get_set_same.
        unfold Hooks.call_of.
        now destruct (dict_get k (Hooks.seen_request_ids st)).
      * apply key_eqb_neq in E. rewrite dict_get_set_other by exact E.
        apply Hid.
    + cbn [bind] in Hs. inversion Hs; subst st'. apply Hid.
Qed.

(** X6. The model the hook analyzer keeps for a call, and classifies
    it by, is the model of the first snapshot of that call in the log;
    the models of later snapshots are never looked at. *)
Theorem stored_model_is_first_model :
  forall entries st k,
    Hooks.scan Hooks.empty_scan entries = Ok st ->
    option_map Hooks.model (dict_get k (Hooks.seen_request_ids st))
    = first_model k entries.
Proof.
  intros entries st k Hs.
  assert (Hgen : forall l s s',
             Hooks.scan s l = Ok s' ->
             option_map Hooks.model (dict_get k (Hooks.seen_request_ids s'))
             = match option_map Hooks.model
                       (dict_get k (Hooks.seen_request_ids s)) with
               | Some m => Some m
               | None => first_model k l
               end).
  { unfold Hooks.scan. induction l as [|e l IH]; intros s s' H.
    - inversion H; subst. simpl.
      now destruct (option_map Hooks.model _).
    - apply for_each_ok_cons in H as (s1 & H1 & H).
      rewrite (IH _ _ H), (hooks_scan_entry_model _ _ _ k H1). simpl.
      destruct (option_map Hooks.model
                  (dict_get k (Hooks.seen_request_ids s))); [reflexivity|].
      now destruct (snapshot_model k e). }
  now rewrite (Hgen _ _ _ Hs).
Qed.

Lemma stored_model_is_first_model_witness :
  exists st,
    Hooks.scan Hooks.empty_scan switching_log = Ok st
    /\ option_map Hooks.model
         (dict_get (KStr "req_1") (Hooks.seen_request_ids st))
       = Some (JStr "claude-3-opus-20240229").
Proof.
  assert (Hs : exists st, Hooks.scan Hooks.empty_scan switching_log = Ok st)
    by (eexists; vm_compute; reflexivity).
  destruct Hs as (st & Hs). exists st. split; [exact Hs|].
  rewrite (stored_model_is_first_model switching_log st (KStr "req_1") Hs).
  vm_compute. reflexivity.
Defined.

(** ** Every stored call is tallied once *)

Lemma filter_partition_length {A : Type} (p : A -> bool) (l : list A) :
  (List.length (filter p l) + List.length (filter (fun x => negb (p x)) l)
   = List.length l)%nat.
Proof.
  induction l as [|x l IH]; simpl; [reflexivity|].
  destruct (p x); simpl; lia.
Qed.

Lemma concat_dict_set_append {A : Type} (k : key) (x : A) (d : list (key * list A)) :
  Permutation
    (List.concat (map snd
       (dict_set k
          ((match dict_get k d with Some l => l | None => [] end) ++ [x])%list
          d)))
    (List.concat (map snd d) ++ [x]).
Proof.
  induction d as [|[k' v'] rest IH]; simpl.
  - apply Permutation_refl.
  - destruct (key_eqb k' k); simpl.
    + rewrite <- !app_assoc. apply Permutation_app_head.
      apply Permutation_app_comm.
    + rewrite <- app_assoc. apply Permutation_app_head. exact IH.
Qed.

(** The categorisation loop from any accumulator: the per-model tally
    grows with the count of main-agent calls, and every call is
    appended to the list of one model. *)
Lemma categorize_from_models (seen : list (key * Hooks.call))
    (acc cats : Hooks.categories) :
  for_each Hooks.categorize_call acc seen = Ok cats ->
  dict_sum (fun n => n) (Hooks.models (Hooks.cat_main_agent cats))
  - Hooks.api_calls (Hooks.cat_main_agent cats)
  = dict_sum (fun n => n) (Hooks.models (Hooks.cat_main_agent acc))
    - Hooks.api_calls (Hooks.cat_main_agent acc)
  /\ Permutation (List.concat (map snd (Hooks.cat_by_model cats)))
       (List.concat (map snd (Hooks.cat_by_model acc)) ++ map snd seen).
Proof.
  revert acc. induction seen as [|[k data] rest IH]; intros acc Hc.
  - inversion Hc; subst. simpl. rewrite app_nil_r. split; [reflexivity|].
    apply Permutation_refl.
  - apply for_each_ok_cons in Hc as (acc1 & H1 & Hc).
    destruct (IH _ Hc) as (Hm & Hp). clear IH Hc.
    unfold Hooks.categorize_call in H1. cbn [snd] in H1.
    apply bind_ok in H1 as (hook & _ & H1).
    apply bind_ok in H1 as (km & _ & H1).
    assert (Hby : Permutation (List.concat (map snd (Hooks.cat_by_model acc1)))
                    (List.concat (map snd (Hooks.cat_by_model acc)) ++ [data])).
    { destruct hook; inversion H1; subst acc1; cbn [Hooks.cat_by_model];
        apply concat_dict_set_append. }
    split.
    + rewrite Hm. destruct hook; inversion H1; subst acc1; simpl; [reflexivity|].
      rewrite dict_sum_set.
      destruct (dict_get km (Hooks.models (Hooks.cat_main_agent acc))); lia.
    + apply Permutation_trans with (1 := Hp). simpl.
      replace (List.concat (map snd (Hooks.cat_by_model acc)) ++ data :: map snd rest)%list
        with ((List.concat (map snd (Hooks.cat_by_model acc)) ++ [data])
              ++ map snd rest)%list
        by (rewrite <- app_assoc; reflexivity).
      now apply Permutation_app_tail.
Qed.

(** X7. The categorisation loop tallies every stored call exactly
    once: the main-agent calls and the prompt-hook calls together are
    as many as the stored calls, the per-model tallies of the main
    agent add up to its count of calls, and the lists of
    [api_calls_by_model] together hold each stored call once. *)
Theorem every_call_is_tallied_once :
  forall entries a,
    Hooks.parse_entries entries = Ok a ->
    exists st,
      Hooks.scan Hooks.empty_scan entries = Ok st
      /\ Hooks.api_calls (Hooks.main_agent a) + Hooks.count (Hooks.hooks_prompt a)
         = Z.of_nat (List.length (Hooks.seen_request_ids st))
      /\ dict_sum (fun n => n) (Hooks.models (Hooks.main_agent a))
         = Hooks.api_calls (Hooks.main_agent a)
      /\ Permutation (List.concat (map snd (Hooks.api_calls_by_model a)))
           (map snd (Hooks.seen_request_ids st)).
Proof.
  intros entries a Hp.
  apply hooks_parse_entries_inv in Hp as (st & cats & Hs & Hc & ->).
  exists st. split; [exact Hs|]. cbn [Hooks.main_agent Hooks.hooks_prompt
                                        Hooks.api_calls_by_model].
  unfold Hooks.categorize in Hc.
  destruct (categorize_from _ _ _ Hc) as (_ & Ha & Hn & _).
  destruct (categorize_from_models _ _ _ Hc) as (Hm & Hby).
  simpl in Ha, Hn, Hm, Hby. split; [|split; [lia|exact Hby]].
  rewrite Ha, Hn, <- Nat2Z.inj_add. f_equal.
  unfold primary_calls, lightweight_calls.
  pose proof (filter_partition_length
                (fun kv : key * Hooks.call => is_lightweight (snd kv))
                (Hooks.seen_request_ids st)).
  lia.
Qed.

Lemma every_call_is_tallied_once_witness :
  exists a st,
    Hooks.parse_entries mixed_log = Ok a
    /\ Hooks.scan Hooks.empty_scan mixed_log = Ok st
    /\ Hooks.api_calls (Hooks.main_agent a) + Hooks.count (Hooks.hooks_prompt a)
       = Z.of_nat (List.length (Hooks.seen_request_ids st)).
Proof.
  assert (Hp : exists a, Hooks.parse_entries mixed_log = Ok a)
    by (eexists; vm_compute; reflexivity).
  destruct Hp as (a & Hp).
  destruct (every_call_is_tallied_once mixed_log a Hp) as (st & Hs & Hc & _).
  exists a, st. auto.
Defined.

(** ** Tool uses, thinking blocks and previews across the two tools *)

Lemma session_track_items (items : list json) (r : Session.session) :
  Session.tool_uses (fold_left Session.track_item items r)
  = (Session.tool_uses r ++ flat_map tool_name items)%list
  /\ Session.thinking_blocks (fold_left Session.track_item items r)
     = Session.thinking_blocks r
       + Z.of_nat (List.length (filter is_thinking items)).
Proof.
  revert r. induction items as [|item rest IH]; intros r; simpl.
  - rewrite app_nil_r. split; [reflexivity|lia].
  - destruct (IH (Session.track_item r item)) as [Ht Hb]. rewrite Ht, Hb.
    unfold Session.track_item, tool_name, is_thinking.
    destruct item; simpl; try (split; [reflexivity|lia]).
    destruct (str_eq (get fields "type" JNull) "thinking") eqn:Eth.
    + assert (Etu : str_eq (get fields "type" JNull) "tool_use" = false).
      { destruct (get fields "type" JNull); try discriminate Eth.
        simpl in *. apply String.eqb_eq in Eth. now subst. }
      rewrite Etu. simpl. split; [reflexivity|lia].
    + destruct (str_eq (get fields "type" JNull) "tool_use"); simpl.
      * rewrite <- app_assoc. split; [reflexivity|lia].
      * split; [reflexivity|lia].
Qed.

Lemma hooks_track_items (items uses : list json) :
  fold_left Hooks.track_item items uses
  = (uses ++ flat_map tool_name items)%list.
Proof.
  revert uses. induction items as [|item rest IH]; intros uses; simpl.
  - now rewrite app_nil_r.
  - rewrite IH. unfold Hooks.track_item, tool_name.
    destruct item; simpl; try reflexivity.
    destruct (str_eq (get fields "type" JNull) "tool_use"); simpl;
      [now rewrite <- app_assoc|reflexivity].
Qed.

Lemma session_scan_entry_tools (st st' : Session.scan_state) (e : json) :
  Session.scan_entry st e = Ok st' ->
  Session.tool_uses (snd st')
  = (Session.tool_uses (snd st) ++ flat_map tool_name (assistant_content e))%list
  /\ Session.thinking_blocks (snd st')
     = Session.thinking_blocks (snd st)
       + Z.of_nat (List.length (filter is_thinking (assistant_content e))).
Proof.
  unfold Session.scan_entry, assistant_content. intros Hs.
  destruct e; try discriminate Hs. cbn [py_get bind] in Hs.
  destruct (str_eq (get fields "type" JNull) "user") eqn:Eu.
  - rewrite (str_eq_user_assistant _ Eu) in *.
    apply bind_ok in Hs as (st1 & H1 & Hs). inversion Hs; subst st'; clear Hs.
    apply bind_ok in H1 as (r1 & H1 & Hr). inversion Hr; subst st1; clear Hr.
    cbn [snd]. simpl. rewrite app_nil_r.
    unfold Session.track_user in H1. cbn [py_get bind] in H1.
    destruct (get fields "message" (JDict [])) as [| | | | |msg];
      try (inversion H1; subst; split; [reflexivity|lia]).
    destruct (get msg "content" (JStr "")) as [| | |text| |];
      try (inversion H1; subst; split; [reflexivity|lia]).
    destruct (negb (text =? "")%string); inversion H1; subst;
      (split; [reflexivity|simpl; lia]).
  - cbn [bind] in Hs.
    destruct (str_eq (get fields "type" JNull) "assistant").
    2:{ inversion Hs; subst. simpl. rewrite app_nil_r. split; [reflexivity|lia]. }
    unfold Session.track_assistant in Hs. cbn [py_get bind] in Hs.
    apply bind_ok in Hs as (st1 & H1 & Hs).
    destruct (get fields "message" (JDict [])) as [| | | | |msg];
      try discriminate Hs.
    cbn [py_get bind] in Hs.
    apply bind_ok in Hs as (r2 & H2 & Hs). inversion Hs; subst st'; clear Hs.
    cbn [snd].
    assert (H12 : Session.tool_uses r2 = Session.tool_uses (snd st)
                  /\ Session.thinking_blocks r2
                     = Session.thinking_blocks (snd st)).
    { assert (H01 : Session.tool_uses (snd st1) = Session.tool_uses (snd st)
                    /\ Session.thinking_blocks (snd st1)
                       = Session.thinking_blocks (snd st)).
      { unfold Session.count_api_call in H1. destruct st as [seen r].
        destruct (truthy (get fields "requestId" (JStr "")));
          [|inversion H1; now auto].
        apply bind_ok in H1 as (k & _ & H1).
        destruct (existsb (key_eqb k) seen); inversion H1; now auto. }
      destruct H01 as [<- <-].
      destruct (truthy (get msg "usage" (JDict []))); [|inversion H2; now auto].
      unfold Session.fold_usage in H2.
      apply bind_ok in H2 as (k & _ & H2).
      apply bind_ok in H2 as (acc & _ & H2). inversion H2; now auto. }
    destruct H12 as [<- <-].
    unfold Session.track_content.
    destruct (get msg "content" (JList [])) as [| | | |items|];
      try (simpl; rewrite app_nil_r; split; [reflexivity|lia]).
    apply session_track_items.
Qed.

Lemma hooks_scan_entry_tools (st st' : Hooks.scan_state) (e : json) :
  Hooks.scan_entry st e = Ok st' ->
  Hooks.scan_tool_uses st'
  = (Hooks.scan_tool_uses st ++ flat_map tool_name (assistant_content e))%list.
Proof.
  unfold Hooks.scan_entry, assistant_content. intros Hs.
  destruct e; try discriminate Hs. cbn [py_get bind] in Hs.
  destruct (str_eq (get fields "type" JNull) "user") eqn:Eu.
  - rewrite (str_eq_user_assistant _ Eu) in *.
    apply bind_ok in Hs as (st1 & H1 & Hs). inversion Hs; subst st'; clear Hs.
    simpl. rewrite app_nil_r.
    unfold Hooks.track_user in H1. cbn [py_get bind] in H1.
    destruct (get fields "message" (JDict [])) as [| | | | |msg];
      try (inversion H1; now subst).
    destruct (get msg "content" (JStr "")) as [| | |text| |];
      try (inversion H1; now subst).
    destruct (negb (text =? "")%string); inversion H1; now subst.
  - cbn [bind] in Hs.
    destruct (str_eq (get fields "type" JNull) "assistant").
    2:{ inversion Hs; subst. simpl. now rewrite app_nil_r. }
    unfold Hooks.track_assistant in Hs. cbn [py_get bind] in Hs.
    destruct (get fields "message" (JDict [])) as [| | | | |msg];
      try discriminate Hs.
    cbn [py_get bind] in Hs.
    apply bind_ok in Hs as (seen & _ & Hs). inversion Hs; subst st'; clear Hs.
    cbn [Hooks.scan_tool_uses]. unfold Hooks.track_content.
    destruct (get msg "content" (JList [])) as [| | | |items|];
      try (simpl; now rewrite app_nil_r).
    apply hooks_track_items.
Qed.

(** X8. Both tools collect the same tool uses: on a log that both
    scan to the end, the two lists of tool names are equal, namely the
    names of the tool-use blocks of the assistant records in file
    order; the session analyzer's count of thinking blocks is the
    number of thinking blocks of those records. *)
Theorem tool_uses_agree :
  forall entries r a,
    Session.parse_entries entries = Ok r ->
    Hooks.parse_entries entries = Ok a ->
    Session.tool_uses r = Hooks.tool_uses a
    /\ Hooks.tool_uses a = tool_names entries
    /\ Session.thinking_blocks r = thinking_count entries.
Proof.
  intros entries r a Hp Ha.
  apply session_parse_entries_scan in Hp as (seen & Hs).
  apply hooks_parse_entries_inv in Ha as (st & cats & Hh & _ & ->).
  cbn [Hooks.tool_uses].
  assert (Hsg : forall l s s',
             Session.scan s l = Ok s' ->
             Session.tool_uses (snd s')
             = (Session.tool_uses (snd s) ++ tool_names l)%list
             /\ Session.thinking_blocks (snd s')
                = Session.thinking_blocks (snd s) + thinking_count l).
  { unfold Session.scan, tool_names, thinking_count.
    induction l as [|e l IH]; intros s s' H.
    - inversion H; subst. simpl. rewrite app_nil_r. split; [reflexivity|lia].
    - apply for_each_ok_cons in H as (s1 & H1 & H).
      destruct (IH _ _ H) as [Ht Hb].
      destruct (session_scan_entry_tools _ _ _ H1) as [Ht1 Hb1].
      rewrite Ht, Hb, Ht1, Hb1. simpl.
      rewrite <- app_assoc, filter_app, length_app, Nat2Z.inj_add.
      split; [reflexivity|lia]. }
  assert (Hhg : forall l s s',
             Hooks.scan s l = Ok s' ->
             Hooks.scan_tool_uses s'
             = (Hooks.scan_tool_uses s ++ tool_names l)%list).
  { unfold Hooks.scan, tool_names. induction l as [|e l IH]; intros s s' H.
    - inversion H; subst. simpl. now rewrite app_nil_r.
    - apply for_each_ok_cons in H as (s1 & H1 & H).
      rewrite (IH _ _ H), (hooks_scan_entry_tools _ _ _ H1). simpl.
      now rewrite <- app_assoc. }
  destruct (Hsg _ _ _ Hs) as [Ht Hb]. cbn [snd] in Ht, Hb.
  rewrite Ht, Hb, (Hhg _ _ _ Hh). simpl. split; [reflexivity|].
  split; [reflexivity|lia].
Qed.

Lemma tool_uses_agree_witness :
  exists r a,
    Session.parse_entries tool_log = Ok r
    /\ Hooks.parse_entries tool_log = Ok a
    /\ Session.tool_uses r = Hooks.tool_uses a
    /\ Hooks.tool_uses a = [JStr "Bash"; JStr "unknown"].
Proof.
  assert (Hp : exists r, Session.parse_entries tool_log = Ok r)
    by (eexists; vm_compute; reflexivity).
  assert (Ha : exists a, Hooks.parse_entries tool_log = Ok a)
    by (eexists; vm_compute; reflexivity).
  destruct Hp as (r & Hp), Ha as (a & Ha).
  destruct (tool_uses_agree tool_log r a Hp Ha) as (Heq & Hn & _).
  exists r, a. split; [exact Hp|]. split; [exact Ha|]. split; [exact Heq|].
  rewrite Hn. vm_compute. reflexivity.
Defined.

Lemma slice_to_slice_to (n m : nat) (s : string) :
  (n <= m)%nat -> slice_to n (slice_to m s) = slice_to n s.
Proof.
  unfold slice_to. revert m s.
  induction n as [|n IH]; intros m s Hle.
  - destruct (substring 0 m s), s; reflexivity.
  - destruct m as [|m]; [lia|]. destruct s as [|c s]; simpl; [reflexivity|].
    f_equal. apply IH. lia.
Qed.

(** X9. The two tools keep a preview of the same user prompts: on a
    log that both scan to the end they list equally many, and each
    preview of the session analyzer is the first 100 characters of the
    hook analyzer's preview of the same prompt. *)
Theorem session_previews_are_cut_hook_previews :
  forall entries r a,
    Session.parse_entries entries = Ok r ->
    Hooks.parse_entries entries = Ok a ->
    Session.user_prompts r
    = map (fun p => slice_to 100 (Hooks.content p)) (Hooks.user_prompts a)
    /\ List.length (Session.user_prompts r)
       = List.length (Hooks.user_prompts a).
Proof.
  intros entries r a Hp Ha.
  apply session_parse_entries_scan in Hp as (seen & Hs).
  apply hooks_parse_entries_inv in Ha as (st & cats & Hh & _ & ->).
  cbn [Hooks.user_prompts].
  apply session_scan_frame in Hs as [_ Hsp]. cbn [snd] in Hsp. simpl in Hsp.
  apply hooks_scan_frame in Hh. simpl in Hh.
  assert (Heq : Session.user_prompts r
                = map (fun p => slice_to 100 (Hooks.content p))
                    (Hooks.scan_user_prompts st)).
  { rewrite Hsp.
    rewrite <- (map_map Hooks.content (slice_to 100)), Hh, map_map.
    apply map_ext. intros s. symmetry. apply slice_to_slice_to. lia. }
  split; [exact Heq|]. rewrite Heq. apply length_map.
Qed.

Lemma session_previews_are_cut_hook_previews_witness :
  exists r a,
    Session.parse_entries tool_log = Ok r
    /\ Hooks.parse_entries tool_log = Ok a
    /\ List.length (Session.user_prompts r)
       = List.length (Hooks.user_prompts a).
Proof.
  assert (Hp : exists r, Session.parse_entries tool_log = Ok r)
    by (eexists; vm_compute; reflexivity).
  assert (Ha : exists a, Hooks.parse_entries tool_log = Ok a)
    by (eexists; vm_compute; reflexivity).
  destruct Hp as (r & Hp), Ha as (a & Ha).
  exists r, a. split; [exact Hp|]. split; [exact Ha|].
  exact (proj2 (session_previews_are_cut_hook_previews tool_log r a Hp Ha)).
Defined.

(** ** The costs of the reports *)

(** X10. The hook analyzer's report from log to cost, in exact
    arithmetic: the main-agent cost prices the four totals of the
    primary calls at the opus rates; the prompt-hook cost prices the
    input plus cache-read tokens of the lightweight calls at the haiku
    input rate and their output tokens at the haiku output rate, and
    nothing else; the agent-hook cost is zero, so the total is the sum
    of the other two. In binary64 the agent-hook cost is exactly 0.0
    as well. *)
Theorem hook_report_costs :
  forall entries a,
    Hooks.parse_entries entries = Ok a ->
    exists st costs,
      Hooks.scan Hooks.empty_scan entries = Ok st
      /\ HooksReport.print_session_analysis (F := Q) a = Ok costs
      /\ (HooksReport.main_cost costs
          == (inject_Z (dict_sum (fun d => input_tokens (Hooks.tokens d))
                          (primary_calls (Hooks.seen_request_ids st))) * 15
              + inject_Z (dict_sum (fun d => output_tokens (Hooks.tokens d))
                            (primary_calls (Hooks.seen_request_ids st))) * 75
              + inject_Z (dict_sum (fun d => cache_read (Hooks.tokens d))
                            (primary_calls (Hooks.seen_request_ids st))) * 1.5
              + inject_Z (dict_sum (fun d => cache_creation (Hooks.tokens d))
                            (primary_calls (Hooks.seen_request_ids st))) * 18.75)
             / 1000000)%Q
      /\ (HooksReport.prompt_cost costs
          == (inject_Z (dict_sum (fun d => (input_tokens (Hooks.tokens d)
                                            + cache_read (Hooks.tokens d))%Z)
                          (lightweight_calls (Hooks.seen_request_ids st))) * 0.25
              + inject_Z (dict_sum (fun d => output_tokens (Hooks.tokens d))
                            (lightweight_calls (Hooks.seen_request_ids st))) * 1.25)
             / 1000000)%Q
      /\ (HooksReport.agent_cost costs == 0)%Q
      /\ (HooksReport.total_cost costs
          == HooksReport.main_cost costs + HooksReport.prompt_cost costs)%Q
      /\ (forall costs64,
             HooksReport.print_session_analysis (F := float) a = Ok costs64 ->
             HooksReport.agent_cost costs64 = 0%float).
Proof.
  intros entries a Hp.
  apply hooks_parse_entries_inv in Hp as (st & cats & Hs & Hc & ->).
  exists st. eexists. split; [exact Hs|]. split; [reflexivity|].
  unfold Hooks.categorize in Hc.
  apply categorize_from in Hc as (Hm & _ & _ & Hi & Ho).
  pose proof (Hm InputTokens) as Hmi. pose proof (Hm OutputTokens) as Hmo.
  pose proof (Hm CacheRead) as Hmr. pose proof (Hm CacheCreation) as Hmc.
  simpl in Hmi, Hmo, Hmr, Hmc, Hi, Ho.
  cbn [HooksReport.main_cost HooksReport.prompt_cost HooksReport.agent_cost
         HooksReport.total_cost Hooks.main_agent Hooks.hooks_prompt].
  refine (conj _ (conj _ (conj _ (conj _ _)))).
  - rewrite <- Hmi, <- Hmo, <- Hmr, <- Hmc. simpl. field.
  - rewrite <- Hi, <- Ho. simpl. field.
  - simpl. field.
  - simpl. field.
  - intros costs64 H64.
    unfold HooksReport.print_session_analysis in H64.
    apply bind_ok in H64 as (m & _ & H64).
    apply bind_ok in H64 as (p & _ & H64).
    apply bind_ok in H64 as (ag & Hag & H64).
    inversion H64; subst costs64. cbn [HooksReport.agent_cost].
    vm_compute in Hag. now inversion Hag.
Qed.

Lemma hook_report_costs_witness :
  exists a costs,
    Hooks.parse_entries haiku_log = Ok a
    /\ HooksReport.print_session_analysis (F := Q) a = Ok costs
    /\ (HooksReport.total_cost costs
        == HooksReport.main_cost costs + HooksReport.prompt_cost costs)%Q.
Proof.
  assert (Hp : exists a, Hooks.parse_entries haiku_log = Ok a)
    by (eexists; vm_compute; reflexivity).
  destruct Hp as (a & Hp).
  destruct (hook_report_costs haiku_log a Hp)
    as (st & costs & _ & Hc & _ & _ & _ & Ht & _).
  exists a, costs. auto.
Defined.

(** X11. The two calculators agree in exact arithmetic: the session
    analyzer's total for four counts is the hook analyzer's cost of the
    same counts at the opus tier. In binary64 they can differ in the
    last digits, because the session analyzer divides each rate by
    1,000,000 before it multiplies: for 3 input, 7 output, 11
    cache-creation and 13 cache-read tokens the two results are
    different floats. *)
Theorem calculators_agree_exactly :
  (forall t : usage_row,
      exists b cost,
        Session.calculate_cost (F := Q) t = Ok b
        /\ Hooks.calculate_cost (F := Q)
             [("input_tokens", input_tokens t);
              ("output_tokens", output_tokens t);
              ("cache_creation", cache_creation t);
              ("cache_read", cache_read t)] "opus" = Ok cost
        /\ (Session.total_cost b == cost)%Q)
  /\ (exists b cost,
         Session.calculate_cost (F := float)
           {| input_tokens := 3; output_tokens := 7;
              cache_creation := 11; cache_read := 13 |} = Ok b
         /\ Hooks.calculate_cost (F := float)
              [("input_tokens", 3); ("output_tokens", 7);
               ("cache_creation", 11); ("cache_read", 13)] "opus" = Ok cost
         /\ Session.total_cost b <> cost).
Proof.
  split.
  - intros t. do 2 eexists. split; [reflexivity|]. split; [reflexivity|].
    simpl. field.
  - do 2 eexists. split; [vm_compute; reflexivity|].
    split; [vm_compute; reflexivity|].
    cbn [Session.total_cost]. intros Heq.
    assert (Hb : PrimFloat.eqb 0.00079574999999999991 0.00079575000000000002
                 = true) by (rewrite Heq; vm_compute; reflexivity).
    vm_compute in Hb. discriminate Hb.
Qed.

(** X12. No cost is negative: for every log the session analyzer scans
    to the end, the cost breakdown of its totals in exact arithmetic
    has four non-negative components and a non-negative total. *)
Theorem session_costs_are_non_negative :
  forall entries r,
    Session.parse_entries entries = Ok r ->
    exists b,
      Session.calculate_cost (F := Q) (Session.totals r) = Ok b
      /\ (0 <= Session.input_cost b)%Q
      /\ (0 <= Session.output_cost b)%Q
      /\ (0 <= Session.cache_read_cost b)%Q
      /\ (0 <= Session.cache_create_cost b)%Q
      /\ (0 <= Session.total_cost b)%Q.
Proof.
  intros entries r Hp.
  apply session_parse_entries_scan in Hp as (seen & Hs).
  assert (Hpos : forall c, 0 <= row_get (Session.totals r) c).
  { intros c.
    destruct (session_scan_mono _ _ _ KNone c Hs) as [_ H]. cbn [snd] in H.
    change (Session.totals (Session.empty_result _)) with zero_row in H.
    now rewrite row_get_zero in H. }
  pose proof (Hpos InputTokens) as Hi. pose proof (Hpos OutputTokens) as Ho.
  pose proof (Hpos CacheRead) as Hr. pose proof (Hpos CacheCreation) as Hc.
  simpl in Hi, Ho, Hr, Hc.
  eexists. split; [reflexivity|].
  cbn [Session.input_cost Session.output_cost Session.cache_read_cost
         Session.cache_create_cost Session.total_cost
         fadd fmul fdiv float_lit exact].
  assert (Hmul : forall (n : Z) (q : Q),
             0 <= n -> (0 <= q)%Q -> (0 <= inject_Z n * q)%Q).
  { intros n q Hn Hq. apply Qmult_le_0_compat; [|exact Hq].
    change 0%Q with (inject_Z 0). now rewrite <- Zle_Qle. }
  assert (H1 : (0 <= inject_Z (input_tokens (Session.totals r))
                     * (15.0 / inject_Z 1000000))%Q)
    by (apply Hmul; [exact Hi|discriminate]).
  assert (H2 : (0 <= inject_Z (output_tokens (Session.totals r))
                     * (75.0 / inject_Z 1000000))%Q)
    by (apply Hmul; [exact Ho|discriminate]).
  assert (H3 : (0 <= inject_Z (cache_read (Session.totals r))
                     * (1.50 / inject_Z 1000000))%Q)
    by (apply Hmul; [exact Hr|discriminate]).
  assert (H4 : (0 <= inject_Z (cache_creation (Session.totals r))
                     * (18.75 / inject_Z 1000000))%Q)
    by (apply Hmul; [exact Hc|discriminate]).
  refine (conj H1 (conj H2 (conj H3 (conj H4 _)))).
  lra.
Qed.

Lemma session_costs_are_non_negative_witness :
  exists r b,
    Session.parse_entries mixed_log = Ok r
    /\ Session.calculate_cost (F := Q) (Session.totals r) = Ok b
    /\ (0 <= Session.total_cost b)%Q.
Proof.
  assert (Hp : exists r, Session.parse_entries mixed_log = Ok r)
    by (eexists; vm_compute; reflexivity).
  destruct Hp as (r & Hp).
  destruct (session_costs_are_non_negative mixed_log r Hp)
    as (b & Hb & _ & _ & _ & _ & Ht).
  exists r, b. auto.
Defined.

(** X13. The comparison report and the session report of the hook
    analyzer price the same numbers: over any float arithmetic the
    baseline, test and hook costs of the comparison are the main-agent
    cost of the baseline's report, the main-agent cost of the test's
    report and the prompt-hook cost of the test's report. In exact
    arithmetic the overhead is therefore the total cost of the test
    session minus the main-agent cost of the baseline, and comparing a
    session with itself leaves its prompt-hook cost as overhead. *)
Theorem overhead_is_test_total_minus_baseline_main :
  (forall (F : Type) (PF : PyFloat F) (PS : PyFloatSub F) baseline test ca pb pt,
      HooksReport.compare_sessions (F := F) baseline test = Ok ca ->
      HooksReport.print_session_analysis (F := F) baseline = Ok pb ->
      HooksReport.print_session_analysis (F := F) test = Ok pt ->
      HooksReport.base_cost ca = HooksReport.main_cost pb
      /\ HooksReport.test_cost ca = HooksReport.main_cost pt
      /\ HooksReport.hook_cost ca = HooksReport.prompt_cost pt)
  /\ (forall baseline test,
         exists ca pt pb,
           HooksReport.compare_sessions (F := Q) baseline test = Ok ca
           /\ HooksReport.print_session_analysis (F := Q) test = Ok pt
           /\ HooksReport.print_session_analysis (F := Q) baseline = Ok pb
           /\ (HooksReport.overhead ca
               == HooksReport.total_cost pt - HooksReport.main_cost pb)%Q)
  /\ (forall a,
         exists ca pa,
           HooksReport.compare_sessions (F := Q) a a = Ok ca
           /\ HooksReport.print_session_analysis (F := Q) a = Ok pa
           /\ (HooksReport.overhead ca == HooksReport.prompt_cost pa)%Q).
Proof.
  refine (conj _ (conj _ _)).
  - intros F PF PS baseline test ca pb pt Hc Hb Ht.
    unfold HooksReport.compare_sessions in Hc.
    unfold HooksReport.print_session_analysis in Hb, Ht.
    assert (Hdict : forall m,
               Hooks.calculate_cost (F := F) (HooksReport.main_agent_dict m) "opus"
               = Hooks.calculate_cost (F := F) (HooksReport.main_tokens_dict m)
                   "opus") by reflexivity.
    rewrite !Hdict in Hc.
    apply bind_ok in Hc as (b & Eb & Hc).
    apply bind_ok in Hc as (t & Et & Hc).
    apply bind_ok in Hc as (h & Eh & Hc).
    apply bind_ok in Hb as (mb & Emb & Hb).
    apply bind_ok in Hb as (pb' & _ & Hb).
    apply bind_ok in Hb as (ab & _ & Hb).
    apply bind_ok in Ht as (mt & Emt & Ht).
    apply bind_ok in Ht as (pt' & Ept & Ht).
    apply bind_ok in Ht as (at' & _ & Ht).
    inversion Hc; inversion Hb; inversion Ht; subst. simpl.
    repeat split; congruence.
  - intros baseline test. do 3 eexists.
    split; [reflexivity|]. split; [reflexivity|]. split; [reflexivity|].
    simpl. field.
  - intros a. do 2 eexists.
    split; [reflexivity|]. split; [reflexivity|].
    simpl. field.
Qed.

Lemma overhead_is_test_total_minus_baseline_main_witness :
  exists a ca pa,
    Hooks.parse_entries haiku_log = Ok a
    /\ HooksReport.compare_sessions (F := float) a a = Ok ca
    /\ HooksReport.print_session_analysis (F := float) a = Ok pa
    /\ HooksReport.hook_cost ca = HooksReport.prompt_cost pa.
Proof.
  assert (Hp : exists a ca pa,
             Hooks.parse_entries haiku_log = Ok a
             /\ HooksReport.compare_sessions (F := float) a a = Ok ca
             /\ HooksReport.print_session_analysis (F := float) a = Ok pa).
  { do 3 eexists.
    split; [vm_compute; reflexivity|].
    split; vm_compute; reflexivity. }
  destruct Hp as (a & ca & pa & Hp & Hc & Ha).
  exists a, ca, pa. split; [exact Hp|]. split; [exact Hc|]. split; [exact Ha|].
  exact (proj2 (proj2 (proj1 overhead_is_test_total_minus_baseline_main
                         float binary64 binary64_sub a a ca pa pa Hc Ha Ha))).
Defined.

(** ** Sorting *)

Section SortedFacts.
Variable A : Type.
Variable before : A -> A -> bool.
Hypothesis before_total : forall x y, before x y = false -> before y x = true.
Hypothesis before_trans :
  forall x y z, before x y = true -> before y z = true -> before x z = true.

Lemma insert_sorted_perm (x : A) (l : list A) :
  Permutation (insert_sorted before x l) (x :: l).
Proof.
  induction l as [|y rest IH]; simpl; [apply Permutation_refl|].
  destruct (before x y); [apply Permutation_refl|].
  apply Permutation_trans with (y :: x :: rest);
    [now constructor|apply perm_swap].
Qed.

Lemma sorted_perm (l : list A) : Permutation (sorted before l) l.
Proof.
  induction l as [|x rest IH]; simpl; [constructor|].
  apply Permutation_trans with (x :: sorted before rest);
    [apply insert_sorted_perm|now constructor].
Qed.

Lemma insert_sorted_strongly (x : A) (l : list A) :
  StronglySorted (fun a b => before a b = true) l ->
  StronglySorted (fun a b => before a b = true) (insert_sorted before x l).
Proof.
  induction 1 as [|y rest Hs IH Hall]; simpl.
  - repeat constructor.
  - destruct (before x y) eqn:E.
    + constructor; [now constructor|]. constructor; [exact E|].
      apply Forall_impl with (2 := Hall). intros z. now apply before_trans.
    + constructor; [exact IH|].
      apply Permutation_Forall with (x :: rest);
        [apply Permutation_sym, insert_sorted_perm|].
      constructor; [now apply before_total|exact Hall].
Qed.

Lemma sorted_strongly (l : list A) :
  StronglySorted (fun a b => before a b = true) (sorted before l).
Proof.
  induction l as [|x rest IH]; simpl; [constructor|].
  now apply insert_sorted_strongly.
Qed.

(** What comes later in a sorted list never goes before what comes
    earlier, unless the two have equal keys. *)
Lemma sorted_split (l : list A) (n : nat) :
  forall x y,
    In x (firstn n (sorted before l)) ->
    In y (skipn n (sorted before l)) ->
    before x y = true.
Proof.
  pose proof (sorted_strongly l) as Hs. revert n.
  induction Hs as [|z rest Hs IH Hall]; intros n x y Hx Hy.
  - destruct n; inversion Hx.
  - destruct n as [|n]; [inversion Hx|]. simpl in Hx, Hy.
    destruct Hx as [<-|Hx]; [|now apply (IH n)].
    rewrite Forall_forall in Hall. apply Hall.
    rewrite <- (firstn_skipn n rest). apply in_or_app. now right.
Qed.
End SortedFacts.

(** ** The tools of the session report *)

Lemma tool_counts_from (uses : list json) (counts counts' : list (key * Z)) :
  for_each SessionReport.count_tool counts uses = Ok counts' ->
  NoDup (map fst counts) ->
  (forall k n, dict_get k counts = Some n -> 0 < n) ->
  NoDup (map fst counts')
  /\ (forall k,
         match dict_get k counts' with Some n => n | None => 0 end
         = match dict_get k counts with Some n => n | None => 0 end
           + occurrences k uses)
  /\ (forall k n, dict_get k counts' = Some n -> 0 < n)
  /\ dict_sum (fun n => n) counts'
     = dict_sum (fun n => n) counts + Z.of_nat (List.length uses).
Proof.
  revert counts. induction uses as [|u rest IH]; intros counts Hf Hnd Hpos.
  - inversion Hf; subst. unfold occurrences. simpl.
    split; [exact Hnd|]. split; [intros k; lia|]. split; [exact Hpos|lia].
  - apply for_each_ok_cons in Hf as (c1 & H1 & Hf).
    unfold SessionReport.count_tool in H1.
    apply bind_ok in H1 as (k0 & Hk & H1). inversion H1; subst c1; clear H1.
    assert (Hpos0 : 0 <= match dict_get k0 counts with
                         | Some n => n
                         | None => 0
                         end).
    { destruct (dict_get k0 counts) eqn:E; [|lia].
      specialize (Hpos k0 z E). lia. }
    destruct (IH _ Hf) as (Hnd' & Hget & Hpos' & Hsum).
    + now apply dict_set_keys_nodup.
    + intros k n. destruct (key_eqb k0 k) eqn:E.
      * apply key_eqb_eq in E. subst k0. rewrite dict_get_set_same.
        intros Hn. inversion Hn. lia.
      * apply key_eqb_neq in E. rewrite dict_get_set_other by exact E.
        apply Hpos.
    + split; [exact Hnd'|]. split; [|split; [exact Hpos'|]].
      * intros k. rewrite Hget. unfold occurrences. simpl. rewrite Hk.
        destruct (key_eqb k0 k) eqn:E.
        -- apply key_eqb_eq in E. subst k0. rewrite dict_get_set_same.
           simpl. lia.
        -- apply key_eqb_neq in E. rewrite dict_get_set_other by exact E.
           reflexivity.
      * rewrite Hsum, dict_sum_set. simpl.
        destruct (dict_get k0 counts); lia.
Qed.

(** X14. The tool table of the session report: every tool name is
    listed once with the number of its uses, and the counts add up to
    the number of tool uses; the report shows at most ten of them, in
    descending order of count, and none of those left out has a larger
    count than one that is shown. *)
Theorem tool_table_counts_and_ranks :
  forall uses counts,
    SessionReport.tool_counts uses = Ok counts ->
    NoDup (map fst counts)
    /\ (forall k,
           match dict_get k counts with Some n => n | None => 0 end
           = occurrences k uses)
    /\ (forall k n, dict_get k counts = Some n -> 0 < n)
    /\ dict_sum (fun n => n) counts = Z.of_nat (List.length uses)
    /\ (List.length (SessionReport.top_tools counts) <= 10)%nat
    /\ StronglySorted (fun x y => snd y <= snd x) (SessionReport.top_tools counts)
    /\ exists rest,
        Permutation counts (SessionReport.top_tools counts ++ rest)
        /\ forall x y,
            In x (SessionReport.top_tools counts) -> In y rest ->
            snd y <= snd x.
Proof.
  intros uses counts Hc. unfold SessionReport.tool_counts in Hc.
  destruct (tool_counts_from _ _ _ Hc) as (Hnd & Hget & Hpos & Hsum);
    [constructor|discriminate|].
  split; [exact Hnd|]. split; [intros k; rewrite Hget; simpl; lia|].
  split; [exact Hpos|]. split; [simpl in Hsum; lia|].
  set (before := fun x y : key * Z => - snd x <=? - snd y).
  assert (Htot : forall x y, before x y = false -> before y x = true).
  { unfold before. intros x y H. apply Z.leb_gt in H. apply Z.leb_le. lia. }
  assert (Htr : forall x y z,
             before x y = true -> before y z = true -> before x z = true).
  { unfold before. intros x y z H1 H2.
    apply Z.leb_le in H1, H2. apply Z.leb_le. lia. }
  unfold SessionReport.top_tools. fold before.
  split; [apply firstn_le_length|]. split.
  - pose proof (sorted_strongly _ before Htot Htr counts) as Hs.
    assert (Hfirst : forall (l : list (key * Z)) n,
               StronglySorted (fun a b => before a b = true) l ->
               StronglySorted (fun x y => snd y <= snd x) (firstn n l)).
    { intros l n Hl. revert n.
      induction Hl as [|z rest Hl IH Hall]; intros n.
      - destruct n; constructor.
      - destruct n as [|n]; [constructor|]. simpl.
        constructor; [apply IH|].
        apply Forall_forall. intros w Hw.
        rewrite Forall_forall in Hall.
        assert (Hin : In w rest).
        { rewrite <- (firstn_skipn n rest). apply in_or_app. now left. }
        specialize (Hall w Hin). unfold before in Hall.
        apply Z.leb_le in Hall. lia. }
    now apply Hfirst.
  - exists (skipn 10 (sorted before counts)). split.
    + rewrite firstn_skipn. apply Permutation_sym, sorted_perm.
    + intros x y Hx Hy.
      pose proof (sorted_split _ before Htot Htr counts 10 x y Hx Hy) as H.
      unfold before in H. apply Z.leb_le in H. lia.
Qed.

Lemma tool_table_counts_and_ranks_witness :
  exists counts,
    SessionReport.tool_counts [JStr "Bash"; JStr "Read"; JStr "Bash"] = Ok counts
    /\ dict_sum (fun n => n) counts = 3
    /\ (List.length (SessionReport.top_tools counts) <= 10)%nat.
Proof.
  assert (Hc : exists counts,
             SessionReport.tool_counts [JStr "Bash"; JStr "Read"; JStr "Bash"]
             = Ok counts)
    by (eexists; vm_compute; reflexivity).
  destruct Hc as (counts & Hc).
  destruct (tool_table_counts_and_ranks _ counts Hc)
    as (_ & _ & _ & Hsum & Hlen & _).
  exists counts. auto.
Defined.

(** ** Session files *)

Lemma replace_char_absent (old new : ascii) (s : string) :
  old <> new -> contains (String old EmptyString) (replace_char old new s) = false.
Proof.
  intros Hne. induction s as [|c s IH]; [reflexivity|].
  cbn [replace_char contains]. rewrite IH, orb_false_r.
  rewrite prefix_cons.
  destruct (Ascii.eqb_spec c old) as [->|Hc].
  - apply Ascii.eqb_neq in Hne. now rewrite Hne.
  - assert (Hoc : (old =? c)%char = false)
      by (apply Ascii.eqb_neq; congruence).
    now rewrite Hoc.
Qed.

Lemma replace_char_fixed (old new : ascii) (s : string) :
  contains (String old EmptyString) s = false -> replace_char old new s = s.
Proof.
  induction s as [|c s IH]; [reflexivity|].
  cbn [replace_char contains]. rewrite prefix_cons, prefix_nil, andb_true_r.
  intros H. apply orb_false_elim in H as [Hc Hs].
  rewrite (IH Hs). rewrite Ascii.eqb_sym in Hc. now rewrite Hc.
Qed.

Lemma replace_char_length (old new : ascii) (s : string) :
  String.length (replace_char old new s) = String.length s.
Proof. induction s as [|c s IH]; simpl; congruence. Qed.

(** X15. The directory name of a project never contains a slash, has
    the length of the project path, and is its own directory name; so
    a project path with a slash in it shares its session directory
    with a different path, the one written with dashes. *)
Theorem safe_name_has_no_slash :
  forall p,
    contains "/" (Files.safe_name p) = false
    /\ String.length (Files.safe_name p) = String.length p
    /\ Files.safe_name (Files.safe_name p) = Files.safe_name p
    /\ (contains "/" p = true -> Files.safe_name p <> p).
Proof.
  intros p. unfold Files.safe_name.
  assert (Hno : contains "/" (replace_char "/" "-" p) = false)
    by (apply replace_char_absent; discriminate).
  split; [exact Hno|]. split; [apply replace_char_length|].
  split; [now apply replace_char_fixed|].
  intros Hc Heq. rewrite Heq in Hno. congruence.
Qed.

Lemma safe_name_has_no_slash_witness :
  Files.safe_name "/home/corey/hook-lab" = "-home-corey-hook-lab"
  /\ Files.safe_name "/home/corey/hook-lab" <> "/home/corey/hook-lab".
Proof.
  split; [reflexivity|].
  exact (proj2 (proj2 (proj2 (safe_name_has_no_slash "/home/corey/hook-lab")))
           eq_refl).
Defined.

Lemma scan_latest_flat (dirs : list Files.project) (acc : option Files.session_file * Q) :
  fold_left (fun a d => fold_left Files.newer (snd d) a) dirs acc
  = fold_left Files.newer (flat_map snd dirs) acc.
Proof.
  revert acc. induction dirs as [|d rest IH]; intros acc; simpl; [reflexivity|].
  now rewrite IH, fold_left_app.
Qed.

(** The loop keeps the largest modification time seen so far, zero at
    least, and with it the first file that reached it. *)
Lemma newer_invariant (l seen : list Files.session_file)
    (acc : option Files.session_file * Q) :
  (forall g, In g seen -> (Files.mtime g <= snd acc)%Q) ->
  match fst acc with
  | Some f => In f seen /\ Files.mtime f = snd acc /\ (0 < snd acc)%Q
  | None => snd acc = 0%Q
  end ->
  let acc' := fold_left Files.newer l acc in
  (forall g, In g (seen ++ l) -> (Files.mtime g <= snd acc')%Q)
  /\ match fst acc' with
     | Some f => In f (seen ++ l) /\ Files.mtime f = snd acc' /\ (0 < snd acc')%Q
     | None => snd acc' = 0%Q
     end.
Proof.
  revert seen acc. induction l as [|x rest IH]; intros seen acc Hmax Hacc; simpl.
  - rewrite app_nil_r. auto.
  - replace (seen ++ x :: rest)%list with ((seen ++ [x]) ++ rest)%list
      by (rewrite <- app_assoc; reflexivity).
    apply IH.
    + intros g Hg. unfold Files.newer.
      destruct (Qle_bool (Files.mtime x) (snd acc)) eqn:E.
      * apply Qle_bool_iff in E.
        apply in_app_or in Hg as [Hg|[<-|[]]]; [now apply Hmax|exact E].
      * assert (Hlt : (snd acc < Files.mtime x)%Q).
        { apply Qnot_le_lt. intros Hle. apply Qle_bool_iff in Hle. congruence. }
        cbn [snd]. apply in_app_or in Hg as [Hg|[<-|[]]].
        -- specialize (Hmax g Hg). lra.
        -- lra.
    + unfold Files.newer.
      destruct (Qle_bool (Files.mtime x) (snd acc)) eqn:E.
      * destruct (fst acc); [|exact Hacc].
        destruct Hacc as (Hin & Hm & Hp). split; [|auto].
        apply in_or_app. now left.
      * assert (Hlt : (snd acc < Files.mtime x)%Q).
        { apply Qnot_le_lt. intros Hle. apply Qle_bool_iff in Hle. congruence. }
        cbn [fst snd]. split; [apply in_or_app; right; now left|].
        split; [reflexivity|].
        destruct (fst acc).
        -- destruct Hacc as (_ & _ & Hp). lra.
        -- rewrite Hacc in Hlt. exact Hlt.
Qed.

(** X16. [find_latest_session] returns the path of a searched session
    file that was modified after time zero and no earlier than any
    other searched file, and fails exactly when no searched file was
    modified after time zero. An empty project path searches every
    project. Any other project path searches the one directory that
    its name with dashes for slashes denotes under the projects
    directory: for [.] that is the projects directory itself, for [..]
    its parent, and a name that is neither and is not the name of a
    project finds nothing, whatever the projects hold. *)
Theorem latest_session_is_newest :
  forall fs project_path,
    (Files.find_latest_session fs project_path = None
     <-> forall f,
         In f (flat_map snd (Files.search_dirs fs project_path)) ->
         (Files.mtime f <= 0)%Q)
    /\ (forall p,
           Files.find_latest_session fs project_path = Some p ->
           exists f,
             In f (flat_map snd (Files.search_dirs fs project_path))
             /\ Files.path f = p
             /\ (0 < Files.mtime f)%Q
             /\ forall g,
                 In g (flat_map snd (Files.search_dirs fs project_path)) ->
                 (Files.mtime g <= Files.mtime f)%Q)
    /\ Files.find_latest_session fs (Some "")
       = Files.find_latest_session fs None
    /\ flat_map snd (Files.search_dirs fs None)
       = flat_map snd (Files.project_dirs fs)
    /\ flat_map snd (Files.search_dirs fs (Some ".")) = Files.own_files fs
    /\ flat_map snd (Files.search_dirs fs (Some "..")) = Files.parent_files fs
    /\ (forall p d,
           p <> "" ->
           Files.safe_name p <> "." ->
           Files.safe_name p <> ".." ->
           In d (Files.project_dirs fs) ->
           fst d = Files.safe_name p ->
           exists d',
             In d' (Files.project_dirs fs)
             /\ fst d' = Files.safe_name p
             /\ Files.search_dirs fs (Some p) = [d'])
    /\ (forall p,
           p <> "" ->
           Files.safe_name p <> "." ->
           Files.safe_name p <> ".." ->
           (forall d, In d (Files.project_dirs fs) -> fst d <> Files.safe_name p) ->
           Files.find_latest_session fs (Some p) = None).
Proof.
  intros fs project_path.
  assert (Hnamed : forall p,
             p <> "" ->
             Files.safe_name p <> "." ->
             Files.safe_name p <> ".." ->
             Files.search_dirs fs (Some p)
             = match find (fun d => (fst d =? Files.safe_name p)%string)
                       (Files.project_dirs fs) with
               | Some d => [d]
               | None =>
                   if existsb (String.eqb (Files.safe_name p))
                        (Files.other_entries fs)
                   then [(Files.safe_name p, [])]
                   else []
               end).
  { intros p Hne Hdot Hdots. unfold Files.search_dirs, Files.project_dir.
    destruct (String.eqb_spec p ""); [contradiction|].
    destruct (String.eqb_spec (Files.safe_name p) "."); [contradiction|].
    destruct (String.eqb_spec (Files.safe_name p) ".."); [contradiction|].
    match goal with
    | |- context [find ?f ?l] => destruct (find f l)
    end; [reflexivity|].
    match goal with
    | |- context [existsb ?f ?l] => destruct (existsb f l)
    end; reflexivity. }
  assert (Hrest : Files.find_latest_session fs (Some "")
                  = Files.find_latest_session fs None
                  /\ flat_map snd (Files.search_dirs fs None)
                     = flat_map snd (Files.project_dirs fs)
                  /\ flat_map snd (Files.search_dirs fs (Some "."))
                     = Files.own_files fs
                  /\ flat_map snd (Files.search_dirs fs (Some ".."))
                     = Files.parent_files fs
                  /\ (forall p d,
                         p <> "" ->
                         Files.safe_name p <> "." ->
                         Files.safe_name p <> ".." ->
                         In d (Files.project_dirs fs) ->
                         fst d = Files.safe_name p ->
                         exists d',
                           In d' (Files.project_dirs fs)
                           /\ fst d' = Files.safe_name p
                           /\ Files.search_dirs fs (Some p) = [d'])
                  /\ (forall p,
                         p <> "" ->
                         Files.safe_name p <> "." ->
                         Files.safe_name p <> ".." ->
                         (forall d, In d (Files.project_dirs fs) ->
                                    fst d <> Files.safe_name p) ->
                         Files.find_latest_session fs (Some p) = None)).
  { split; [reflexivity|]. split; [reflexivity|].
    split; [cbn; apply app_nil_r|]. split; [cbn; apply app_nil_r|]. split.
    - intros p d Hne Hdot Hdots Hin Hname. rewrite (Hnamed p Hne Hdot Hdots).
      match goal with
      | |- context [find ?f ?l] => destruct (find f l) as [d'|] eqn:Efind
      end.
      + apply find_some in Efind as [Hd' He]. apply String.eqb_eq in He.
        now exists d'.
      + exfalso. apply (find_none _ _ Efind) in Hin. cbn beta in Hin.
        rewrite Hname, String.eqb_refl in Hin. discriminate.
    - intros p Hne Hdot Hdots Hno. unfold Files.find_latest_session.
      rewrite (Hnamed p Hne Hdot Hdots).
      match goal with
      | |- context [find ?f ?l] => destruct (find f l) as [d'|] eqn:Efind
      end.
      + apply find_some in Efind as [Hd' He]. apply String.eqb_eq in He.
        exfalso. exact (Hno d' Hd' He).
      + match goal with
        | |- context [existsb ?f ?l] => destruct (existsb f l)
        end; reflexivity. }
  refine (conj _ (conj _ Hrest)); clear Hrest Hnamed;
    unfold Files.find_latest_session, Files.scan_latest;
    rewrite scan_latest_flat;
    set (files := flat_map snd (Files.search_dirs fs project_path));
    destruct (newer_invariant files [] (None, 0%Q))
      as [Hmax Hacc]; [intros g []|reflexivity| |intros g []|reflexivity|];
    simpl in Hmax, Hacc;
    destruct (fst (fold_left Files.newer files (None, 0%Q))) as [f|];
    simpl.
  - destruct Hacc as (Hin & Hm & Hp).
    split; [discriminate|]. intros Hall. specialize (Hall f Hin).
    rewrite Hm in Hall. lra.
  - split; [|reflexivity]. intros _ g Hg. rewrite <- Hacc. now apply Hmax.
  - destruct Hacc as (Hin & Hm & Hp).
    intros p Hp'. inversion Hp'; subst p. exists f.
    split; [exact Hin|]. split; [reflexivity|]. rewrite Hm. split; [exact Hp|].
    intros g Hg. now apply Hmax.
  - intros p Hp'. discriminate.
Qed.

Lemma latest_session_is_newest_witness :
  Files.find_latest_session sample_dir (Some "/home/corey/hook-lab")
  = Some "b.jsonl"
  /\ Files.find_latest_session sample_dir (Some "..") = Some "history.jsonl"
  /\ Files.find_latest_session sample_dir (Some "/no/such/project") = None
  /\ exists f,
      In f (flat_map snd
              (Files.search_dirs sample_dir (Some "/home/corey/hook-lab")))
      /\ Files.path f = "b.jsonl"
      /\ (0 < Files.mtime f)%Q.
Proof.
  split; [reflexivity|]. split; [reflexivity|]. split.
  - apply (proj2 (proj2 (proj2 (proj2 (proj2 (proj2 (proj2
             (latest_session_is_newest sample_dir None))))))));
      try discriminate.
    intros d [<-|[<-|[]]]; discriminate.
  - destruct (proj1 (proj2 (latest_session_is_newest sample_dir
                              (Some "/home/corey/hook-lab")))
                "b.jsonl" eq_refl) as (f & Hin & Hp & Hpos & _).
    exists f. auto.
Defined.

(** X17. [get_hook_lab_sessions] lists every session file of the
    project once, newest first: no file is older than one listed after
    it, so the first, which is the one analyzed when no session is
    named, is as new as any; without the project directory the list is
    empty. *)
Theorem hook_lab_sessions_newest_first :
  forall files,
    Permutation (Files.get_hook_lab_sessions (Some files)) files
    /\ StronglySorted (fun x y => (Files.mtime y <= Files.mtime x)%Q)
         (Files.get_hook_lab_sessions (Some files))
    /\ (forall first rest,
           Files.get_hook_lab_sessions (Some files) = first :: rest ->
           forall f, In f files -> (Files.mtime f <= Files.mtime first)%Q)
    /\ (files <> [] -> Files.get_hook_lab_sessions (Some files) <> [])
    /\ Files.get_hook_lab_sessions None = [].
Proof.
  intros files. cbn [Files.get_hook_lab_sessions].
  set (before := fun x y : Files.session_file =>
                   Qle_bool (Files.mtime y) (Files.mtime x)).
  assert (Htot : forall x y, before x y = false -> before y x = true).
  { unfold before. intros x y H. apply Qle_bool_iff.
    apply Qlt_le_weak, Qnot_le_lt. intros Hle.
    apply Qle_bool_iff in Hle. congruence. }
  assert (Htr : forall x y z,
             before x y = true -> before y z = true -> before x z = true).
  { unfold before. intros x y z H1 H2.
    apply Qle_bool_iff in H1, H2. apply Qle_bool_iff. lra. }
  pose proof (sorted_perm _ before files) as Hperm.
  pose proof (sorted_strongly _ before Htot Htr files) as Hs.
  assert (Hs' : StronglySorted
                  (fun x y => (Files.mtime y <= Files.mtime x)%Q)
                  (sorted before files)).
  { clear Hperm. induction Hs as [|z rest Hs IH Hall]; constructor; [exact IH|].
    apply Forall_impl with (2 := Hall). intros w Hw.
    unfold before in Hw. now apply Qle_bool_iff in Hw. }
  split; [exact Hperm|]. split; [exact Hs'|]. split; [|split; [|reflexivity]].
  - intros first rest Heq f Hf. rewrite Heq in Hs', Hperm.
    apply Permutation_sym in Hperm.
    apply (Permutation_in _ Hperm) in Hf as [<-|Hf]; [lra|].
    inversion Hs' as [|? ? _ Hall]; subst.
    rewrite Forall_forall in Hall. now apply Hall.
  - intros Hne Hnil. rewrite Hnil in Hperm.
    apply Permutation_nil in Hperm. contradiction.
Qed.

Lemma hook_lab_sessions_newest_first_witness :
  map Files.path (Files.get_hook_lab_sessions (Some (snd (hd ("", []) sample_projects))))
  = ["b.jsonl"; "c.jsonl"; "a.jsonl"]
  /\ Files.get_hook_lab_sessions (Some (snd (hd ("", []) sample_projects))) <> [].
Proof.
  split; [reflexivity|].
  apply (proj1 (proj2 (proj2 (proj2
           (hook_lab_sessions_newest_first (snd (hd ("", []) sample_projects))))))).
  discriminate.
Defined.

(** ** The context-injection hook *)

(** X18. The context-injection hook prints its object exactly when the
    log line could be written and the input is either not JSON or a
    JSON object: input that parses to anything but an object ends the
    script in an exception, since only the parse is guarded. What it
    prints names the event of the input, [Unknown] when the input has
    none or is not JSON, and always the same additional context. *)
Theorem context_inject_output :
  forall stdin log_ok,
    (ContextInject.run stdin log_ok = None
     <-> log_ok = false \/ exists d, stdin = Some d /\ is_dict d = false)
    /\ (forall out,
           ContextInject.run stdin log_ok = Some out ->
           exists inner,
             out = JDict [("hookSpecificOutput", JDict inner)]
             /\ get inner "hookEventName" JNull
                = match stdin with
                  | Some (JDict fields) =>
                      get fields "hook_event_name" (JStr "Unknown")
                  | _ => JStr "Unknown"
                  end
             /\ get inner "additionalContext" JNull
                = JStr ContextInject.additional_context
             /\ List.length inner = 2%nat).
Proof.
  intros stdin log_ok. split.
  - destruct log_ok; [|split; [now left|reflexivity]].
    destruct stdin as [d|].
    + destruct d; cbn;
        (split;
         [first [discriminate|intros _; right; eexists; split; reflexivity]
         |first [reflexivity
                |intros [H|(d' & Hd' & Hn)];
                 [discriminate H
                 |inversion Hd'; subst d'; cbn in Hn; discriminate Hn]]]).
    + split; [discriminate|].
      intros [H|(d & Hd & _)]; discriminate.
  - intros out Hout. destruct log_ok; [|discriminate Hout].
    destruct stdin as [d|]; [destruct d; try discriminate Hout|];
      cbn in Hout; inversion Hout; subst out;
      eexists; (split; [reflexivity|]); repeat split.
Qed.

Lemma context_inject_output_witness :
  exists inner,
    ContextInject.run (Some (JDict [("hook_event_name", JStr "Stop")])) true
    = Some (JDict [("hookSpecificOutput", JDict inner)])
    /\ get inner "hookEventName" JNull = JStr "Stop".
Proof.
  destruct (proj2 (context_inject_output
                     (Some (JDict [("hook_event_name", JStr "Stop")])) true)
              _ eq_refl) as (inner & Hout & Hname & _).
  exists inner. split; [|exact Hname].
  cbn [ContextInject.run]. cbn. rewrite <- Hout. reflexivity.
Defined.

(** ** The table of calls by model and the prompt lines *)

Lemma sum_of_app (f : Hooks.call -> Z) (l1 l2 : list Hooks.call) :
  HooksReport.sum_of f (l1 ++ l2)
  = HooksReport.sum_of f l1 + HooksReport.sum_of f l2.
Proof.
  unfold HooksReport.sum_of.
  induction l1 as [|c l1 IH]; simpl; [reflexivity|]. rewrite IH. lia.
Qed.

Lemma sum_of_perm (f : Hooks.call -> Z) (l l' : list Hooks.call) :
  Permutation l l' -> HooksReport.sum_of f l = HooksReport.sum_of f l'.
Proof. unfold HooksReport.sum_of. induction 1; simpl; lia. Qed.

Lemma sum_of_values (f : Hooks.call -> Z) (seen : list (key * Hooks.call)) :
  HooksReport.sum_of f (map snd seen) = dict_sum f seen.
Proof.
  unfold HooksReport.sum_of, dict_sum.
  induction seen as [|kv rest IH]; simpl; congruence.
Qed.

Lemma dict_sum_categories (f : Hooks.call -> Z) (seen : list (key * Hooks.call)) :
  dict_sum f seen
  = dict_sum f (primary_calls seen) + dict_sum f (lightweight_calls seen).
Proof.
  unfold primary_calls, lightweight_calls, dict_sum.
  induction seen as [|kv rest IH]; simpl; [reflexivity|].
  destruct (is_lightweight (snd kv)); simpl; lia.
Qed.

Lemma column_of_sums (f : Hooks.call -> Z) (g : HooksReport.model_line -> Z)
    (by_model : list (key * list Hooks.call)) :
  (forall item, g (HooksReport.print_model_line item)
                = HooksReport.sum_of f (snd item)) ->
  column_total g (map HooksReport.print_model_line by_model)
  = HooksReport.sum_of f (List.concat (map snd by_model)).
Proof.
  intros Hg. unfold column_total.
  induction by_model as [|item rest IH]; simpl; [reflexivity|].
  now rewrite sum_of_app, Hg, IH.
Qed.

Lemma sum_of_ones (l : list Hooks.call) :
  HooksReport.sum_of (fun _ => 1) l = Z.of_nat (List.length l).
Proof.
  unfold HooksReport.sum_of.
  induction l as [|c l IH]; cbn [fold_right List.length]; [reflexivity|].
  rewrite IH, Nat2Z.inj_succ. lia.
Qed.

Lemma Forall_dict_set {V : Type} (P : key * V -> Prop) (k : key) (v : V)
    (d : list (key * V)) :
  (forall k', P (k', v)) -> Forall P d -> Forall P (dict_set k v d).
Proof.
  intros Hv. induction 1 as [|[k' v'] rest Hx Hrest IH]; simpl.
  - constructor; [apply Hv|constructor].
  - destruct (key_eqb k' k); constructor; auto.
Qed.

(** The categorisation loop keeps one list for each model, and never an
    empty one. *)
Lemma categorize_from_lists (seen : list (key * Hooks.call))
    (acc cats : Hooks.categories) :
  for_each Hooks.categorize_call acc seen = Ok cats ->
  NoDup (map fst (Hooks.cat_by_model acc)) ->
  Forall (fun kv => snd kv <> []) (Hooks.cat_by_model acc) ->
  NoDup (map fst (Hooks.cat_by_model cats))
  /\ Forall (fun kv => snd kv <> []) (Hooks.cat_by_model cats).
Proof.
  revert acc. induction seen as [|[k data] rest IH]; intros acc Hc Hnd Hne.
  - inversion Hc; subst. auto.
  - apply for_each_ok_cons in Hc as (acc1 & H1 & Hc).
    apply (IH _ Hc); clear IH Hc;
      unfold Hooks.categorize_call in H1; cbn [snd] in H1;
      apply bind_ok in H1 as (hook & _ & H1);
      apply bind_ok in H1 as (km & _ & H1);
      destruct hook; inversion H1; subst acc1; cbn [Hooks.cat_by_model].
    1, 2: now apply dict_set_keys_nodup.
    1, 2: apply Forall_dict_set; [|exact Hne]; intros k'; cbn [snd];
      destruct (dict_get km (Hooks.cat_by_model acc)) as [l|];
      [destruct l|]; discriminate.
Qed.

(** X19. The table "API Calls by Model" against the categories of the
    same report: each model has one line, with at least one call; the
    calls of the lines add up to the main-agent calls plus the
    prompt-hook calls, and the output column to the two output
    totals; the input column counts cache reads for every model, so it
    adds up to the main agent's input and cache-read totals plus the
    prompt hooks' input total. *)
Theorem model_table_adds_up_to_categories :
  forall entries a,
    Hooks.parse_entries entries = Ok a ->
    NoDup (map HooksReport.line_model (HooksReport.model_lines a))
    /\ Forall (fun l => 1 <= HooksReport.line_calls l) (HooksReport.model_lines a)
    /\ column_total HooksReport.line_calls (HooksReport.model_lines a)
       = Hooks.api_calls (Hooks.main_agent a)
         + Hooks.count (Hooks.hooks_prompt a)
    /\ column_total HooksReport.line_input (HooksReport.model_lines a)
       = input_tokens (Hooks.main_tokens (Hooks.main_agent a))
         + cache_read (Hooks.main_tokens (Hooks.main_agent a))
         + Hooks.prompt_input_tokens (Hooks.hooks_prompt a)
    /\ column_total HooksReport.line_output (HooksReport.model_lines a)
       = output_tokens (Hooks.main_tokens (Hooks.main_agent a))
         + Hooks.prompt_output_tokens (Hooks.hooks_prompt a).
Proof.
  intros entries a Hp.
  apply hooks_parse_entries_inv in Hp as (st & cats & _ & Hc & ->).
  unfold HooksReport.model_lines.
  cbn [Hooks.main_agent Hooks.hooks_prompt Hooks.api_calls_by_model].
  unfold Hooks.categorize in Hc.
  destruct (categorize_from _ _ _ Hc) as (Hm & Ha & Hn & Hi & Ho).
  destruct (categorize_from_models _ _ _ Hc) as (_ & Hby).
  destruct (categorize_from_lists _ _ _ Hc) as (Hnd & Hne);
    [constructor|constructor|].
  simpl in Ha, Hn, Hi, Ho, Hby.
  pose proof (Hm InputTokens) as Hmi. pose proof (Hm OutputTokens) as Hmo.
  pose proof (Hm CacheRead) as Hmr. simpl in Hmi, Hmo, Hmr. clear Hm.
  set (seen := Hooks.seen_request_ids st) in *.
  split; [|split; [|split; [|split]]].
  - rewrite map_map. exact Hnd.
  - apply Forall_map. apply Forall_impl with (2 := Hne).
    intros [k l] Hl. cbn [snd] in Hl. cbn.
    destruct l; [contradiction|]. simpl List.length. lia.
  - rewrite (column_of_sums (fun _ => 1)); [|intros item; symmetry; apply sum_of_ones].
    rewrite (sum_of_perm _ _ _ Hby), sum_of_values, (dict_sum_categories _ seen).
    rewrite Ha, Hn. f_equal.
    + clear. unfold dict_sum.
      induction (primary_calls seen) as [|x l IH];
        cbn [fold_right List.length]; [reflexivity|].
      rewrite IH, Nat2Z.inj_succ. lia.
    + clear. unfold dict_sum.
      induction (lightweight_calls seen) as [|x l IH];
        cbn [fold_right List.length]; [reflexivity|].
      rewrite IH, Nat2Z.inj_succ. lia.
  - rewrite (column_of_sums
               (fun c => input_tokens (Hooks.tokens c) + cache_read (Hooks.tokens c)));
      [|reflexivity].
    rewrite (sum_of_perm _ _ _ Hby), sum_of_values, (dict_sum_categories _ seen).
    rewrite Hmi, Hmr, Hi. f_equal.
    clear. unfold dict_sum.
    induction (primary_calls seen) as [|x l IH]; simpl; [reflexivity|].
    rewrite IH. lia.
  - rewrite (column_of_sums (fun c => output_tokens (Hooks.tokens c)));
      [|reflexivity].
    rewrite (sum_of_perm _ _ _ Hby), sum_of_values, (dict_sum_categories _ seen).
    rewrite Hmo, Ho. reflexivity.
Qed.

Lemma model_table_adds_up_to_categories_witness :
  exists a,
    Hooks.parse_entries two_model_log = Ok a
    /\ List.length (HooksReport.model_lines a) = 2%nat
    /\ column_total HooksReport.line_input (HooksReport.model_lines a)
       = input_tokens (Hooks.main_tokens (Hooks.main_agent a))
         + cache_read (Hooks.main_tokens (Hooks.main_agent a))
         + Hooks.prompt_input_tokens (Hooks.hooks_prompt a)
    /\ column_total HooksReport.line_input (HooksReport.model_lines a) = 22.
Proof.
  assert (Hp : exists a, Hooks.parse_entries two_model_log = Ok a
                         /\ List.length (HooksReport.model_lines a) = 2%nat
                         /\ column_total HooksReport.line_input
                              (HooksReport.model_lines a) = 22)
    by (eexists; vm_compute; repeat split).
  destruct Hp as (a & Hp & Hl & Hv).
  destruct (model_table_adds_up_to_categories two_model_log a Hp)
    as (_ & _ & _ & Hin & _).
  exists a. auto.
Defined.

Lemma length_append (s1 s2 : string) :
  String.length (s1 ++ s2) = (String.length s1 + String.length s2)%nat.
Proof. induction s1 as [|c s1 IH]; simpl; congruence. Qed.

Lemma slice_to_append (n : nat) (s1 s2 : string) :
  String.length s1 = n -> slice_to n (s1 ++ s2) = s1.
Proof.
  unfold slice_to. revert n.
  induction s1 as [|c s1 IH]; intros n Hn; simpl in *; subst n.
  - destruct s2; reflexivity.
  - simpl. f_equal. now apply IH.
Qed.

Lemma slice_to_truncated (prompt : string) :
  slice_to 60 (SessionReport.truncated prompt) = slice_to 60 prompt.
Proof.
  unfold SessionReport.truncated.
  destruct (60 <? String.length prompt)%nat eqn:E; [|reflexivity].
  apply Nat.ltb_lt in E. apply slice_to_append.
  rewrite slice_to_length. lia.
Qed.

Lemma firstn_map_comm {A B : Type} (f : A -> B) (n : nat) (l : list A) :
  firstn n (map f l) = map f (firstn n l).
Proof.
  revert l. induction n as [|n IH]; intros [|x l]; simpl; [reflexivity..|].
  now rewrite IH.
Qed.

(** X20. The prompt lines of the two reports: each report shows at most
    five prompts, the same number in both; a line of the session report
    has at most 63 characters, the three dots included; the text of a
    line of the hook report, before the dots that always follow it, has
    at most 60 characters and no line break; and that text is the first
    60 characters of the session report's line, with line breaks turned
    into spaces. *)
Theorem prompt_lines_of_the_reports :
  forall entries r a,
    Session.parse_entries entries = Ok r ->
    Hooks.parse_entries entries = Ok a ->
    (List.length (SessionReport.shown_prompts r) <= 5)%nat
    /\ List.length (SessionReport.shown_prompts r)
       = Nat.min 5 (List.length (Session.user_prompts r))
    /\ List.length (HooksReport.shown_prompts a)
       = List.length (SessionReport.shown_prompts r)
    /\ Forall (fun l => (String.length l <= 63)%nat) (SessionReport.shown_prompts r)
    /\ Forall (fun l => (String.length l <= 60)%nat /\ has_newline l = false)
         (HooksReport.shown_prompts a)
    /\ HooksReport.shown_prompts a
       = map (fun l => replace_char "010" " " (slice_to 60 l))
           (SessionReport.shown_prompts r).
Proof.
  intros entries r a Hp Ha.
  apply session_parse_entries_scan in Hp as (seen & Hs).
  apply hooks_parse_entries_inv in Ha as (st & cats & Hh & _ & ->).
  apply session_scan_frame in Hs as [_ Hsp]. cbn [snd] in Hsp. simpl in Hsp.
  apply hooks_scan_frame in Hh. simpl in Hh.
  assert (Heq : Session.user_prompts r
                = map (fun p => slice_to 100 (Hooks.content p))
                    (Hooks.scan_user_prompts st)).
  { rewrite Hsp.
    rewrite <- (map_map Hooks.content (slice_to 100)), Hh, map_map.
    apply map_ext. intros s. symmetry. apply slice_to_slice_to. lia. }
  unfold SessionReport.shown_prompts, HooksReport.shown_prompts.
  cbn [Hooks.user_prompts]. rewrite Heq.
  rewrite !length_map, firstn_map_comm, !length_map, !length_firstn.
  split; [lia|]. split; [reflexivity|]. split; [reflexivity|].
  split; [|split].
  - rewrite map_map. apply Forall_map, Forall_forall. intros p _.
    unfold SessionReport.truncated.
    destruct (60 <? String.length (slice_to 100 (Hooks.content p)))%nat eqn:E.
    + rewrite length_append, slice_to_length. simpl String.length. lia.
    + apply Nat.ltb_ge in E. lia.
  - apply Forall_map, Forall_forall. intros p _. split.
    + rewrite replace_char_length, slice_to_length. lia.
    + apply replace_char_absent. discriminate.
  - rewrite !map_map. apply map_ext. intros p.
    rewrite slice_to_truncated, slice_to_slice_to by lia. reflexivity.
Qed.

Lemma prompt_lines_of_the_reports_witness :
  exists r a,
    Session.parse_entries tool_log = Ok r
    /\ Hooks.parse_entries tool_log = Ok a
    /\ List.length (HooksReport.shown_prompts a) = 1%nat
    /\ List.length (HooksReport.shown_prompts a)
       = List.length (SessionReport.shown_prompts r).
Proof.
  assert (Hp : exists r, Session.parse_entries tool_log = Ok r)
    by (eexists; vm_compute; reflexivity).
  assert (Ha : exists a, Hooks.parse_entries tool_log = Ok a
                         /\ List.length (HooksReport.shown_prompts a) = 1%nat)
    by (eexists; vm_compute; split; reflexivity).
  destruct Hp as (r & Hp), Ha as (a & Ha & Hl).
  destruct (prompt_lines_of_the_reports tool_log r a Hp Ha) as (_ & _ & He & _).
  exists r, a. auto.
Defined.

(** ** The comparison table *)

Lemma dict_get_In_value {V : Type} (k : key) (v : V) (d : list (key * V)) :
  dict_get k d = Some v -> exists k', In (k', v) d.
Proof.
  induction d as [|[k' v'] rest IH]; simpl; [discriminate|].
  destruct (key_eqb k' k).
  - intros Hg. inversion Hg; subst. exists k'. now left.
  - intros Hg. destruct (IH Hg) as (k'' & Hin). exists k''. now right.
Qed.

Lemma hooks_fold_usage_non_negative (rid m usage : json)
    (seen seen' : list (key * Hooks.call)) :
  Hooks.fold_usage rid m usage seen = Ok seen' ->
  Forall non_negative_call seen -> Forall non_negative_call seen'.
Proof.
  unfold Hooks.fold_usage. intros Hf Hall.
  apply bind_ok in Hf as (k & _ & Hf).
  apply bind_ok in Hf as (i & _ & Hf).
  apply bind_ok in Hf as (o & _ & Hf).
  apply bind_ok in Hf as (cc & _ & Hf).
  apply bind_ok in Hf as (cr & _ & Hf).
  inversion Hf; subst seen'; clear Hf.
  assert (Hcur : forall c, 0 <= row_get (Hooks.tokens (Hooks.call_of k m seen)) c).
  { intros c. unfold Hooks.call_of.
    destruct (dict_get k seen) as [data|] eqn:Eg; [|now destruct c].
    apply dict_get_In_value in Eg as (k' & Hin).
    rewrite Forall_forall in Hall. exact (Hall _ Hin c). }
  apply Forall_dict_set; [|exact Hall].
  intros k' c. cbn [snd Hooks.tokens].
  pose proof (Hcur c) as Hc. destruct c; simpl in Hc |- *; lia.
Qed.

Lemma hooks_scan_non_negative (entries : list json) (st st' : Hooks.scan_state) :
  Hooks.scan st entries = Ok st' ->
  Forall non_negative_call (Hooks.seen_request_ids st) ->
  Forall non_negative_call (Hooks.seen_request_ids st').
Proof.
  unfold Hooks.scan. revert st.
  induction entries as [|e rest IH]; intros st Hs Hall.
  - inversion Hs; subst. exact Hall.
  - apply for_each_ok_cons in Hs as (st1 & H1 & Hs).
    apply (IH _ Hs). apply hooks_scan_entry_usage in H1.
    destruct (assistant_usage e) as [[rid usage]|]; [|now rewrite H1].
    destruct (truthy rid); [|now rewrite H1].
    destruct H1 as (m & Hf).
    exact (hooks_fold_usage_non_negative _ _ _ _ _ Hf Hall).
Qed.

Lemma dict_sum_non_negative (f : Hooks.call -> Z) (p : key * Hooks.call -> bool)
    (seen : list (key * Hooks.call)) :
  (forall kv, non_negative_call kv -> 0 <= f (snd kv)) ->
  Forall non_negative_call seen ->
  0 <= dict_sum f (filter p seen).
Proof.
  intros Hf. unfold dict_sum.
  induction 1 as [|kv rest Hkv Hrest IH]; simpl; [lia|].
  destruct (p kv); simpl; [|exact IH].
  specialize (Hf kv Hkv). lia.
Qed.

(** What the hook analyzer reports of a log is never negative. *)
Lemma hooks_categories_non_negative (entries : list json) (a : Hooks.analysis) :
  Hooks.parse_entries entries = Ok a ->
  (forall c, 0 <= row_get (Hooks.main_tokens (Hooks.main_agent a)) c)
  /\ 0 <= Hooks.api_calls (Hooks.main_agent a)
  /\ 0 <= Hooks.count (Hooks.hooks_prompt a)
  /\ 0 <= Hooks.prompt_input_tokens (Hooks.hooks_prompt a)
  /\ 0 <= Hooks.prompt_output_tokens (Hooks.hooks_prompt a).
Proof.
  intros Hp.
  apply hooks_parse_entries_inv in Hp as (st & cats & Hs & Hc & ->).
  cbn [Hooks.main_agent Hooks.hooks_prompt].
  apply hooks_scan_non_negative in Hs; [|constructor].
  unfold Hooks.categorize in Hc.
  apply categorize_from in Hc as (Hm & Ha & Hn & Hi & Ho).
  simpl in Ha, Hn, Hi, Ho.
  split; [|split; [lia|split; [lia|split]]].
  - intros c. rewrite Hm.
    cbn [Hooks.cat_main_agent Hooks.empty_categories Hooks.main_tokens].
    rewrite row_get_zero.
    assert (0 <= dict_sum (fun data => row_get (Hooks.tokens data) c)
                   (primary_calls (Hooks.seen_request_ids st))); [|lia].
    apply dict_sum_non_negative; [|exact Hs]. intros kv Hkv. apply Hkv.
  - rewrite Hi. apply dict_sum_non_negative; [|exact Hs].
    intros kv Hkv. pose proof (Hkv InputTokens). pose proof (Hkv CacheRead).
    simpl in *. lia.
  - rewrite Ho. apply dict_sum_non_negative; [|exact Hs].
    intros kv Hkv. exact (Hkv OutputTokens).
Qed.

(** X21. The comparison table of two parsed logs: no number in it is
    negative, so a difference is at least minus the baseline's number
    and at most the test's; the sign shown is an increase exactly when
    the test's number is the larger and a decrease exactly when the
    baseline's is; and in exact arithmetic none of the three costs is
    negative, so the overhead is at least minus the baseline cost. *)
Theorem comparison_numbers_are_non_negative :
  forall entries_b entries_t baseline test,
    Hooks.parse_entries entries_b = Ok baseline ->
    Hooks.parse_entries entries_t = Ok test ->
    Forall (fun row =>
              0 <= HooksReport.base_val row
              /\ 0 <= HooksReport.test_val row
              /\ - HooksReport.base_val row <= HooksReport.diff row
                 <= HooksReport.test_val row
              /\ (HooksReport.sign row = HooksReport.Increase
                  <-> HooksReport.base_val row < HooksReport.test_val row)
              /\ (HooksReport.sign row = HooksReport.Decrease
                  <-> HooksReport.test_val row < HooksReport.base_val row))
      (HooksReport.diff_rows baseline test)
    /\ exists ca,
        HooksReport.compare_sessions (F := Q) baseline test = Ok ca
        /\ (0 <= HooksReport.base_cost ca)%Q
        /\ (0 <= HooksReport.test_cost ca)%Q
        /\ (0 <= HooksReport.hook_cost ca)%Q
        /\ (- HooksReport.base_cost ca <= HooksReport.overhead ca)%Q.
Proof.
  intros entries_b entries_t baseline test Hb Ht.
  apply hooks_categories_non_negative in Hb as (Hbm & Hba & Hbn & Hbi & Hbo).
  apply hooks_categories_non_negative in Ht as (Htm & Hta & Htn & Hti & Hto).
  pose proof (Hbm InputTokens) as Hb1. pose proof (Hbm OutputTokens) as Hb2.
  pose proof (Hbm CacheCreation) as Hb3. pose proof (Hbm CacheRead) as Hb4.
  pose proof (Htm InputTokens) as Ht1. pose proof (Htm OutputTokens) as Ht2.
  pose proof (Htm CacheCreation) as Ht3. pose proof (Htm CacheRead) as Ht4.
  simpl in Hb1, Hb2, Hb3, Hb4, Ht1, Ht2, Ht3, Ht4. clear Hbm Htm.
  split.
  - assert (Hrow : forall l b t,
               0 <= b -> 0 <= t ->
               let row := HooksReport.diff_line (l, b, t) in
               0 <= HooksReport.base_val row
               /\ 0 <= HooksReport.test_val row
               /\ - HooksReport.base_val row <= HooksReport.diff row
                  <= HooksReport.test_val row
               /\ (HooksReport.sign row = HooksReport.Increase
                   <-> HooksReport.base_val row < HooksReport.test_val row)
               /\ (HooksReport.sign row = HooksReport.Decrease
                   <-> HooksReport.test_val row < HooksReport.base_val row)).
    { intros l b t H0b H0t. cbn. unfold HooksReport.sign_of.
      split; [exact H0b|]. split; [exact H0t|]. split; [lia|].
      destruct (Z.gtb_spec (t - b) 0); [split; split; (lia || discriminate || auto)|].
      destruct (Z.ltb_spec (t - b) 0); split; split;
        (lia || discriminate || auto). }
    unfold HooksReport.diff_rows, HooksReport.comparisons. cbn [map].
    repeat (apply Forall_cons; [apply Hrow; lia|]). constructor.
  - eexists. split; [reflexivity|].
    cbn [HooksReport.base_cost HooksReport.test_cost HooksReport.hook_cost
           HooksReport.overhead].
    simpl.
    assert (Hq : forall n, 0 <= n -> (0 <= inject_Z n)%Q).
    { intros n Hn. change 0%Q with (inject_Z 0). now rewrite <- Zle_Qle. }
    apply Hq in Hb1, Hb2, Hb3, Hb4, Ht1, Ht2, Ht3, Ht4, Hti, Hto.
    change (inject_Z 1000000) with (1000000 # 1)%Q.
    change (inject_Z 0) with 0%Q.
    repeat match goal with
           | H : (0 <= inject_Z ?n)%Q |- _ =>
               generalize dependent (inject_Z n); intros
           end.
    unfold Qdiv. change (/ (1000000 # 1))%Q with (1 # 1000000)%Q.
    repeat split; lra.
Qed.

Lemma comparison_numbers_are_non_negative_witness :
  exists baseline test ca,
    Hooks.parse_entries mixed_log = Ok baseline
    /\ Hooks.parse_entries two_model_log = Ok test
    /\ HooksReport.compare_sessions (F := Q) baseline test = Ok ca
    /\ (0 <= HooksReport.hook_cost ca)%Q.
Proof.
  assert (Hb : exists a, Hooks.parse_entries mixed_log = Ok a)
    by (eexists; vm_compute; reflexivity).
  assert (Ht : exists a, Hooks.parse_entries two_model_log = Ok a)
    by (eexists; vm_compute; reflexivity).
  destruct Hb as (baseline & Hb), Ht as (test & Ht).
  destruct (comparison_numbers_are_non_negative mixed_log two_model_log
              baseline test Hb Ht) as (_ & ca & Hc & _ & _ & Hh & _).
  exists baseline, test, ca. auto.
Defined.

Lemma extends_refl (seen : list (key * Hooks.call)) :
  Forall non_negative_call seen -> extends seen seen.
Proof.
  induction 1 as [|kv rest Hkv Hrest IH]; simpl; [constructor|].
  repeat split; [lia|exact IH].
Qed.

(** Storing the running maxima of a call keeps the calls stored before
    where and what they were, no counter lower. *)
Lemma extends_dict_set (base seen : list (key * Hooks.call)) (k : key) (m : json)
    (i o cc cr : Z) :
  extends base seen ->
  extends base
    (dict_set k
       {| Hooks.model := Hooks.model (Hooks.call_of k m seen);
          Hooks.tokens :=
            {| input_tokens :=
                 Z.max (input_tokens (Hooks.tokens (Hooks.call_of k m seen))) i;
               output_tokens :=
                 Z.max (output_tokens (Hooks.tokens (Hooks.call_of k m seen))) o;
               cache_creation :=
                 Z.max (cache_creation (Hooks.tokens (Hooks.call_of k m seen))) cc;
               cache_read :=
                 Z.max (cache_read (Hooks.tokens (Hooks.call_of k m seen))) cr |} |}
       seen).
Proof.
  revert seen. induction base as [|kv base IH]; intros seen Hext.
  - simpl in *.
    assert (Hcur : forall c,
               0 <= row_get (Hooks.tokens (Hooks.call_of k m seen)) c).
    { intros c. unfold Hooks.call_of.
      destruct (dict_get k seen) as [data|] eqn:Eg; [|now destruct c].
      apply dict_get_In_value in Eg as (k' & Hin).
      rewrite Forall_forall in Hext. exact (Hext _ Hin c). }
    apply Forall_dict_set; [|exact Hext].
    intros k' c. cbn [snd Hooks.tokens].
    pose proof (Hcur c) as Hc. destruct c; simpl in Hc |- *; lia.
  - destruct seen as [|[k' v'] seen]; [contradiction|].
    destruct Hext as (Hk & Hm & Hle & Hext). cbn [fst snd] in Hk, Hm, Hle.
    unfold Hooks.call_of. cbn [dict_set dict_get].
    destruct (key_eqb k' k) eqn:E.
    + cbn [extends fst snd Hooks.model Hooks.tokens].
      split; [exact Hk|]. split; [exact Hm|]. split; [|exact Hext].
      intros c. specialize (Hle c). destruct c; simpl in Hle |- *; lia.
    + cbn [extends fst snd]. split; [exact Hk|]. split; [exact Hm|].
      split; [exact Hle|]. apply (IH _ Hext).
Qed.

Lemma hooks_scan_extends (more : list json) (base : list (key * Hooks.call))
    (st st' : Hooks.scan_state) :
  Hooks.scan st more = Ok st' ->
  extends base (Hooks.seen_request_ids st) ->
  extends base (Hooks.seen_request_ids st').
Proof.
  unfold Hooks.scan. revert st.
  induction more as [|e rest IH]; intros st Hs Hext.
  - inversion Hs; subst. exact Hext.
  - apply for_each_ok_cons in Hs as (st1 & H1 & Hs).
    apply (IH _ Hs). apply hooks_scan_entry_usage in H1.
    destruct (assistant_usage e) as [[rid usage]|]; [|now rewrite H1].
    destruct (truthy rid); [|now rewrite H1].
    destruct H1 as (m & Hf). unfold Hooks.fold_usage in Hf.
    apply bind_ok in Hf as (k & _ & Hf).
    apply bind_ok in Hf as (i & _ & Hf).
    apply bind_ok in Hf as (o & _ & Hf).
    apply bind_ok in Hf as (cc & _ & Hf).
    apply bind_ok in Hf as (cr & _ & Hf).
    inversion Hf as [Heq]. now apply extends_dict_set.
Qed.

(** A sum over the calls of one category does not get smaller when the
    stored calls are continued. *)
Lemma dict_sum_extends (f : Hooks.call -> Z) (p : Hooks.call -> bool)
    (base seen : list (key * Hooks.call)) :
  (forall c c', Hooks.model c = Hooks.model c' -> p c = p c') ->
  (forall c c',
      (forall x, row_get (Hooks.tokens c) x <= row_get (Hooks.tokens c') x) ->
      f c <= f c') ->
  (forall kv, non_negative_call kv -> 0 <= f (snd kv)) ->
  extends base seen ->
  dict_sum f (filter (fun kv => p (snd kv)) base)
  <= dict_sum f (filter (fun kv => p (snd kv)) seen).
Proof.
  intros Hp Hf H0. revert seen.
  induction base as [|kv base IH]; intros seen Hext.
  - simpl in Hext. cbn [filter]. change (dict_sum f []) with 0.
    now apply dict_sum_non_negative.
  - destruct seen as [|kv' seen]; [contradiction|].
    destruct Hext as (_ & Hm & Hle & Hext).
    cbn [filter]. rewrite (Hp _ _ Hm).
    specialize (IH _ Hext). specialize (Hf _ _ Hle).
    destruct (p (snd kv')); unfold dict_sum in *; simpl; lia.
Qed.

Lemma is_lightweight_model (c c' : Hooks.call) :
  Hooks.model c = Hooks.model c' -> is_lightweight c = is_lightweight c'.
Proof. unfold is_lightweight. now intros ->. Qed.

Lemma dict_sum_ones {V : Type} (d : list (key * V)) :
  dict_sum (fun _ => 1) d = Z.of_nat (List.length d).
Proof.
  unfold dict_sum.
  induction d as [|x l IH]; cbn [fold_right List.length]; [reflexivity|].
  rewrite IH, Nat2Z.inj_succ. lia.
Qed.

(** X22. A log and the same log with more records after it: no number
    of the comparison table is lower for the longer log, so no row
    shows a decrease; and in exact arithmetic the test cost is at
    least the baseline cost, so the overhead is at least the hook
    cost. *)
Theorem longer_log_never_compares_lower :
  forall entries more baseline test,
    Hooks.parse_entries entries = Ok baseline ->
    Hooks.parse_entries (entries ++ more) = Ok test ->
    Forall (fun row =>
              HooksReport.base_val row <= HooksReport.test_val row
              /\ 0 <= HooksReport.diff row
              /\ HooksReport.sign row <> HooksReport.Decrease)
      (HooksReport.diff_rows baseline test)
    /\ exists ca,
        HooksReport.compare_sessions (F := Q) baseline test = Ok ca
        /\ (HooksReport.base_cost ca <= HooksReport.test_cost ca)%Q
        /\ (HooksReport.hook_cost ca <= HooksReport.overhead ca)%Q.
Proof.
  intros entries more baseline test Hb Ht.
  apply hooks_parse_entries_inv in Hb as (st1 & cats1 & Hs1 & Hc1 & ->).
  apply hooks_parse_entries_inv in Ht as (st2 & cats2 & Hs2 & Hc2 & ->).
  unfold Hooks.scan in Hs2.
  apply for_each_ok_app in Hs2 as (st1' & Hs1' & Hs2).
  fold (Hooks.scan Hooks.empty_scan entries) in Hs1'.
  rewrite Hs1 in Hs1'. inversion Hs1'; subst st1'; clear Hs1'.
  fold (Hooks.scan st1 more) in Hs2.
  pose proof (hooks_scan_non_negative _ _ _ Hs1 (Forall_nil _)) as Hnn.
  pose proof (hooks_scan_extends _ _ _ _ Hs2 (extends_refl _ Hnn)) as Hext.
  pose proof (hooks_scan_frame _ _ _ Hs2) as Hfr.
  assert (Hup : (List.length (Hooks.scan_user_prompts st1)
                 <= List.length (Hooks.scan_user_prompts st2))%nat).
  { apply (f_equal (@List.length _)) in Hfr.
    rewrite length_app, !length_map in Hfr. lia. }
  unfold Hooks.categorize in Hc1, Hc2.
  apply categorize_from in Hc1 as (Hm1 & Ha1 & Hn1 & Hi1 & Ho1).
  apply categorize_from in Hc2 as (Hm2 & Ha2 & Hn2 & Hi2 & Ho2).
  simpl in Ha1, Hn1, Hi1, Ho1, Ha2, Hn2, Hi2, Ho2.
  set (s1 := Hooks.seen_request_ids st1) in *.
  set (s2 := Hooks.seen_request_ids st2) in *.
  assert (Hprim : forall f,
             (forall c c',
                 (forall x, row_get (Hooks.tokens c) x
                            <= row_get (Hooks.tokens c') x) -> f c <= f c') ->
             (forall kv, non_negative_call kv -> 0 <= f (snd kv)) ->
             dict_sum f (primary_calls s1) <= dict_sum f (primary_calls s2)).
  { intros f Hf H0.
    apply (dict_sum_extends f (fun c => negb (is_lightweight c))); auto.
    intros c c' Hm. f_equal. now apply is_lightweight_model. }
  assert (Hlight : forall f,
             (forall c c',
                 (forall x, row_get (Hooks.tokens c) x
                            <= row_get (Hooks.tokens c') x) -> f c <= f c') ->
             (forall kv, non_negative_call kv -> 0 <= f (snd kv)) ->
             dict_sum f (lightweight_calls s1) <= dict_sum f (lightweight_calls s2)).
  { intros f Hf H0.
    apply (dict_sum_extends f is_lightweight); auto.
    apply is_lightweight_model. }
  assert (Hrow : forall c,
             row_get (Hooks.main_tokens (Hooks.cat_main_agent cats1)) c
             <= row_get (Hooks.main_tokens (Hooks.cat_main_agent cats2)) c).
  { intros c. rewrite Hm1, Hm2.
    apply Z.add_le_mono_l. apply Hprim; [intros d d' Hle; apply Hle|].
    intros kv Hkv. apply Hkv. }
  assert (Hcalls : Hooks.api_calls (Hooks.cat_main_agent cats1)
                   <= Hooks.api_calls (Hooks.cat_main_agent cats2)).
  { rewrite Ha1, Ha2, <- !dict_sum_ones. apply Hprim; intros; lia. }
  assert (Hcount : Hooks.count (Hooks.cat_prompt cats1)
                   <= Hooks.count (Hooks.cat_prompt cats2)).
  { rewrite Hn1, Hn2, <- !dict_sum_ones. apply Hlight; intros; lia. }
  assert (Hin : Hooks.prompt_input_tokens (Hooks.cat_prompt cats1)
                <= Hooks.prompt_input_tokens (Hooks.cat_prompt cats2)).
  { rewrite Hi1, Hi2. apply Hlight.
    - intros d d' Hle. pose proof (Hle InputTokens). pose proof (Hle CacheRead).
      simpl in *. lia.
    - intros kv Hkv. pose proof (Hkv InputTokens). pose proof (Hkv CacheRead).
      simpl in *. lia. }
  assert (Hout : Hooks.prompt_output_tokens (Hooks.cat_prompt cats1)
                 <= Hooks.prompt_output_tokens (Hooks.cat_prompt cats2)).
  { rewrite Ho1, Ho2. apply Hlight.
    - intros d d' Hle. exact (Hle OutputTokens).
    - intros kv Hkv. exact (Hkv OutputTokens). }
  pose proof (Hrow InputTokens) as H1. pose proof (Hrow OutputTokens) as H2.
  pose proof (Hrow CacheCreation) as H3. pose proof (Hrow CacheRead) as H4.
  simpl in H1, H2, H3, H4.
  clear Hm1 Hm2 Ha1 Ha2 Hn1 Hn2 Hi1 Hi2 Ho1 Ho2 Hprim Hlight Hrow.
  split.
  - assert (Hline : forall l b t,
               b <= t ->
               let row := HooksReport.diff_line (l, b, t) in
               HooksReport.base_val row <= HooksReport.test_val row
               /\ 0 <= HooksReport.diff row
               /\ HooksReport.sign row <> HooksReport.Decrease).
    { intros l b t Hle. cbn. unfold HooksReport.sign_of.
      split; [exact Hle|]. split; [lia|].
      destruct (Z.gtb_spec (t - b) 0); [discriminate|].
      destruct (Z.ltb_spec (t - b) 0); [lia|discriminate]. }
    unfold HooksReport.diff_rows, HooksReport.comparisons.
    cbn [map Hooks.main_agent Hooks.hooks_prompt Hooks.user_prompts].
    repeat (apply Forall_cons; [apply Hline; lia|]). constructor.
  - eexists. split; [reflexivity|].
    cbn [HooksReport.base_cost HooksReport.test_cost HooksReport.hook_cost
           HooksReport.overhead].
    simpl.
    rewrite Zle_Qle in H1, H2, H3, H4.
    change (inject_Z 1000000) with (1000000 # 1)%Q.
    change (inject_Z 0) with 0%Q.
    unfold Qdiv. change (/ (1000000 # 1))%Q with (1 # 1000000)%Q.
    split; lra.
Qed.

Lemma longer_log_never_compares_lower_witness :
  exists baseline test ca,
    Hooks.parse_entries mixed_log = Ok baseline
    /\ Hooks.parse_entries (mixed_log ++ two_model_log) = Ok test
    /\ HooksReport.compare_sessions (F := Q) baseline test = Ok ca
    /\ (HooksReport.hook_cost ca <= HooksReport.overhead ca)%Q.
Proof.
  assert (Hb : exists a, Hooks.parse_entries mixed_log = Ok a)
    by (eexists; vm_compute; reflexivity).
  assert (Ht : exists a, Hooks.parse_entries (mixed_log ++ two_model_log) = Ok a)
    by (eexists; vm_compute; reflexivity).
  destruct Hb as (baseline & Hb), Ht as (test & Ht).
  destruct (longer_log_never_compares_lower mixed_log two_model_log
              baseline test Hb Ht) as (_ & ca & Hc & _ & Hh).
  exists baseline, test, ca. auto.
Defined.

(** ** The latest session, as each tool finds it *)

Lemma hd_insert_sorted {A : Type} (before : A -> A -> bool) (x : A) (l : list A) :
  hd_error (insert_sorted before x l)
  = match hd_error l with
    | None => Some x
    | Some y => if before x y then Some x else Some y
    end.
Proof. destruct l as [|y rest]; simpl; [reflexivity|]. now destruct (before x y). Qed.

Lemma hd_sorted_first_newest (files : list Files.session_file) :
  hd_error (Files.get_hook_lab_sessions (Some files)) = first_newest files.
Proof.
  cbn [Files.get_hook_lab_sessions].
  induction files as [|x rest IH]; [reflexivity|].
  cbn [sorted fold_right first_newest].
  rewrite hd_insert_sorted. unfold sorted in IH. rewrite IH. reflexivity.
Qed.

Lemma Qle_bool_false (a b : Q) : Qle_bool a b = false -> (b < a)%Q.
Proof.
  intros H. apply Qnot_le_lt. intros Hle. apply Qle_bool_iff in Hle. congruence.
Qed.

Lemma newer_first_newest (files : list Files.session_file)
    (acc : option Files.session_file * Q) :
  fst (fold_left Files.newer files acc)
  = match first_newest files with
    | None => fst acc
    | Some y => if Qle_bool (Files.mtime y) (snd acc) then fst acc else Some y
    end.
Proof.
  revert acc. induction files as [|x rest IH]; intros [o m]; [reflexivity|].
  cbn [fold_left first_newest fold_right]. rewrite IH. clear IH.
  fold (first_newest rest). unfold Files.newer. cbn [fst snd].
  destruct (Qle_bool (Files.mtime x) m) eqn:Ex; cbn [fst snd].
  - apply Qle_bool_iff in Ex.
    destruct (first_newest rest) as [y|]; cbn.
    + destruct (Qle_bool (Files.mtime y) (Files.mtime x)) eqn:Eyx.
      * apply Qle_bool_iff in Eyx.
        assert (Hy : Qle_bool (Files.mtime y) m = true)
          by (apply Qle_bool_iff; lra).
        assert (Hx : Qle_bool (Files.mtime x) m = true)
          by (apply Qle_bool_iff; lra).
        now rewrite Hy, Hx.
      * reflexivity.
    + assert (Hx : Qle_bool (Files.mtime x) m = true)
        by (apply Qle_bool_iff; lra).
      now rewrite Hx.
  - apply Qle_bool_false in Ex.
    assert (Hx : Qle_bool (Files.mtime x) m = false).
    { destruct (Qle_bool (Files.mtime x) m) eqn:E; [|reflexivity].
      apply Qle_bool_iff in E. lra. }
    destruct (first_newest rest) as [y|]; cbn.
    + destruct (Qle_bool (Files.mtime y) (Files.mtime x)) eqn:Eyx.
      * now rewrite Hx.
      * apply Qle_bool_false in Eyx.
        destruct (Qle_bool (Files.mtime y) m) eqn:E; [|reflexivity].
        apply Qle_bool_iff in E. lra.
    + now rewrite Hx.
Qed.

(** X23. The two tools pick the same latest session of a project: when
    the project has a session directory, [find_latest_session] returns
    the path of the first session that [get_hook_lab_sessions] lists
    for the files of that directory, which is the session the hook
    analyzer reads when it is given no argument; only when that first
    session was not modified after time zero does
    [find_latest_session] find nothing. *)
Theorem latest_session_is_first_listed :
  forall fs project_path d,
    Files.search_dirs fs (Some project_path) = [d] ->
    Files.find_latest_session fs (Some project_path)
    = match Files.get_hook_lab_sessions (Some (snd d)) with
      | [] => None
      | first :: _ =>
          if Qle_bool (Files.mtime first) 0 then None
          else Some (Files.path first)
      end.
Proof.
  intros fs project_path d Hd.
  unfold Files.find_latest_session, Files.scan_latest. rewrite Hd.
  cbn [fold_left]. rewrite newer_first_newest, <- hd_sorted_first_newest.
  destruct (Files.get_hook_lab_sessions (Some (snd d))) as [|first rest];
    [reflexivity|].
  cbn [hd_error fst snd]. now destruct (Qle_bool (Files.mtime first) 0).
Qed.

Lemma latest_session_is_first_listed_witness :
  Files.find_latest_session sample_dir (Some "/home/corey/hook-lab")
  = Some "b.jsonl"
  /\ map Files.path
       (Files.get_hook_lab_sessions (Some (snd (hd ("", []) sample_projects))))
     = ["b.jsonl"; "c.jsonl"; "a.jsonl"].
Proof.
  split; [|reflexivity].
  rewrite (latest_session_is_first_listed sample_dir "/home/corey/hook-lab"
             (hd ("", []) sample_projects) eq_refl).
  reflexivity.
Defined.
